(** * libcloud.common.openstack: authentication and service catalog

    A shallow embedding of [libcloud/common/openstack.py]: the auth
    response parser, the four authentication exchanges, the service
    catalog index and the lazily authenticating base connection.

    Python objects are embedded as a small universe of dynamic values,
    raised exceptions as the [Raise] branch of [result], attribute
    mutation as explicit state passing.  The base connection and
    response classes (libcloud.common.base), the JSON codec and the URL
    splitter live outside this module: what this module calls of them
    is a section variable. *)

From Stdlib Require Import ZArith List String Ascii Bool Lia DecimalString.
Import ListNotations.
Local Open Scope string_scope.
Local Open Scope Z_scope.

(** ** Exceptions and the error monad *)

Inductive exn : Type :=
| LibcloudError (msg : string)
| InvalidCredsError
| MalformedResponseError (msg : string)
| KeyError
| TypeError
| AttributeError
| IndexError
| UnboundLocalError
| NotImplementedError
| TransportError (msg : string).

Inductive result (A : Type) : Type :=
| Ok (a : A)
| Raise (e : exn).
Arguments Ok {A} a.
Arguments Raise {A} e.

Definition bind {A B : Type} (m : result A) (k : A -> result B) : result B :=
  match m with
  | Ok a => k a
  | Raise e => Raise e
  end.

Notation "x <- m ;; k" := (bind m (fun x => k))
  (at level 61, m at next level, right associativity).

(** A [for] loop whose body may raise: the accumulator is the mutated
    object, the first exception leaves the loop. *)
Fixpoint for_each {S A : Type} (body : S -> A -> result S)
         (items : list A) (s : S) : result S :=
  match items with
  | [] => Ok s
  | x :: rest => s' <- body s x ;; for_each body rest s'
  end.

(** ** Python values *)

(** Dictionary keys.  Python hashes [True] and [1] (and [False] and [0])
    to the same key, so booleans are stored as their integer. *)
Inductive pykey : Type :=
| KNone
| KInt (z : Z)
| KStr (s : string).

#[warnings="-register-all"]
Inductive value : Type :=
| VNone
| VBool (b : bool)
| VInt (z : Z)
| VStr (s : string)
| VList (l : list value)
| VDict (d : list (pykey * value)).

Definition pykey_eq_dec (a b : pykey) : {a = b} + {a <> b}.
Proof. decide equality; [apply Z.eq_dec | apply string_dec]. Defined.

Definition value_of_key (k : pykey) : value :=
  match k with
  | KNone => VNone
  | KInt z => VInt z
  | KStr s => VStr s
  end.

(** [hash(v)]: lists and dicts are unhashable. *)
Definition hash_key (v : value) : result pykey :=
  match v with
  | VNone => Ok KNone
  | VBool b => Ok (KInt (Z.b2z b))
  | VInt z => Ok (KInt z)
  | VStr s => Ok (KStr s)
  | VList _ | VDict _ => Raise TypeError
  end.

(** Insertion-ordered dictionaries. *)
Fixpoint kget {V : Type} (k : pykey) (d : list (pykey * V)) : option V :=
  match d with
  | [] => None
  | (k', v) :: rest => if pykey_eq_dec k k' then Some v else kget k rest
  end.

Fixpoint kset {V : Type} (k : pykey) (v : V) (d : list (pykey * V)) : list (pykey * V) :=
  match d with
  | [] => [(k, v)]
  | (k', v') :: rest =>
      if pykey_eq_dec k k' then (k', v) :: rest else (k', v') :: kset k v rest
  end.

Definition kmem {V : Type} (k : pykey) (d : list (pykey * V)) : bool :=
  match kget k d with Some _ => true | None => false end.

(** Python's [==] on these values. *)
Fixpoint value_eqb (a b : value) {struct a} : bool :=
  match a, b with
  | VNone, VNone => true
  | VBool x, VBool y => Bool.eqb x y
  | VBool x, VInt y => Z.b2z x =? y
  | VInt x, VBool y => x =? Z.b2z y
  | VInt x, VInt y => x =? y
  | VStr x, VStr y => String.eqb x y
  | VList l1, VList l2 =>
      (fix go (l1 l2 : list value) {struct l1} : bool :=
         match l1, l2 with
         | [], [] => true
         | x :: xs, y :: ys => value_eqb x y && go xs ys
         | _, _ => false
         end) l1 l2
  | VDict d1, VDict d2 =>
      (Nat.eqb (List.length d1) (List.length d2) &&
       (fix go (d : list (pykey * value)) {struct d} : bool :=
          match d with
          | [] => true
          | (k, v) :: rest =>
              match kget k d2 with
              | Some v' => value_eqb v v' && go rest
              | None => false
              end
          end) d1)%bool
  | _, _ => false
  end.

(** [bool(v)] *)
Definition truthy (v : value) : bool :=
  match v with
  | VNone => false
  | VBool b => b
  | VInt z => negb (z =? 0)
  | VStr s => negb (String.eqb s "")
  | VList l => match l with [] => false | _ => true end
  | VDict d => match d with [] => false | _ => true end
  end.

(** [needle in hay] on strings *)
Fixpoint contains (needle hay : string) : bool :=
  (String.prefix needle hay ||
   match hay with
   | EmptyString => false
   | String _ rest => contains needle rest
   end)%bool.

Fixpoint chars (s : string) : list value :=
  match s with
  | EmptyString => []
  | String c rest => VStr (String c EmptyString) :: chars rest
  end.

(** [x in c] *)
Definition py_in (x c : value) : result bool :=
  match c with
  | VDict d => k <- hash_key x ;; Ok (kmem k d)
  | VList l => Ok (existsb (value_eqb x) l)
  | VStr s => match x with VStr n => Ok (contains n s) | _ => Raise TypeError end
  | _ => Raise TypeError
  end.

(** [len(c)] *)
Definition py_len (c : value) : result Z :=
  match c with
  | VList l => Ok (Z.of_nat (List.length l))
  | VDict d => Ok (Z.of_nat (List.length d))
  | VStr s => Ok (Z.of_nat (String.length s))
  | _ => Raise TypeError
  end.

(** A sequence index, negative ones counting from the end. *)
Definition seq_index (i : value) (len : nat) : result nat :=
  match i with
  | VInt _ | VBool _ =>
      let z := match i with VBool b => Z.b2z b | VInt z => z | _ => 0 end in
      let z' := if z <? 0 then z + Z.of_nat len else z in
      if (0 <=? z') && (z' <? Z.of_nat len) then Ok (Z.to_nat z')
      else Raise IndexError
  | _ => Raise TypeError
  end.

(** [c[i]] *)
Definition py_getitem (c i : value) : result value :=
  match c with
  | VDict d =>
      k <- hash_key i ;;
      match kget k d with Some v => Ok v | None => Raise KeyError end
  | VList l =>
      n <- seq_index i (List.length l) ;;
      match nth_error l n with Some v => Ok v | None => Raise IndexError end
  | VStr s =>
      n <- seq_index i (String.length s) ;;
      match nth_error (chars s) n with Some v => Ok v | None => Raise IndexError end
  | _ => Raise TypeError
  end.

(** [c.get(k, default)] *)
Definition py_get (c k default : value) : result value :=
  match c with
  | VDict d =>
      k' <- hash_key k ;;
      match kget k' d with Some v => Ok v | None => Ok default end
  | _ => Raise AttributeError
  end.

Fixpoint list_set {A : Type} (n : nat) (x : A) (l : list A) : list A :=
  match l, n with
  | [], _ => []
  | _ :: rest, O => x :: rest
  | y :: rest, S n' => y :: list_set n' x rest
  end.

(** [c[k] = v], returning the mutated container *)
Definition py_setitem (c k v : value) : result value :=
  match c with
  | VDict d => k' <- hash_key k ;; Ok (VDict (kset k' v d))
  | VList l => n <- seq_index k (List.length l) ;; Ok (VList (list_set n v l))
  | _ => Raise TypeError
  end.

(** [c.append(x)], returning the mutated list *)
Definition py_append (c x : value) : result value :=
  match c with
  | VList l => Ok (VList (l ++ [x])%list)
  | _ => Raise AttributeError
  end.

(** [for x in c] *)
Definition py_iter (c : value) : result (list value) :=
  match c with
  | VList l => Ok l
  | VStr s => Ok (chars s)
  | VDict d => Ok (map (fun kv => value_of_key (fst kv)) d)
  | _ => Raise TypeError
  end.

(** [c.items()] *)
Definition py_items (c : value) : result (list (value * value)) :=
  match c with
  | VDict d => Ok (map (fun kv => (value_of_key (fst kv), snd kv)) d)
  | _ => Raise AttributeError
  end.

(** Mutation of the object reached from [root] by subscripting along
    [path]: the object is shared with its parents, so the change is
    visible from the root. *)
Fixpoint modify_at (root : value) (path : list value)
         (f : value -> result value) : result value :=
  match path with
  | [] => f root
  | k :: rest =>
      child <- py_getitem root k ;;
      child' <- modify_at child rest f ;;
      py_setitem root k child'
  end.

(** ** OpenStackServiceCatalog *)

Definition dquote : string := String (ascii_of_nat 34) EmptyString.

Definition AUTH_API_VERSION : string := "1.1".

(** [ex_force_auth_version or AUTH_API_VERSION] *)
Definition effective_version (ex_force_auth_version : option string) : string :=
  match ex_force_auth_version with
  | Some v => if String.eqb v "" then AUTH_API_VERSION else v
  | None => AUTH_API_VERSION
  end.

Record OpenStackServiceCatalog : Type := mkCatalog {
  _auth_version : string;
  _service_catalog : value
}.

Definition is_v2 (version : string) : bool := contains "2.0" version.
Definition is_v1 (version : string) : bool :=
  (contains "1.1" version || contains "1.0" version)%bool.

(** Body of the inner loop of [_parse_auth_v1]. *)
Definition add_endpoint_v1 (service : value) (sc endpoint : value) : result value :=
  region <- py_get endpoint (VStr "region") VNone ;;
  regions <- py_getitem sc service ;;
  present <- py_in region regions ;;
  sc1 <- (if negb present
          then modify_at sc [service] (fun d => py_setitem d region (VList []))
          else Ok sc) ;;
  modify_at sc1 [service; region] (fun l => py_append l endpoint).

Definition _parse_auth_v1 (sc service_catalog : value) : result value :=
  items <- py_items service_catalog ;;
  for_each
    (fun sc item =>
       let '(service, endpoints) := item in
       sc1 <- py_setitem sc service (VDict []) ;;
       eps <- py_iter endpoints ;;
       for_each (add_endpoint_v1 service) eps sc1)
    items sc.

(** Body of the inner loop of [_parse_auth_v2]. *)
Definition add_endpoint_v2 (service_type service_name : value)
           (sc endpoint : value) : result value :=
  region <- py_get endpoint (VStr "region") VNone ;;
  names <- py_getitem sc service_type ;;
  regions <- py_getitem names service_name ;;
  present <- py_in region regions ;;
  sc1 <- (if negb present
          then modify_at sc [service_type; service_name]
                 (fun d => py_setitem d region (VList []))
          else Ok sc) ;;
  modify_at sc1 [service_type; service_name; region]
    (fun l => py_append l endpoint).

Definition parse_service_v2 (sc service : value) : result value :=
  service_type <- py_getitem service (VStr "type") ;;
  service_name <- py_get service (VStr "name") VNone ;;
  has_type <- py_in service_type sc ;;
  sc1 <- (if negb has_type
          then py_setitem sc service_type (VDict [])
          else Ok sc) ;;
  names <- py_getitem sc1 service_type ;;
  has_name <- py_in service_name names ;;
  sc2 <- (if negb has_name
          then modify_at sc1 [service_type]
                 (fun d => py_setitem d service_name (VDict []))
          else Ok sc1) ;;
  endpoints <- py_get service (VStr "endpoints") (VList []) ;;
  eps <- py_iter endpoints ;;
  for_each (add_endpoint_v2 service_type service_name) eps sc2.

Definition _parse_auth_v2 (sc service_catalog : value) : result value :=
  services <- py_iter service_catalog ;;
  for_each parse_service_v2 services sc.

(** [OpenStackServiceCatalog.__init__] *)
Definition new_catalog (service_catalog : value)
           (ex_force_auth_version : option string) : result OpenStackServiceCatalog :=
  let version := effective_version ex_force_auth_version in
  if is_v2 version then
    sc <- _parse_auth_v2 (VDict []) service_catalog ;;
    Ok (mkCatalog version sc)
  else if is_v1 version then
    sc <- _parse_auth_v1 (VDict []) service_catalog ;;
    Ok (mkCatalog version sc)
  else
    Raise (LibcloudError ("auth version " ++ dquote ++ version ++ dquote
                          ++ " not supported")).

(** The first statement of [get_endpoint]: the chain of [.get] calls. *)
Definition resolve_endpoints (self : OpenStackServiceCatalog)
           (service_type name region : value) : result value :=
  if is_v2 (_auth_version self) then
    names <- py_get (_service_catalog self) service_type (VDict []) ;;
    regions <- py_get names name (VDict []) ;;
    py_get regions region (VList [])
  else if is_v1 (_auth_version self) then
    regions <- py_get (_service_catalog self) name (VDict []) ;;
    py_get regions region (VList [])
  else
    Raise UnboundLocalError.

Definition get_endpoint (self : OpenStackServiceCatalog)
           (service_type name region : value) : result value :=
  endpoint <- resolve_endpoints self service_type name region ;;
  n <- py_len endpoint ;;
  if n =? 1 then py_getitem endpoint (VInt 0) else Ok (VDict []).

(** ** HTTP messages *)

Definition OK : Z := 200.
Definition NON_AUTHORITATIVE_INFORMATION : Z := 203.
Definition NO_CONTENT : Z := 204.
Definition UNAUTHORIZED : Z := 401.

(** Header dictionaries map names to strings. *)
Definition headers_t : Type := list (string * string).

Fixpoint hget (name : string) (h : headers_t) : option string :=
  match h with
  | [] => None
  | (n, v) :: rest => if String.eqb name n then Some v else hget name rest
  end.

Definition hmem (name : string) (h : headers_t) : bool :=
  match hget name h with Some _ => true | None => false end.

(** [headers[name] = v] *)
Fixpoint hset (name v : string) (h : headers_t) : headers_t :=
  match h with
  | [] => [(name, v)]
  | (n, v') :: rest =>
      if String.eqb name n then (n, v) :: rest else (n, v') :: hset name v rest
  end.

(** [headers.get(name, None)] as a Python value *)
Definition hget_value (name : string) (h : headers_t) : value :=
  match hget name h with Some v => VStr v | None => VNone end.

Record Response : Type := mkResponse {
  status : Z;
  body : string;
  headers : headers_t
}.

(** What the module hands to the connection's [request]. *)
Record Request : Type := mkRequest {
  req_url : string;
  req_action : string;
  req_data : option string;
  req_headers : headers_t;
  req_method : string
}.

(** [s.split(sep)[0]]: the text before the first separator *)
Fixpoint before (sep : ascii) (s : string) : string :=
  match s with
  | EmptyString => EmptyString
  | String c rest =>
      if Ascii.eqb c sep then EmptyString else String c (before sep rest)
  end.

(** ** OpenStackAuthResponse *)

Module OpenStackAuthResponse.
Section WithJson.
(** [json.loads]; [None] when it raises. *)
Variable json_loads : string -> option value.

Definition success (self : Response) : bool := true.

Definition parse_body (self : Response) : result value :=
  if String.eqb (body self) "" then Ok VNone
  else
    key <- (if hmem "content-type" (headers self) then Ok "content-type"
            else if hmem "Content-Type" (headers self) then Ok "Content-Type"
            else Raise (LibcloudError "Missing content-type header")) ;;
    content_type <- match hget key (headers self) with
                    | Some v => Ok v
                    | None => Raise KeyError
                    end ;;
    let content_type :=
      if contains ";" content_type then before ";"%char content_type
      else content_type in
    if String.eqb content_type "application/json" then
      match json_loads (body self) with
      | Some data => Ok data
      | None => Raise (MalformedResponseError "Failed to parse JSON")
      end
    else if String.eqb content_type "text/plain" then Ok (VStr (body self))
    else Ok (VStr (body self)).

(** Modelled from the spec: the constructor, which is the one of the
    base response class (libcloud.common.base, not under src/).  It
    keeps status, headers and body of the HTTP answer and parses the
    body at once, so that a failure of [parse_body] (the
    content-type-missing failure, the JSON failure) bubbles to the
    caller of [authenticate] and no response object is made.
    [success] is true of every answer, so it refuses none. *)
Definition new (response : Response) : result Response :=
  _ <- parse_body response ;; Ok response.
End WithJson.
End OpenStackAuthResponse.

(** ** Stateful methods

    A method runs on a state (the object and the requests sent so far)
    and leaves a state behind also when it raises. *)

Definition M (St A : Type) : Type := St -> result A * St.

Definition ret {St A : Type} (a : A) : M St A := fun s => (Ok a, s).
Definition raise {St A : Type} (e : exn) : M St A := fun s => (Raise e, s).
Definition lift {St A : Type} (r : result A) : M St A := fun s => (r, s).
Definition gets {St A : Type} (f : St -> A) : M St A := fun s => (Ok (f s), s).
Definition modify {St : Type} (f : St -> St) : M St unit := fun s => (Ok tt, f s).

Definition mbind {St A B : Type} (m : M St A) (k : A -> M St B) : M St B :=
  fun s =>
    match m s with
    | (Ok a, s') => k a s'
    | (Raise e, s') => (Raise e, s')
    end.

Notation "x <~ m ;; k" := (mbind m (fun x => k))
  (at level 61, m at next level, right associativity).
Notation "m ;;; k" := (mbind m (fun _ => k))
  (at level 61, right associativity).

(** [try: ... except KeyError: raise handler] *)
Definition except_KeyError {A : Type} (r : result A) (handler : exn) : result A :=
  match r with
  | Raise KeyError => Raise handler
  | other => other
  end.

(** ** OpenStackAuthConnection *)

Module OpenStackAuthConnection.

Record t : Type := mk {
  auth_version : string;
  auth_url : string;
  user_id : string;
  key : string;
  urls : value;
  auth_token : option value
}.

(** The object and the requests sent so far. *)
Definition St : Type := (t * list Request)%type.

Definition set_urls (u : value) : M St unit :=
  modify (fun '(self, log) =>
    (mk (auth_version self) (auth_url self) (user_id self) (key self)
        u (auth_token self), log)).

Definition set_auth_token (tok : value) : M St unit :=
  modify (fun '(self, log) =>
    (mk (auth_version self) (auth_url self) (user_id self) (key self)
        (urls self) (Some tok), log)).

(** The object [__init__] leaves: the assignments of l.88-91. *)
Definition new (auth_url auth_version user_id key : string) : t :=
  mk auth_version auth_url user_id key (VDict []) None.

(** [__init__].  It first calls the constructor of the base connection
    class (libcloud.common.base, not under src/) with the credentials
    and [url=auth_url] (l.85-86); [base_init] is that call, which
    returns or raises, and when it raises no object is made. *)
Definition __init__ (base_init : string -> string -> string -> result unit)
           (auth_url auth_version user_id key : string) : result t :=
  _ <- base_init user_id key auth_url ;;
  Ok (new auth_url auth_version user_id key).

Definition morph_action_hook (self : t) (action : string) : string := action.

Definition add_default_headers (self : t) (headers : headers_t) : headers_t :=
  hset "Content-Type" "application/json; charset=UTF-8"
       (hset "Accept" "application/json" headers).

Section WithCollaborators.
(** [self.request] of the base connection class (libcloud.common.base,
    not under src/): the response object it returns for a request, or
    the exception it raises, given the requests sent before it. *)
Variable transport : list Request -> Request -> result Response.
Variable json_loads : string -> option value.
Variable json_dumps : value -> string.

(** [responseCls = OpenStackAuthResponse] (l.77): the class the base
    connection makes its response objects with. *)
Definition responseCls : Response -> result Response :=
  OpenStackAuthResponse.new json_loads.

(** Modelled from the spec: [request] of the base connection class as
    far as this module sees it.  It sends the request over HTTP and
    makes the response object of the answer with [responseCls]; what
    the transport or the response class raises leaves [request]. *)
Definition base_request (http : list Request -> Request -> result Response)
  : list Request -> Request -> result Response :=
  fun log rq => response <- http log rq ;; responseCls response.

Definition request (action : string) (data : option string)
           (hdrs : headers_t) (method : string) : M St Response :=
  fun '(self, log) =>
    let rq := mkRequest (auth_url self) action data hdrs method in
    (transport log rq, (self, (log ++ [rq])%list)).

Definition authenticate_1_0 : M St unit :=
  user <~ gets (fun s => user_id (fst s)) ;;
  key <~ gets (fun s => key (fst s)) ;;
  resp <~ request "/v1.0" None
            [("X-Auth-User", user); ("X-Auth-Key", key)] "GET" ;;
  if status resp =? UNAUTHORIZED then raise InvalidCredsError
  else if negb (status resp =? NO_CONTENT) then
    raise (MalformedResponseError "Malformed response")
  else
    let headers := headers resp in
    set_urls (VDict []) ;;;
    set_urls (VDict
      [(KStr "cloudServers",
        VList [VDict [(KStr "publicURL",
                       hget_value "x-server-management-url" headers)]]);
       (KStr "cloudFilesCDN",
        VList [VDict [(KStr "publicURL",
                       hget_value "x-cdn-management-url" headers)]]);
       (KStr "cloudFiles",
        VList [VDict [(KStr "publicURL",
                       hget_value "x-storage-url" headers)]])]) ;;;
    let token := hget_value "x-auth-token" headers in
    set_auth_token token ;;;
    if negb (truthy token) then
      raise (MalformedResponseError "Missing X-Auth-Token in response headers")
    else ret tt.

Definition authenticate_1_1 : M St unit :=
  user <~ gets (fun s => user_id (fst s)) ;;
  key <~ gets (fun s => key (fst s)) ;;
  let reqbody := json_dumps
    (VDict [(KStr "credentials",
             VDict [(KStr "username", VStr user); (KStr "key", VStr key)])]) in
  resp <~ request "/v1.1/auth" (Some reqbody) [] "POST" ;;
  if status resp =? UNAUTHORIZED then raise InvalidCredsError
  else if negb (status resp =? OK) then
    raise (MalformedResponseError "Malformed response")
  else
    body <~ match json_loads (body resp) with
            | Some b => ret b
            | None => raise (MalformedResponseError "Failed to parse JSON")
            end ;;
    let missing :=
      MalformedResponseError "Auth JSON response is missing required elements" in
    token <~ lift (except_KeyError
               (auth <- py_getitem body (VStr "auth") ;;
                token <- py_getitem auth (VStr "token") ;;
                py_getitem token (VStr "id")) missing) ;;
    set_auth_token token ;;;
    catalog <~ lift (except_KeyError
                 (auth <- py_getitem body (VStr "auth") ;;
                  py_getitem auth (VStr "serviceCatalog")) missing) ;;
    set_urls catalog.

Definition authenticate_2_0_with_body (reqbody : string) : M St unit :=
  resp <~ request "/v2.0/tokens/" (Some reqbody)
            [("Content-Type", "application/json")] "POST" ;;
  if status resp =? UNAUTHORIZED then raise InvalidCredsError
  else if negb ((status resp =? OK)
                || (status resp =? NON_AUTHORITATIVE_INFORMATION)) then
    raise (MalformedResponseError "Malformed response")
  else
    body <~ match json_loads (body resp) with
            | Some b => ret b
            | None => raise (MalformedResponseError "Failed to parse JSON")
            end ;;
    let missing :=
      MalformedResponseError "Auth JSON response is missing required elements" in
    access <~ lift (except_KeyError (py_getitem body (VStr "access")) missing) ;;
    token <~ lift (except_KeyError (py_getitem access (VStr "token")) missing) ;;
    id <~ lift (except_KeyError (py_getitem token (VStr "id")) missing) ;;
    set_auth_token id ;;;
    catalog <~ lift (except_KeyError
                 (py_getitem access (VStr "serviceCatalog")) missing) ;;
    set_urls catalog.

Definition authenticate_2_0_with_apikey : M St unit :=
  user <~ gets (fun s => user_id (fst s)) ;;
  key <~ gets (fun s => key (fst s)) ;;
  authenticate_2_0_with_body (json_dumps
    (VDict [(KStr "auth",
             VDict [(KStr "RAX-KSKEY:apiKeyCredentials",
                     VDict [(KStr "username", VStr user);
                            (KStr "apiKey", VStr key)])])])).

Definition authenticate_2_0_with_password : M St unit :=
  user <~ gets (fun s => user_id (fst s)) ;;
  key <~ gets (fun s => key (fst s)) ;;
  authenticate_2_0_with_body (json_dumps
    (VDict [(KStr "auth",
             VDict [(KStr "passwordCredentials",
                     VDict [(KStr "username", VStr user);
                            (KStr "password", VStr key)])])])).

Definition authenticate : M St unit :=
  version <~ gets (fun s => auth_version (fst s)) ;;
  if String.eqb version "1.0" then authenticate_1_0
  else if String.eqb version "1.1" then authenticate_1_1
  else if (String.eqb version "2.0" || String.eqb version "2.0_apikey")%bool then
    authenticate_2_0_with_apikey
  else if String.eqb version "2.0_password" then
    authenticate_2_0_with_password
  else raise (LibcloudError "Unsupported Auth Version requested").

End WithCollaborators.
End OpenStackAuthConnection.

(** ** OpenStackBaseConnection *)

Module OpenStackBaseConnection.

Record t : Type := mk {
  auth_url : option string;
  auth_token : value;
  service_catalog : option OpenStackServiceCatalog;
  _ex_force_base_url : option string;
  _ex_force_auth_url : option string;
  _auth_version : string;
  user_id : string;
  key : string;
  accept_format : value;
  host : option string;
  port : option Z;
  secure : bool;
  request_path : option string
}.

Definition St : Type := (t * list Request)%type.

(** [__init__]; [auth_url] and [accept_format] are class attributes of
    the concrete driver.  The constructor of the base connection class
    (libcloud.common.base, not under src/) is handed the credentials
    and [secure] alone (l.299-300): the arguments [host] and [port] go
    nowhere, and [base_defaults secure] is what that constructor leaves
    in host, port, secure and request_path. *)
Definition new
           (base_defaults : bool -> option string * option Z * bool * option string)
           (auth_url : option string) (accept_format : value)
           (user_id key : string) (secure : bool)
           (host : option string) (port : option Z)
           (ex_force_base_url ex_force_auth_url ex_force_auth_version : option string)
  : t :=
  let version := effective_version ex_force_auth_version in
  let base := base_defaults secure in
  mk auth_url VNone None ex_force_base_url ex_force_auth_url version
     user_id key accept_format
     (fst (fst (fst base))) (snd (fst (fst base))) (snd (fst base)) (snd base).

Definition set_auth_token (tok : value) (self : t) : t :=
  mk (auth_url self) tok (service_catalog self) (_ex_force_base_url self)
     (_ex_force_auth_url self) (_auth_version self) (user_id self) (key self)
     (accept_format self) (host self) (port self) (secure self)
     (request_path self).

Definition set_service_catalog (c : OpenStackServiceCatalog) (self : t) : t :=
  mk (auth_url self) (auth_token self) (Some c) (_ex_force_base_url self)
     (_ex_force_auth_url self) (_auth_version self) (user_id self) (key self)
     (accept_format self) (host self) (port self) (secure self)
     (request_path self).

Definition set_target (target : string * Z * bool * string) (self : t) : t :=
  let '(h, p, s, r) := target in
  mk (auth_url self) (auth_token self) (service_catalog self)
     (_ex_force_base_url self) (_ex_force_auth_url self) (_auth_version self)
     (user_id self) (key self) (accept_format self)
     (Some h) (Some p) s (Some r).

(** The authentication state of a connection. *)
Definition auth_state (self : t) :=
  (auth_token self, service_catalog self, host self, port self, secure self,
   request_path self).

(** [get_endpoint] of the base class itself. *)
Definition abstract_get_endpoint (self : t) : result value :=
  Raise NotImplementedError.

(** [add_default_headers] *)
Definition add_default_headers (self : t) (hdrs : list (pykey * value))
  : list (pykey * value) :=
  kset (KStr "Accept") (accept_format self)
       (kset (KStr "X-Auth-Token") (auth_token self) hdrs).

Section WithCollaborators.
(** [request] of the auth connection, the JSON codec, and the
    constructor of the base class as the auth connection calls it. *)
Variable transport : list Request -> Request -> result Response.
Variable json_loads : string -> option value.
Variable json_dumps : value -> string.
Variable base_init : string -> string -> string -> result unit.
(** [_tuple_from_url] of the base connection class. *)
Variable _tuple_from_url : value -> result (string * Z * bool * string).
(** The concrete driver's [get_endpoint]. *)
Variable get_endpoint : t -> result value.
(** [request] and [morph_action_hook] of the superclass. *)
Variable Kwargs : Type.
Variable super_request : Kwargs -> M St Response.
Variable super_morph_action_hook : string -> M St string.

Definition _populate_hosts_and_request_paths : M St unit :=
  token <~ gets (fun s => auth_token (fst s)) ;;
  if negb (truthy token) then
    self <~ gets fst ;;
    let aurl :=
      match _ex_force_auth_url self with
      | Some forced => Some forced
      | None => auth_url self
      end in
    match aurl with
    | None => raise (LibcloudError "OpenStack instance must have auth_url set")
    | Some aurl =>
        osa <~ lift (OpenStackAuthConnection.__init__ base_init
                       aurl (_auth_version self) (user_id self) (key self)) ;;
        osa <~ (fun '(self, log) =>
                  let '(r, (osa', log')) :=
                    OpenStackAuthConnection.authenticate
                      transport json_loads json_dumps (osa, log) in
                  (_ <- r ;; Ok osa', (self, log'))) ;;
        token <~ lift (match OpenStackAuthConnection.auth_token osa with
                       | Some tok => Ok tok
                       | None => Raise AttributeError
                       end) ;;
        modify (fun '(self, log) => (set_auth_token token self, log)) ;;;
        catalog <~ lift (new_catalog (OpenStackAuthConnection.urls osa)
                           (Some (_auth_version self))) ;;
        modify (fun '(self, log) => (set_service_catalog catalog self, log)) ;;;
        self <~ gets fst ;;
        url <~ lift (match _ex_force_base_url self with
                     | Some forced =>
                         if negb (String.eqb forced "") then Ok (VStr forced)
                         else get_endpoint self
                     | None => get_endpoint self
                     end) ;;
        target <~ lift (_tuple_from_url url) ;;
        modify (fun '(self, log) => (set_target target self, log))
    end
  else ret tt.

Definition morph_action_hook (action : string) : M St string :=
  _populate_hosts_and_request_paths ;;;
  super_morph_action_hook action.

Definition request (kwargs : Kwargs) : M St Response :=
  _populate_hosts_and_request_paths ;;;
  super_request kwargs.

End WithCollaborators.
End OpenStackBaseConnection.

(** * Vocabulary of the statements

    Typed views of the index and of the payload, the sample inputs of
    the examples, and a JSON codec to run them. *)

(** ** A JSON codec for the examples

    [json.loads] and [json.dumps] are variables of the model, and no
    theorem about the code depends on a codec.  The closed examples
    instantiate them with this one, a stand-in for the library on ASCII
    texts with integer numbers: [loads] answers [None] for numbers with
    a fraction or an exponent and for unicode escapes, which the value
    universe does not hold. *)

Module Json.

Definition is_ws (c : ascii) : bool :=
  (Ascii.eqb c " "%char || Ascii.eqb c (ascii_of_nat 10)
   || Ascii.eqb c (ascii_of_nat 13) || Ascii.eqb c (ascii_of_nat 9))%bool.

Fixpoint skip_ws (s : string) : string :=
  match s with
  | String c rest => if is_ws c then skip_ws rest else s
  | EmptyString => s
  end.

(** The character a backslash escape stands for. *)
Definition unescape (c : ascii) : option ascii :=
  if Ascii.eqb c (ascii_of_nat 34) then Some c
  else if Ascii.eqb c (ascii_of_nat 92) then Some c
  else if Ascii.eqb c "/"%char then Some c
  else if Ascii.eqb c "n"%char then Some (ascii_of_nat 10)
  else if Ascii.eqb c "r"%char then Some (ascii_of_nat 13)
  else if Ascii.eqb c "t"%char then Some (ascii_of_nat 9)
  else if Ascii.eqb c "b"%char then Some (ascii_of_nat 8)
  else if Ascii.eqb c "f"%char then Some (ascii_of_nat 12)
  else None.

(** The text of a string literal after its opening quote. *)
Fixpoint read_string (s : string) : option (string * string) :=
  match s with
  | EmptyString => None
  | String c rest =>
      if Ascii.eqb c (ascii_of_nat 34) then Some (EmptyString, rest)
      else if Ascii.eqb c (ascii_of_nat 92) then
        match rest with
        | String e rest1 =>
            match unescape e, read_string rest1 with
            | Some a, Some (text, rest') => Some (String a text, rest')
            | _, _ => None
            end
        | EmptyString => None
        end
      else if (nat_of_ascii c <? 32)%nat then None
      else match read_string rest with
           | Some (text, rest') => Some (String c text, rest')
           | None => None
           end
  end.

Definition digit (c : ascii) : option Z :=
  let n := Z.of_nat (nat_of_ascii c) in
  if (48 <=? n) && (n <=? 57) then Some (n - 48) else None.

Fixpoint read_digits (acc : Z) (s : string) : Z * string :=
  match s with
  | String c rest =>
      match digit c with
      | Some d => read_digits (10 * acc + d) rest
      | None => (acc, s)
      end
  | EmptyString => (acc, s)
  end.

(** An integer without its sign: no zero leads another digit. *)
Definition read_integer (s : string) : option (Z * string) :=
  match s with
  | String c rest =>
      match digit c with
      | Some 0 =>
          match rest with
          | String d _ =>
              match digit d with Some _ => None | None => Some (0, rest) end
          | EmptyString => Some (0, rest)
          end
      | Some _ => Some (read_digits 0 s)
      | None => None
      end
  | EmptyString => None
  end.

Definition read_literal (word : string) (v : value) (s : string)
  : option (value * string) :=
  if String.prefix word s
  then Some (v, String.substring (String.length word)
                  (String.length s - String.length word) s)
  else None.

Fixpoint read_value (fuel : nat) (s : string) {struct fuel}
  : option (value * string) :=
  match fuel with
  | O => None
  | S fuel =>
      match skip_ws s with
      | EmptyString => None
      | String c rest =>
          if Ascii.eqb c (ascii_of_nat 34) then
            match read_string rest with
            | Some (text, rest') => Some (VStr text, rest')
            | None => None
            end
          else if Ascii.eqb c "["%char then
            match skip_ws rest with
            | String "]"%char rest' => Some (VList [], rest')
            | _ => read_elements fuel rest []
            end
          else if Ascii.eqb c "{"%char then
            match skip_ws rest with
            | String "}"%char rest' => Some (VDict [], rest')
            | _ => read_members fuel rest []
            end
          else if Ascii.eqb c "-"%char then
            match read_integer rest with
            | Some (n, rest') => Some (VInt (- n), rest')
            | None => None
            end
          else
            match digit c with
            | Some _ =>
                match read_integer (String c rest) with
                | Some (n, rest') => Some (VInt n, rest')
                | None => None
                end
            | None =>
                match read_literal "null" VNone (String c rest) with
                | Some r => Some r
                | None =>
                    match read_literal "true" (VBool true) (String c rest) with
                    | Some r => Some r
                    | None => read_literal "false" (VBool false) (String c rest)
                    end
                end
            end
      end
  end
with read_elements (fuel : nat) (s : string) (acc : list value) {struct fuel}
  : option (value * string) :=
  match fuel with
  | O => None
  | S fuel =>
      match read_value fuel s with
      | Some (v, rest) =>
          match skip_ws rest with
          | String ","%char rest' => read_elements fuel rest' (acc ++ [v])
          | String "]"%char rest' => Some (VList (acc ++ [v]), rest')
          | _ => None
          end
      | None => None
      end
  end
with read_members (fuel : nat) (s : string) (acc : list (pykey * value))
     {struct fuel} : option (value * string) :=
  match fuel with
  | O => None
  | S fuel =>
      match skip_ws s with
      | String c rest =>
          if Ascii.eqb c (ascii_of_nat 34) then
            match read_string rest with
            | Some (name, rest1) =>
                match skip_ws rest1 with
                | String ":"%char rest2 =>
                    match read_value fuel rest2 with
                    | Some (v, rest3) =>
                        match skip_ws rest3 with
                        | String ","%char rest' =>
                            read_members fuel rest' (kset (KStr name) v acc)
                        | String "}"%char rest' =>
                            Some (VDict (kset (KStr name) v acc), rest')
                        | _ => None
                        end
                    | None => None
                    end
                | _ => None
                end
            | None => None
            end
          else None
      | EmptyString => None
      end
  end.

Definition loads (s : string) : option value :=
  match read_value (2 * String.length s + 2) s with
  | Some (v, rest) =>
      match skip_ws rest with
      | EmptyString => Some v
      | _ => None
      end
  | None => None
  end.

(** A string literal of an escape-free text. *)
Definition quoted (s : string) : string := dquote ++ s ++ dquote.

Definition backslash : string := String (ascii_of_nat 92) EmptyString.

Definition hex_digit (n : nat) : ascii :=
  if (n <? 10)%nat then ascii_of_nat (48 + n) else ascii_of_nat (87 + n).

(** The text of a string literal: quote, backslash and control
    characters escaped. *)
Fixpoint escape (s : string) : string :=
  match s with
  | EmptyString => EmptyString
  | String c rest =>
      let n := nat_of_ascii c in
      (if (n =? 34)%nat then backslash ++ dquote
       else if (n =? 92)%nat then backslash ++ backslash
       else if (n =? 10)%nat then backslash ++ "n"
       else if (n =? 13)%nat then backslash ++ "r"
       else if (n =? 9)%nat then backslash ++ "t"
       else if (n =? 8)%nat then backslash ++ "b"
       else if (n =? 12)%nat then backslash ++ "f"
       else if (n <? 32)%nat then
         backslash ++ "u00"
         ++ String (hex_digit (n / 16)) (String (hex_digit (n mod 16)) EmptyString)
       else String c EmptyString)
      ++ escape rest
  end.

Definition dump_string (s : string) : string := quoted (escape s).

Definition dump_key (k : pykey) : string :=
  match k with
  | KNone => quoted "null"
  | KInt z => quoted (NilZero.string_of_int (Z.to_int z))
  | KStr s => dump_string s
  end.

Fixpoint dumps (v : value) : string :=
  match v with
  | VNone => "null"
  | VBool true => "true"
  | VBool false => "false"
  | VInt z => NilZero.string_of_int (Z.to_int z)
  | VStr s => dump_string s
  | VList l =>
      "[" ++ (fix go (l : list value) : string :=
                match l with
                | [] => EmptyString
                | [x] => dumps x
                | x :: rest => dumps x ++ ", " ++ go rest
                end) l ++ "]"
  | VDict d =>
      "{" ++ (fix go (d : list (pykey * value)) : string :=
                match d with
                | [] => EmptyString
                | [(k, x)] => dump_key k ++ ": " ++ dumps x
                | (k, x) :: rest => dump_key k ++ ": " ++ dumps x ++ ", " ++ go rest
                end) d ++ "}"
  end.

End Json.

(** ** The index as a typed dictionary tree

    The catalog code only ever stores dictionaries of dictionaries (of
    dictionaries) of lists.  [embed2] and [embed3] give the value such a
    tree stands for; the [t_] twins of the parsers read the payload with
    the same primitives in the same order as the source and work on the
    tree. *)

(** Values stored under the keys of a dictionary, transformed. *)
Definition kmap {V W : Type} (f : V -> W) (d : list (pykey * V)) : list (pykey * W) :=
  map (fun kv => (fst kv, f (snd kv))) d.

Definition regions_t : Type := list (pykey * list value).
Definition names_t : Type := list (pykey * regions_t).
Definition types_t : Type := list (pykey * names_t).

Definition embed1 (d : regions_t) : value := VDict (kmap VList d).
Definition embed2 (d : names_t) : value := VDict (kmap embed1 d).
Definition embed3 (d : types_t) : value := VDict (kmap embed2 d).

(** The result of a parser, embedded. *)
Definition rmap {A B : Type} (f : A -> B) (r : result A) : result B :=
  match r with Ok a => Ok (f a) | Raise e => Raise e end.

(** [d[k]] on a typed dictionary *)
Definition lookup_or_KeyError {V : Type} (k : pykey) (d : list (pykey * V)) : result V :=
  match kget k d with Some v => Ok v | None => Raise KeyError end.

(** Appending under a region, creating its list first when absent. *)
Definition append_region (kr : pykey) (e : value) (d : regions_t) : regions_t :=
  match kget kr d with
  | Some l => kset kr (l ++ [e])%list d
  | None => kset kr [e] d
  end.

(** Twins of [add_endpoint_v1], [add_endpoint_v2] and of the loops
    around them. *)
Definition t_add_endpoint_v1 (ks : pykey) (i : names_t) (e : value) : result names_t :=
  region <- py_get e (VStr "region") VNone ;;
  regions <- lookup_or_KeyError ks i ;;
  kr <- hash_key region ;;
  Ok (kset ks (append_region kr e regions) i).

Definition t_add_endpoint_v2 (kt kn : pykey) (i : types_t) (e : value) : result types_t :=
  region <- py_get e (VStr "region") VNone ;;
  names <- lookup_or_KeyError kt i ;;
  regions <- lookup_or_KeyError kn names ;;
  kr <- hash_key region ;;
  Ok (kset kt (kset kn (append_region kr e regions) names) i).

Definition t_parse_service_v1 (i : names_t) (item : value * value) : result names_t :=
  let '(service, endpoints) := item in
  ks <- hash_key service ;;
  eps <- py_iter endpoints ;;
  for_each (t_add_endpoint_v1 ks) eps (kset ks [] i).

Definition t_parse_auth_v1 (i : names_t) (service_catalog : value) : result names_t :=
  items <- py_items service_catalog ;;
  for_each t_parse_service_v1 items i.

(** The two [not in] tests of [_parse_auth_v2]. *)
Definition ensure_type (kt : pykey) (i : types_t) : types_t :=
  if kmem kt i then i else kset kt [] i.

Definition ensure_name (kt kn : pykey) (names : names_t) (i : types_t) : types_t :=
  if kmem kn names then i else kset kt (kset kn [] names) i.

Definition t_parse_service_v2 (i : types_t) (service : value) : result types_t :=
  service_type <- py_getitem service (VStr "type") ;;
  service_name <- py_get service (VStr "name") VNone ;;
  kt <- hash_key service_type ;;
  names <- lookup_or_KeyError kt (ensure_type kt i) ;;
  kn <- hash_key service_name ;;
  endpoints <- py_get service (VStr "endpoints") (VList []) ;;
  eps <- py_iter endpoints ;;
  for_each (t_add_endpoint_v2 kt kn) eps
    (ensure_name kt kn names (ensure_type kt i)).

Definition t_parse_auth_v2 (i : types_t) (service_catalog : value) : result types_t :=
  services <- py_iter service_catalog ;;
  for_each t_parse_service_v2 services i.

(** Lookups in the typed index, with the defaults of [.get]. *)
Definition look2 (i : names_t) (kn kr : pykey) : list value :=
  match kget kn i with
  | Some regions => match kget kr regions with Some l => l | None => [] end
  | None => []
  end.

Definition look3 (i : types_t) (kt kn kr : pykey) : list value :=
  match kget kt i with
  | Some names => look2 names kn kr
  | None => []
  end.

(** The last statement of [get_endpoint]. *)
Definition the_one (l : list value) : value :=
  match l with
  | [e] => e
  | _ => VDict []
  end.

(** Some key along [path] is not in the dictionary reached so far. *)
Fixpoint missing_at (c : value) (path : list value) : result bool :=
  match path with
  | [] => Ok false
  | k :: rest =>
      present <- py_in k c ;;
      if present then child <- py_getitem c k ;; missing_at child rest
      else Ok true
  end.

(** The keys [get_endpoint] follows. *)
Definition lookup_path (self : OpenStackServiceCatalog)
           (service_type name region : value) : list value :=
  if is_v2 (_auth_version self) then [service_type; name; region]
  else [name; region].

(** ** The 2.0 payload shape and the map it denotes *)

Definition keqb (a b : pykey) : bool :=
  if pykey_eq_dec a b then true else false.

(** The key a value hashes to, if any. *)
Definition key_of (v : value) : option pykey :=
  match hash_key v with Ok k => Some k | Raise _ => None end.

(** What a service descriptor declares: its type, its name ([None] when
    it has none) and its endpoints, each with its region ([None] when it
    has none). *)
Record descriptor : Type := mkDescriptor {
  d_type : pykey;
  d_name : pykey;
  d_endpoints : list (pykey * value)
}.

(** The key under an optional field; [None] stands for a missing one. *)
Definition optional_key (name : string) (d : list (pykey * value)) : option pykey :=
  match kget (KStr name) d with
  | Some v => key_of v
  | None => Some KNone
  end.

Definition endpoint_region (e : value) : option pykey :=
  match e with
  | VDict d => optional_key "region" d
  | _ => None
  end.

Fixpoint with_regions (eps : list value) : option (list (pykey * value)) :=
  match eps with
  | [] => Some []
  | e :: rest =>
      match endpoint_region e, with_regions rest with
      | Some r, Some l => Some ((r, e) :: l)
      | _, _ => None
      end
  end.

(** A value in the shape of a 2.0 service descriptor, read. *)
Definition read_descriptor (s : value) : option descriptor :=
  match s with
  | VDict d =>
      match kget (KStr "type") d with
      | Some tv =>
          match key_of tv, optional_key "name" d,
                match kget (KStr "endpoints") d with
                | Some (VList eps) => with_regions eps
                | Some _ => None
                | None => Some []
                end with
          | Some t, Some n, Some eps => Some (mkDescriptor t n eps)
          | _, _, _ => None
          end
      | None => None
      end
  | _ => None
  end.

Fixpoint read_payload (services : list value) : option (list descriptor) :=
  match services with
  | [] => Some []
  | s :: rest =>
      match read_descriptor s, read_payload rest with
      | Some d, Some l => Some (d :: l)
      | _, _ => None
      end
  end.

(** The three-level map the descriptors denote. *)
Definition declares (kt kn : pykey) (d : descriptor) : bool :=
  keqb (d_type d) kt && keqb (d_name d) kn.

Definition declared_types (ds : list descriptor) (kt : pykey) : bool :=
  existsb (fun d => keqb (d_type d) kt) ds.

Definition declared_names (ds : list descriptor) (kt kn : pykey) : bool :=
  existsb (declares kt kn) ds.

Definition declared_endpoints (ds : list descriptor) (kt kn : pykey)
  : list (pykey * value) :=
  flat_map (fun d => if declares kt kn d then d_endpoints d else []) ds.

Definition declared_group (ds : list descriptor) (kt kn kr : pykey) : list value :=
  map snd (filter (fun p => keqb (fst p) kr) (declared_endpoints ds kt kn)).

(** A region is a key of the index only when some endpoint has it. *)
Definition nonempty {A : Type} (l : list A) : option (list A) :=
  match l with [] => None | _ => Some l end.

(** Keys and lists of a typed index. *)
Definition has_name (i : types_t) (kt kn : pykey) : bool :=
  match kget kt i with Some names => kmem kn names | None => false end.

Definition kget3 (i : types_t) (kt kn kr : pykey) : option (list value) :=
  match kget kt i with
  | Some names =>
      match kget kn names with
      | Some regions => kget kr regions
      | None => None
      end
  | None => None
  end.

(** The index holds exactly what the descriptors declare. *)
Definition represents (ds : list descriptor) (i : types_t) : Prop :=
  (forall kt, kmem kt i = declared_types ds kt) /\
  (forall kt kn, has_name i kt kn = declared_names ds kt kn) /\
  (forall kt kn kr, kget3 i kt kn kr = nonempty (declared_group ds kt kn kr)).

(** Making room for a descriptor. *)
Definition ensure (kt kn : pykey) (i : types_t) : types_t :=
  match kget kt (ensure_type kt i) with
  | Some names => ensure_name kt kn names (ensure_type kt i)
  | None => ensure_type kt i
  end.

(** The index after [t_add_endpoint_v2]. *)
Definition added (kt kn kr : pykey) (e : value) (names : names_t)
           (regions : regions_t) (i : types_t) : types_t :=
  kset kt (kset kn (append_region kr e regions) names) i.

(** ** Sample inputs *)

Definition endpoint_record (region : value) (url : string) : value :=
  VDict [(KStr "region", region); (KStr "publicURL", VStr url)].

(** Two descriptors; the second has no name and repeats a region. *)
Definition sample_v2_services : list value :=
  [VDict [(KStr "type", VStr "compute"); (KStr "name", VStr "cloudServers");
          (KStr "endpoints",
           VList [endpoint_record (VStr "DFW") "https://dfw/compute";
                  endpoint_record (VStr "ORD") "https://ord/compute"])];
   VDict [(KStr "type", VStr "object-store");
          (KStr "endpoints",
           VList [endpoint_record (VStr "DFW") "https://dfw/a";
                  endpoint_record (VStr "DFW") "https://dfw/b"])]].

(** What [sample_v2_services] declares. *)
Definition sample_v2_descriptors : list descriptor :=
  [mkDescriptor (KStr "compute") (KStr "cloudServers")
     [(KStr "DFW", endpoint_record (VStr "DFW") "https://dfw/compute");
      (KStr "ORD", endpoint_record (VStr "ORD") "https://ord/compute")];
   mkDescriptor (KStr "object-store") KNone
     [(KStr "DFW", endpoint_record (VStr "DFW") "https://dfw/a");
      (KStr "DFW", endpoint_record (VStr "DFW") "https://dfw/b")]].

(** A 1.x payload with one service and one endpoint without region. *)
Definition sample_v1_payload : value :=
  VDict [(KStr "cloudServers",
          VList [endpoint_record VNone "https://x/compute"])].

(** A result that is not a LibcloudError. *)
Definition plain {A : Type} (r : result A) : Prop :=
  match r with
  | Raise (LibcloudError _) => False
  | _ => True
  end.

(** The version strings [authenticate] knows. *)
Definition recognized_versions : list string :=
  ["1.0"; "1.1"; "2.0"; "2.0_apikey"; "2.0_password"].

(** The 1.1 scenario: the body of the answer, the value it decodes to
    and the record in it. *)
Definition scenario_body : string :=
  "{" ++ Json.quoted "auth" ++ ":{" ++ Json.quoted "token" ++ ":{"
      ++ Json.quoted "id" ++ ":" ++ Json.quoted "tok123" ++ "},"
      ++ Json.quoted "serviceCatalog" ++ ":{" ++ Json.quoted "cloudServers"
      ++ ":[{" ++ Json.quoted "region" ++ ":null," ++ Json.quoted "publicURL"
      ++ ":" ++ Json.quoted "https://x/compute" ++ "}]}}}".

Definition scenario_record : value :=
  VDict [(KStr "region", VNone); (KStr "publicURL", VStr "https://x/compute")].

Definition scenario_value : value :=
  VDict [(KStr "auth",
          VDict [(KStr "token", VDict [(KStr "id", VStr "tok123")]);
                 (KStr "serviceCatalog",
                  VDict [(KStr "cloudServers", VList [scenario_record])])])].

(** A 1.1 answer whose token is the empty string. *)
Definition empty_token_body : string :=
  "{" ++ Json.quoted "auth" ++ ":{" ++ Json.quoted "token" ++ ":{"
      ++ Json.quoted "id" ++ ":" ++ Json.quoted "" ++ "},"
      ++ Json.quoted "serviceCatalog" ++ ":{}}}".

(** A 1.1 answer with nothing under auth. *)
Definition null_auth_body : string :=
  "{" ++ Json.quoted "auth" ++ ":null}".

(** An auth endpoint that always gives the same answer, and the
    request of an auth connection to such an endpoint. *)
Definition answering (resp : Response) : list Request -> Request -> result Response :=
  fun _ _ => Ok resp.

Definition serving (resp : Response) : list Request -> Request -> result Response :=
  OpenStackAuthConnection.base_request Json.loads (answering resp).

(** An answer that says its body is JSON. *)
Definition json_answer (status : Z) (body : string) : Response :=
  mkResponse status body [("content-type", "application/json")].

(** The catalog payload [authenticate_1_0] makes up from the headers. *)
Definition v1_0_record (header : string) (h : headers_t) : value :=
  VDict [(KStr "publicURL", hget_value header h)].

Definition v1_0_urls (h : headers_t) : value :=
  VDict [(KStr "cloudServers", VList [v1_0_record "x-server-management-url" h]);
         (KStr "cloudFilesCDN", VList [v1_0_record "x-cdn-management-url" h]);
         (KStr "cloudFiles", VList [v1_0_record "x-storage-url" h])].

(** Stand-ins for the constructor of the base connection class: the
    target it leaves when given no URL, and its check of a URL. *)
Definition sample_defaults (secure : bool)
  : option string * option Z * bool * option string :=
  (Some "127.0.0.1", Some (if secure then 443 else 80), secure, Some "").

Definition sample_base_init (user_id key url : string) : result unit :=
  if (String.prefix "http://" url || String.prefix "https://" url)%bool
  then Ok tt
  else Raise (LibcloudError "Invalid scheme").

(** A connection forced to a 1.1 auth endpoint and a base URL. *)
Definition sample_connection : OpenStackBaseConnection.t :=
  OpenStackBaseConnection.new sample_defaults None
  (VStr "application/json") "user" "secret" true
    None None (Some "https://x/compute") (Some "https://auth.example") (Some "1.1").

(** A stand-in for the URL splitter of the base class. *)
Definition sample_tuple_from_url (url : value)
  : result (string * Z * bool * string) :=
  Ok ("x", 443, true, "/compute").


(** When the 1.1 endpoint answers with an empty token the connection
    stays unauthenticated and the next call authenticates again. *)
Definition empty_token_run : result unit * OpenStackBaseConnection.St :=
  OpenStackBaseConnection._populate_hosts_and_request_paths
    (serving (json_answer 200 empty_token_body))
    Json.loads Json.dumps sample_base_init sample_tuple_from_url
    OpenStackBaseConnection.abstract_get_endpoint (sample_connection, []).


(** ** Vocabulary of the further properties *)

(** The content type [parse_body] goes by: the lower-case header when
    there is one, else the capitalised one. *)
Definition declared_content_type (h : headers_t) : option string :=
  match hget "content-type" h with
  | Some v => Some v
  | None => hget "Content-Type" h
  end.

(** The statuses an exchange takes for a success. *)
Definition success_statuses (version : string) : list Z :=
  if String.eqb version "1.0" then [NO_CONTENT]
  else if String.eqb version "1.1" then [OK]
  else [OK; NON_AUTHORITATIVE_INFORMATION].

(** Versions whose answer is a JSON body. *)
Definition json_versions : list string :=
  ["1.1"; "2.0"; "2.0_apikey"; "2.0_password"].

(** The request an exchange sends, by version and credentials. *)
Definition auth_request (json_dumps : value -> string)
           (self : OpenStackAuthConnection.t) : Request :=
  let version := OpenStackAuthConnection.auth_version self in
  let url := OpenStackAuthConnection.auth_url self in
  let user := OpenStackAuthConnection.user_id self in
  let key := OpenStackAuthConnection.key self in
  if String.eqb version "1.0" then
    mkRequest url "/v1.0" None
      [("X-Auth-User", user); ("X-Auth-Key", key)] "GET"
  else if String.eqb version "1.1" then
    mkRequest url "/v1.1/auth"
      (Some (json_dumps
               (VDict [(KStr "credentials",
                        VDict [(KStr "username", VStr user);
                               (KStr "key", VStr key)])])))
      [] "POST"
  else if String.eqb version "2.0_password" then
    mkRequest url "/v2.0/tokens/"
      (Some (json_dumps
               (VDict [(KStr "auth",
                        VDict [(KStr "passwordCredentials",
                                VDict [(KStr "username", VStr user);
                                       (KStr "password", VStr key)])])])))
      [("Content-Type", "application/json")] "POST"
  else
    mkRequest url "/v2.0/tokens/"
      (Some (json_dumps
               (VDict [(KStr "auth",
                        VDict [(KStr "RAX-KSKEY:apiKeyCredentials",
                                VDict [(KStr "username", VStr user);
                                       (KStr "apiKey", VStr key)])])])))
      [("Content-Type", "application/json")] "POST".

(** The member of the decoded body that holds token and catalog. *)
Definition outer_key (version : string) : value :=
  if String.eqb version "1.1" then VStr "auth" else VStr "access".

(** [body[outer]['token']['id']] and [body[outer]['serviceCatalog']] *)
Definition token_of (version : string) (b : value) : result value :=
  outer <- py_getitem b (outer_key version) ;;
  token <- py_getitem outer (VStr "token") ;;
  py_getitem token (VStr "id").

Definition catalog_of (version : string) (b : value) : result value :=
  outer <- py_getitem b (outer_key version) ;;
  py_getitem outer (VStr "serviceCatalog").

(** The connection with a token, and with a catalog payload, stored. *)
Definition with_token (tok : value) (self : OpenStackAuthConnection.t)
  : OpenStackAuthConnection.t :=
  OpenStackAuthConnection.mk
    (OpenStackAuthConnection.auth_version self)
    (OpenStackAuthConnection.auth_url self)
    (OpenStackAuthConnection.user_id self)
    (OpenStackAuthConnection.key self)
    (OpenStackAuthConnection.urls self) (Some tok).

Definition with_urls (u : value) (self : OpenStackAuthConnection.t)
  : OpenStackAuthConnection.t :=
  OpenStackAuthConnection.mk
    (OpenStackAuthConnection.auth_version self)
    (OpenStackAuthConnection.auth_url self)
    (OpenStackAuthConnection.user_id self)
    (OpenStackAuthConnection.key self)
    u (OpenStackAuthConnection.auth_token self).

Definition missing_elements : exn :=
  MalformedResponseError "Auth JSON response is missing required elements".

(** Sample answers and endpoints for the examples. *)
Definition v2_answer_body : string :=
  "{" ++ Json.quoted "access" ++ ":{" ++ Json.quoted "token" ++ ":{"
      ++ Json.quoted "id" ++ ":" ++ Json.quoted "abc" ++ "},"
      ++ Json.quoted "serviceCatalog" ++ ":[]}}".

Definition refusing : list Request -> Request -> result Response :=
  fun _ _ => Raise (TransportError "connection refused").

Definition sample_auth (version : string) : OpenStackAuthConnection.t :=
  OpenStackAuthConnection.new "https://auth.example" version "user" "secret".

(** A 1.x payload read: each service name with its endpoints and their
    regions. *)
Fixpoint read_v1_payload (d : list (pykey * value))
  : option (list (pykey * list (pykey * value))) :=
  match d with
  | [] => Some []
  | (k, VList eps) :: rest =>
      match with_regions eps, read_v1_payload rest with
      | Some reps, Some l => Some ((k, reps) :: l)
      | _, _ => None
      end
  | _ => None
  end.

(** The endpoints of a list that have a given region, in order. *)
Definition region_group (reps : list (pykey * value)) (kr : pykey) : list value :=
  map snd (filter (fun p => keqb (fst p) kr) reps).

Definition kget2 (i : names_t) (ks kr : pykey) : option (list value) :=
  match kget ks i with
  | Some regions => kget kr regions
  | None => None
  end.

(** A regions dictionary holds the groups of a list of endpoints. *)
Definition groups_of (reps : list (pykey * value)) (regions : regions_t) : Prop :=
  forall kr, kget kr regions = nonempty (region_group reps kr).

(** A 1.x index holds the groups of each service read so far. *)
Definition v1_represents (svcs : list (pykey * list (pykey * value)))
           (i : names_t) : Prop :=
  forall ks,
    match kget ks svcs with
    | Some reps => exists regions, kget ks i = Some regions /\ groups_of reps regions
    | None => kget ks i = None
    end.

Definition sample_v1_services : list (pykey * value) :=
  [(KStr "cloudServers",
    VList [endpoint_record (VStr "LON") "https://lon/compute";
           endpoint_record VNone "https://x/compute"]);
   (KStr "cloudFiles", VList [])].

(** The auth URL a connection goes by: the forced one when there is
    one, else its own. *)
Definition resolved_auth_url (self : OpenStackBaseConnection.t) : option string :=
  match OpenStackBaseConnection._ex_force_auth_url self with
  | Some forced => Some forced
  | None => OpenStackBaseConnection.auth_url self
  end.

(** The auth connection a base connection makes for itself. *)
Definition auth_connection_of (self : OpenStackBaseConnection.t) (aurl : string)
  : OpenStackAuthConnection.t :=
  OpenStackAuthConnection.new aurl
    (OpenStackBaseConnection._auth_version self)
    (OpenStackBaseConnection.user_id self)
    (OpenStackBaseConnection.key self).

(** [self._ex_force_base_url or self.get_endpoint()] *)
Definition target_url (get_endpoint : OpenStackBaseConnection.t -> result value)
           (self : OpenStackBaseConnection.t) : result value :=
  match OpenStackBaseConnection._ex_force_base_url self with
  | Some forced =>
      if negb (String.eqb forced "") then Ok (VStr forced) else get_endpoint self
  | None => get_endpoint self
  end.

(** What a connection is configured with. *)
Definition configuration (self : OpenStackBaseConnection.t) :=
  (OpenStackBaseConnection.auth_url self,
   OpenStackBaseConnection._ex_force_base_url self,
   OpenStackBaseConnection._ex_force_auth_url self,
   OpenStackBaseConnection._auth_version self,
   OpenStackBaseConnection.user_id self,
   OpenStackBaseConnection.key self,
   OpenStackBaseConnection.accept_format self).

(** Where a connection sends its requests. *)
Definition target (self : OpenStackBaseConnection.t) :=
  (OpenStackBaseConnection.host self, OpenStackBaseConnection.port self,
   OpenStackBaseConnection.secure self,
   OpenStackBaseConnection.request_path self).

(** The implementation the docstring of [get_endpoint] gives as an
    example, for the service type, name and region of a driver. *)
Definition example_get_endpoint (service_type name region : value)
           (self : OpenStackBaseConnection.t) : result value :=
  match OpenStackBaseConnection.service_catalog self with
  | Some catalog =>
      ep <- get_endpoint catalog service_type name region ;;
      py_getitem ep (VStr "publicURL")
  | None => Raise AttributeError
  end.

(** The header each service of a 1.0 answer comes from. *)
Definition v1_0_services : list (string * string) :=
  [("cloudServers", "x-server-management-url");
   ("cloudFilesCDN", "x-cdn-management-url");
   ("cloudFiles", "x-storage-url")].

(** A connection with an auth URL of its own and no forced URL. *)
Definition plain_connection (version : string) : OpenStackBaseConnection.t :=
  OpenStackBaseConnection.new sample_defaults (Some "https://auth.example")
    (VStr "application/json") "user" "secret" true None None None None
    (Some version).

Definition sample_1_0_answer : Response :=
  mkResponse 204 ""
    [("x-auth-token", "T"); ("x-server-management-url", "https://x/compute")].

Definition no_url_connection : OpenStackBaseConnection.t :=
  OpenStackBaseConnection.new sample_defaults None
  (VStr "application/json") "user" "secret"
    true None None None None None.

(** A connection whose auth URL names no scheme. *)
Definition schemeless_connection : OpenStackBaseConnection.t :=
  OpenStackBaseConnection.new sample_defaults (Some "auth.example")
    (VStr "application/json") "user" "secret" true None None None None
    (Some "1.1").

Definition both_urls_connection : OpenStackBaseConnection.t :=
  OpenStackBaseConnection.new sample_defaults (Some "https://own.example")
    (VStr "application/json") "user" "secret" true None None None
    (Some "https://forced.example") (Some "2.0").

(** The catalog of the 1.1 scenario. *)
Definition scenario_catalog : OpenStackServiceCatalog :=
  mkCatalog "1.1"
    (VDict [(KStr "cloudServers", VDict [(KNone, VList [scenario_record])])]).

(** The typed index of the payload of a 1.0 answer. *)
Definition v1_0_index (h : headers_t) : names_t :=
  [(KStr "cloudServers", [(KNone, [v1_0_record "x-server-management-url" h])]);
   (KStr "cloudFilesCDN", [(KNone, [v1_0_record "x-cdn-management-url" h])]);
   (KStr "cloudFiles", [(KNone, [v1_0_record "x-storage-url" h])])].

(** * Verification *)

(** ** Dictionaries *)

Lemma kget_kset_same {V : Type} (k : pykey) (v : V) (d : list (pykey * V)) :
  kget k (kset k v d) = Some v.
Proof.
  induction d as [|[k' v'] d IH]; simpl.
  - destruct (pykey_eq_dec k k); congruence.
  - destruct (pykey_eq_dec k k') as [E|N]; simpl.
    + destruct (pykey_eq_dec k k'); congruence.
    + destruct (pykey_eq_dec k k'); congruence.
Qed.

Lemma kget_kset_other {V : Type} (k k' : pykey) (v : V) (d : list (pykey * V)) :
  k <> k' -> kget k' (kset k v d) = kget k' d.
Proof.
  intros N. induction d as [|[k0 v0] d IH]; simpl.
  - destruct (pykey_eq_dec k' k); congruence.
  - destruct (pykey_eq_dec k k0) as [E|N0]; simpl.
    + subst k0. destruct (pykey_eq_dec k' k); congruence.
    + destruct (pykey_eq_dec k' k0); congruence.
Qed.

Lemma kget_kset {V : Type} (k k' : pykey) (v : V) (d : list (pykey * V)) :
  kget k' (kset k v d) = if pykey_eq_dec k k' then Some v else kget k' d.
Proof.
  destruct (pykey_eq_dec k k') as [E|N].
  - subst. apply kget_kset_same.
  - now apply kget_kset_other.
Qed.

Lemma kset_kset {V : Type} (k : pykey) (v w : V) (d : list (pykey * V)) :
  kset k w (kset k v d) = kset k w d.
Proof.
  induction d as [|[k' v'] d IH]; simpl.
  - destruct (pykey_eq_dec k k); congruence.
  - destruct (pykey_eq_dec k k') as [E|N]; simpl.
    + destruct (pykey_eq_dec k k'); congruence.
    + destruct (pykey_eq_dec k k'); congruence.
Qed.

Lemma kget_kmap {V W : Type} (f : V -> W) (k : pykey) (d : list (pykey * V)) :
  kget k (kmap f d) = option_map f (kget k d).
Proof.
  induction d as [|[k' v'] d IH]; simpl; auto.
  destruct (pykey_eq_dec k k'); auto.
Qed.

Lemma kmem_kmap {V W : Type} (f : V -> W) (k : pykey) (d : list (pykey * V)) :
  kmem k (kmap f d) = kmem k d.
Proof. unfold kmem. rewrite kget_kmap. destruct (kget k d); reflexivity. Qed.

Lemma kset_kmap {V W : Type} (f : V -> W) (k : pykey) (v : V) (d : list (pykey * V)) :
  kset k (f v) (kmap f d) = kmap f (kset k v d).
Proof.
  induction d as [|[k' v'] d IH]; simpl; auto.
  destruct (pykey_eq_dec k k'); simpl; congruence.
Qed.

Lemma hash_value_of_key (k : pykey) : hash_key (value_of_key k) = Ok k.
Proof. destruct k; reflexivity. Qed.

(** ** The parsers compute embedded trees

    Started on an embedded tree, each parser of the source returns the
    embedding of what its twin returns, and raises what it raises. *)

Ltac embed_done :=
  unfold embed3, embed2, embed1;
  repeat (rewrite <- kset_kmap; cbv beta);
  rewrite ?kset_kset; reflexivity.

Lemma add_endpoint_v2_sim (tv nv : value) (kt kn : pykey) (i : types_t) (e : value) :
  hash_key tv = Ok kt -> hash_key nv = Ok kn ->
  add_endpoint_v2 tv nv (embed3 i) e = rmap embed3 (t_add_endpoint_v2 kt kn i e).
Proof.
  intros Ht Hn. unfold add_endpoint_v2, t_add_endpoint_v2, lookup_or_KeyError.
  destruct (py_get e (VStr "region") VNone) as [region|x]; simpl; auto.
  rewrite ?Ht. simpl. rewrite kget_kmap.
  destruct (kget kt i) as [names|] eqn:Et; simpl; auto.
  rewrite ?Hn. simpl. rewrite kget_kmap.
  destruct (kget kn names) as [regions|] eqn:En; simpl; auto.
  destruct (hash_key region) as [kr|x] eqn:Hr; simpl; auto.
  rewrite kmem_kmap. unfold kmem, append_region.
  destruct (kget kr regions) as [l|] eqn:Er; simpl.
  - repeat (rewrite ?Ht, ?Hn, ?Hr, ?kget_kmap, ?Et, ?En, ?Er; simpl).
    embed_done.
  - repeat (rewrite ?Ht, ?Hn, ?Hr, ?kget_kset_same, ?kset_kset; simpl).
    embed_done.
Qed.

Lemma add_endpoint_v1_sim (sv : value) (ks : pykey) (i : names_t) (e : value) :
  hash_key sv = Ok ks ->
  add_endpoint_v1 sv (embed2 i) e = rmap embed2 (t_add_endpoint_v1 ks i e).
Proof.
  intros Hs. unfold add_endpoint_v1, t_add_endpoint_v1, lookup_or_KeyError.
  destruct (py_get e (VStr "region") VNone) as [region|x]; simpl; auto.
  rewrite ?Hs. simpl. rewrite kget_kmap.
  destruct (kget ks i) as [regions|] eqn:Es; simpl; auto.
  destruct (hash_key region) as [kr|x] eqn:Hr; simpl; auto.
  rewrite kmem_kmap. unfold kmem, append_region.
  destruct (kget kr regions) as [l|] eqn:Er; simpl.
  - repeat (rewrite ?Hs, ?Hr, ?kget_kmap, ?Es, ?Er; simpl).
    embed_done.
  - repeat (rewrite ?Hs, ?Hr, ?kget_kset_same, ?kset_kset; simpl).
    embed_done.
Qed.

Lemma for_each_sim {S T A : Type} (f : S -> A -> result S)
      (g : T -> A -> result T) (emb : T -> S) :
  (forall t a, f (emb t) a = rmap emb (g t a)) ->
  forall l t, for_each f l (emb t) = rmap emb (for_each g l t).
Proof.
  intros H l. induction l as [|a l IH]; intros t; simpl; auto.
  rewrite H. destruct (g t a) as [t'|x]; simpl; auto.
Qed.

Lemma parse_service_v1_sim (i : names_t) (item : value * value) :
  (let '(service, endpoints) := item in
   sc1 <- py_setitem (embed2 i) service (VDict []) ;;
   eps <- py_iter endpoints ;;
   for_each (add_endpoint_v1 service) eps sc1)
  = rmap embed2 (t_parse_service_v1 i item).
Proof.
  destruct item as [service endpoints]. unfold t_parse_service_v1. simpl.
  destruct (hash_key service) as [ks|x] eqn:Hs; simpl; auto.
  destruct (py_iter endpoints) as [eps|x]; simpl; auto.
  change (VDict []) with (embed1 []).
  rewrite (kset_kmap embed1).
  change (VDict (kmap embed1 (kset ks [] i))) with (embed2 (kset ks [] i)).
  apply (for_each_sim _ _ embed2). intros. now apply add_endpoint_v1_sim.
Qed.

Lemma parse_auth_v1_sim (i : names_t) (service_catalog : value) :
  _parse_auth_v1 (embed2 i) service_catalog
  = rmap embed2 (t_parse_auth_v1 i service_catalog).
Proof.
  unfold _parse_auth_v1, t_parse_auth_v1.
  destruct (py_items service_catalog) as [items|x]; simpl; auto.
  apply (for_each_sim _ _ embed2). intros t [service endpoints].
  apply (parse_service_v1_sim t (service, endpoints)).
Qed.

Lemma parse_service_v2_sim (i : types_t) (service : value) :
  parse_service_v2 (embed3 i) service = rmap embed3 (t_parse_service_v2 i service).
Proof.
  unfold parse_service_v2, t_parse_service_v2, lookup_or_KeyError.
  destruct (py_getitem service (VStr "type")) as [tv|x]; simpl; auto.
  destruct (py_get service (VStr "name") VNone) as [nv|x]; simpl; auto.
  destruct (hash_key tv) as [kt|x] eqn:Ht; simpl; auto.
  rewrite kmem_kmap.
  assert (E1 : (if negb (kmem kt i)
                then Ok (VDict (kset kt (VDict []) (kmap embed2 i)))
                else Ok (embed3 i))
               = Ok (embed3 (ensure_type kt i))).
  { unfold ensure_type. destruct (kmem kt i); simpl; auto.
    change (VDict []) with (embed2 []). now rewrite (kset_kmap embed2). }
  rewrite E1. clear E1. simpl. rewrite ?Ht. simpl. rewrite kget_kmap.
  destruct (kget kt (ensure_type kt i)) as [names|] eqn:Et; simpl; auto.
  destruct (hash_key nv) as [kn|x] eqn:Hn; simpl; auto.
  rewrite kmem_kmap.
  assert (E2 : (if negb (kmem kn names)
                then Ok (VDict (kset kt (VDict (kset kn (VDict []) (kmap embed1 names)))
                                     (kmap embed2 (ensure_type kt i))))
                else Ok (embed3 (ensure_type kt i)))
               = Ok (embed3 (ensure_name kt kn names (ensure_type kt i)))).
  { unfold ensure_name. destruct (kmem kn names); simpl; auto.
    change (VDict []) with (embed1 []).
    rewrite (kset_kmap embed1).
    change (VDict (kmap embed1 (kset kn [] names)))
      with (embed2 (kset kn [] names)).
    now rewrite (kset_kmap embed2). }
  rewrite E2. clear E2. simpl.
  destruct (py_get service (VStr "endpoints") (VList [])) as [endpoints|x];
    simpl; auto.
  destruct (py_iter endpoints) as [eps|x]; simpl; auto.
  apply (for_each_sim _ _ embed3). intros. now apply add_endpoint_v2_sim.
Qed.

Lemma parse_auth_v2_sim (i : types_t) (service_catalog : value) :
  _parse_auth_v2 (embed3 i) service_catalog
  = rmap embed3 (t_parse_auth_v2 i service_catalog).
Proof.
  unfold _parse_auth_v2, t_parse_auth_v2.
  destruct (py_iter service_catalog) as [services|x]; simpl; auto.
  apply (for_each_sim _ _ embed3). intros. apply parse_service_v2_sim.
Qed.

(** ** What a built catalog looks like *)

Lemma new_catalog_typed (payload : value) (ver : option string)
      (cat : OpenStackServiceCatalog) :
  new_catalog payload ver = Ok cat ->
  _auth_version cat = effective_version ver /\
  ((is_v2 (_auth_version cat) = true /\
    exists i, t_parse_auth_v2 [] payload = Ok i /\
              _service_catalog cat = embed3 i) \/
   (is_v2 (_auth_version cat) = false /\ is_v1 (_auth_version cat) = true /\
    exists i, t_parse_auth_v1 [] payload = Ok i /\
              _service_catalog cat = embed2 i)).
Proof.
  unfold new_catalog. cbv zeta.
  destruct (is_v2 (effective_version ver)) eqn:E2.
  - change (VDict []) with (embed3 []). rewrite parse_auth_v2_sim.
    destruct (t_parse_auth_v2 [] payload) as [i|x]; simpl; [|discriminate].
    intros H. injection H as <-. simpl. split; auto. left. eauto.
  - destruct (is_v1 (effective_version ver)) eqn:E1; [|discriminate].
    change (VDict []) with (embed2 []). rewrite parse_auth_v1_sim.
    destruct (t_parse_auth_v1 [] payload) as [i|x]; simpl; [|discriminate].
    intros H. injection H as <-. simpl. split; auto. right. eauto 6.
Qed.

Lemma pick_the_one (l : list value) :
  (n <- py_len (VList l) ;;
   if n =? 1 then py_getitem (VList l) (VInt 0) else Ok (VDict []))
  = Ok (the_one l).
Proof.
  destruct l as [|e [|e' l]]; simpl; auto.
  destruct (Pos.of_succ_nat (List.length l)); reflexivity.
Qed.

Lemma resolve_v2 (ver : string) (i : types_t) (t n r : value) (kt kn kr : pykey) :
  is_v2 ver = true ->
  hash_key t = Ok kt -> hash_key n = Ok kn -> hash_key r = Ok kr ->
  resolve_endpoints (mkCatalog ver (embed3 i)) t n r = Ok (VList (look3 i kt kn kr)).
Proof.
  intros Hv Ht Hn Hr. unfold resolve_endpoints, look3, look2. simpl.
  rewrite Hv, Ht. simpl. rewrite kget_kmap.
  destruct (kget kt i) as [names|]; simpl; rewrite Hn; simpl.
  - rewrite kget_kmap.
    destruct (kget kn names) as [regions|]; simpl; rewrite Hr; simpl; auto.
    rewrite kget_kmap. destruct (kget kr regions); reflexivity.
  - now rewrite Hr.
Qed.

Lemma resolve_v1 (ver : string) (i : names_t) (t n r : value) (kn kr : pykey) :
  is_v2 ver = false -> is_v1 ver = true ->
  hash_key n = Ok kn -> hash_key r = Ok kr ->
  resolve_endpoints (mkCatalog ver (embed2 i)) t n r = Ok (VList (look2 i kn kr)).
Proof.
  intros Hv2 Hv1 Hn Hr. unfold resolve_endpoints, look2. simpl.
  rewrite Hv2, Hv1, Hn. simpl. rewrite kget_kmap.
  destruct (kget kn i) as [regions|]; simpl; rewrite Hr; simpl; auto.
  rewrite kget_kmap. destruct (kget kr regions); reflexivity.
Qed.

(** On a built catalog the chain of [.get] calls ends in a list and
    [get_endpoint] picks its only element. *)
Lemma get_endpoint_built (payload : value) (ver : option string)
      (cat : OpenStackServiceCatalog) (t n r : value) (kt kn kr : pykey) :
  new_catalog payload ver = Ok cat ->
  hash_key t = Ok kt -> hash_key n = Ok kn -> hash_key r = Ok kr ->
  exists l, resolve_endpoints cat t n r = Ok (VList l) /\
            get_endpoint cat t n r = Ok (the_one l).
Proof.
  intros H Ht Hn Hr. apply new_catalog_typed in H.
  destruct cat as [v sc]. simpl in H.
  destruct H as [_ [(Hv & i & _ & ->) | (Hv2 & Hv1 & i & _ & ->)]].
  - exists (look3 i kt kn kr). unfold get_endpoint.
    rewrite (resolve_v2 v i t n r kt kn kr) by assumption.
    split; auto. apply pick_the_one.
  - exists (look2 i kn kr). unfold get_endpoint.
    rewrite (resolve_v1 v i t n r kn kr) by assumption.
    split; auto. apply pick_the_one.
Qed.

(** ** The index of a payload in the 2.0 shape *)

Lemma keqb_refl (a : pykey) : keqb a a = true.
Proof. unfold keqb. destruct (pykey_eq_dec a a); congruence. Qed.

Lemma keqb_eq (a b : pykey) : keqb a b = true <-> a = b.
Proof. unfold keqb. destruct (pykey_eq_dec a b); split; congruence. Qed.

Lemma represents_nil : represents [] [].
Proof. repeat split. Qed.

Lemma declared_group_snoc (ds : list descriptor) (d : descriptor) (kt kn kr : pykey) :
  declared_group (ds ++ [d]) kt kn kr
  = (declared_group ds kt kn kr ++
     (if declares kt kn d
      then map snd (filter (fun p => keqb (fst p) kr) (d_endpoints d))
      else []))%list.
Proof.
  unfold declared_group, declared_endpoints.
  rewrite flat_map_app, filter_app, map_app. simpl.
  rewrite app_nil_r. destruct (declares kt kn d); reflexivity.
Qed.

Lemma kmem_kset {V : Type} (k k' : pykey) (v : V) (d : list (pykey * V)) :
  kmem k' (kset k v d) = (keqb k k' || kmem k' d)%bool.
Proof.
  unfold kmem, keqb. rewrite kget_kset.
  destruct (pykey_eq_dec k k'); reflexivity.
Qed.

Lemma keqb_neq (a b : pykey) : a <> b -> keqb a b = false.
Proof. unfold keqb. destruct (pykey_eq_dec a b); congruence. Qed.

Lemma ensure_kmem (kt kn : pykey) (i : types_t) (kt' : pykey) :
  kmem kt' (ensure kt kn i) = (kmem kt' i || keqb kt kt')%bool.
Proof.
  unfold ensure, ensure_name, ensure_type. destruct (kmem kt i) eqn:Em.
  - unfold kmem in Em. destruct (kget kt i) as [names|] eqn:Et; [|discriminate].
    assert (K : kmem kt' i = (kmem kt' i || keqb kt kt')%bool).
    { destruct (pykey_eq_dec kt kt') as [<-|N].
      - unfold kmem. now rewrite Et.
      - now rewrite keqb_neq, Bool.orb_false_r. }
    destruct (kmem kn names); auto.
    rewrite kmem_kset, <- K.
    destruct (pykey_eq_dec kt kt') as [<-|N].
    + unfold kmem. rewrite Et. apply Bool.orb_true_r.
    + now rewrite keqb_neq.
  - rewrite kget_kset_same. simpl. rewrite !kmem_kset.
    destruct (keqb kt kt'), (kmem kt' i); reflexivity.
Qed.

Lemma ensure_has_name (kt kn : pykey) (i : types_t) (kt' kn' : pykey) :
  has_name (ensure kt kn i) kt' kn'
  = (has_name i kt' kn' || (keqb kt kt' && keqb kn kn'))%bool.
Proof.
  unfold ensure, ensure_name, ensure_type, has_name. destruct (kmem kt i) eqn:Em.
  - unfold kmem in Em. destruct (kget kt i) as [names|] eqn:Et; [|discriminate].
    destruct (kmem kn names) eqn:En.
    + destruct (pykey_eq_dec kt kt') as [<-|N].
      * rewrite Et, keqb_refl. simpl.
        destruct (pykey_eq_dec kn kn') as [<-|N'].
        -- now rewrite En.
        -- now rewrite (keqb_neq kn kn'), Bool.orb_false_r.
      * rewrite (keqb_neq kt kt') by assumption. now rewrite Bool.orb_false_r.
    + destruct (pykey_eq_dec kt kt') as [<-|N].
      * rewrite kget_kset_same, Et, keqb_refl, kmem_kset. simpl.
        apply Bool.orb_comm.
      * rewrite kget_kset_other, (keqb_neq kt kt') by assumption.
        now rewrite Bool.orb_false_r.
  - rewrite kget_kset_same. simpl.
    unfold kmem in Em. destruct (kget kt i) as [names|] eqn:Et; [discriminate|].
    destruct (pykey_eq_dec kt kt') as [<-|N].
    + rewrite kget_kset_same, Et, keqb_refl.
      change [(kn, @nil (pykey * list value))] with (kset kn (@nil (pykey * list value)) []).
      rewrite kmem_kset. simpl. apply Bool.orb_false_r.
    + rewrite !kget_kset_other, (keqb_neq kt kt') by assumption.
      now rewrite Bool.orb_false_r.
Qed.

Lemma ensure_kget3 (kt kn : pykey) (i : types_t) (kt' kn' kr' : pykey) :
  kget3 (ensure kt kn i) kt' kn' kr' = kget3 i kt' kn' kr'.
Proof.
  unfold ensure, ensure_name, ensure_type, kget3. destruct (kmem kt i) eqn:Em.
  - unfold kmem in Em. destruct (kget kt i) as [names|] eqn:Et; [|discriminate].
    destruct (kmem kn names) eqn:En; auto.
    destruct (pykey_eq_dec kt kt') as [<-|N].
    + rewrite kget_kset_same, Et.
      destruct (pykey_eq_dec kn kn') as [<-|N'].
      * rewrite kget_kset_same. unfold kmem in En.
        destruct (kget kn names); [discriminate|reflexivity].
      * now rewrite kget_kset_other.
    + now rewrite kget_kset_other.
  - rewrite kget_kset_same. simpl.
    unfold kmem in Em. destruct (kget kt i) as [names|] eqn:Et; [discriminate|].
    destruct (pykey_eq_dec kt kt') as [<-|N].
    + rewrite kget_kset_same, Et. simpl.
      destruct (pykey_eq_dec kn' kn); reflexivity.
    + now rewrite !kget_kset_other.
Qed.

Lemma ensure_represents (ds : list descriptor) (i : types_t) (kt kn : pykey) :
  represents ds i ->
  represents (ds ++ [mkDescriptor kt kn []]) (ensure kt kn i).
Proof.
  intros (H1 & H2 & H3). repeat split; intros.
  - rewrite ensure_kmem, H1. unfold declared_types.
    rewrite existsb_app. simpl. now rewrite Bool.orb_false_r.
  - rewrite ensure_has_name, H2. unfold declared_names.
    rewrite existsb_app. simpl. unfold declares at 3. simpl.
    now rewrite Bool.orb_false_r.
  - rewrite ensure_kget3, H3, declared_group_snoc. simpl.
    destruct (declares kt0 kn0 _); now rewrite app_nil_r.
Qed.

Section Added.
Variables (kt kn kr : pykey) (e : value).
Variables (names : names_t) (regions : regions_t) (i : types_t).
Hypothesis Et : kget kt i = Some names.
Hypothesis En : kget kn names = Some regions.

Lemma added_kmem (kt' : pykey) :
  kmem kt' (added kt kn kr e names regions i) = kmem kt' i.
Proof.
  unfold added. rewrite kmem_kset.
  destruct (pykey_eq_dec kt kt') as [<-|N].
  - unfold kmem. now rewrite Et, keqb_refl.
  - now rewrite keqb_neq.
Qed.

Lemma added_has_name (kt' kn' : pykey) :
  has_name (added kt kn kr e names regions i) kt' kn' = has_name i kt' kn'.
Proof.
  unfold added, has_name.
  destruct (pykey_eq_dec kt kt') as [<-|N].
  - rewrite kget_kset_same, Et, kmem_kset.
    destruct (pykey_eq_dec kn kn') as [<-|N'].
    + unfold kmem. now rewrite En, keqb_refl.
    + now rewrite keqb_neq.
  - now rewrite kget_kset_other.
Qed.

Lemma added_kget3 (kt' kn' kr' : pykey) :
  kget3 (added kt kn kr e names regions i) kt' kn' kr'
  = if (keqb kt kt' && keqb kn kn' && keqb kr kr')%bool
    then Some (match kget kr regions with Some l => l | None => [] end
               ++ [e])%list
    else kget3 i kt' kn' kr'.
Proof.
  unfold added, kget3.
  destruct (pykey_eq_dec kt kt') as [<-|N].
  - rewrite kget_kset_same, Et, keqb_refl. simpl.
    destruct (pykey_eq_dec kn kn') as [<-|N'].
    + rewrite kget_kset_same, En, keqb_refl. simpl. unfold append_region.
      destruct (pykey_eq_dec kr kr') as [<-|N''].
      * rewrite keqb_refl.
        destruct (kget kr regions); now rewrite kget_kset_same.
      * rewrite keqb_neq by assumption.
        destruct (kget kr regions); now rewrite kget_kset_other.
    + rewrite kget_kset_other, (keqb_neq kn kn') by assumption. reflexivity.
  - rewrite kget_kset_other, (keqb_neq kt kt') by assumption. reflexivity.
Qed.
End Added.

Lemma declared_names_last (ds : list descriptor) (kt kn : pykey)
      (eps : list (pykey * value)) :
  declared_names (ds ++ [mkDescriptor kt kn eps]) kt kn = true.
Proof.
  unfold declared_names, declares. rewrite existsb_app. simpl.
  rewrite !keqb_refl. simpl. apply Bool.orb_true_r.
Qed.

Lemma represents_add (ds : list descriptor) (kt kn kr : pykey)
      (pre : list (pykey * value)) (e : value) (i : types_t) :
  represents (ds ++ [mkDescriptor kt kn pre]) i ->
  exists names regions,
    kget kt i = Some names /\ kget kn names = Some regions /\
    represents (ds ++ [mkDescriptor kt kn (pre ++ [(kr, e)])])
               (added kt kn kr e names regions i).
Proof.
  intros (H1 & H2 & H3).
  pose proof (H2 kt kn) as P. rewrite declared_names_last in P.
  unfold has_name in P.
  destruct (kget kt i) as [names|] eqn:Et; [|discriminate].
  unfold kmem in P.
  destruct (kget kn names) as [regions|] eqn:En; [|discriminate].
  exists names, regions. repeat split; auto; intros.
  - rewrite (added_kmem kt kn kr e names regions i Et), H1.
    unfold declared_types. rewrite !existsb_app. reflexivity.
  - rewrite (added_has_name kt kn kr e names regions i Et En), H2.
    unfold declared_names. rewrite !existsb_app. reflexivity.
  - rewrite (added_kget3 kt kn kr e names regions i Et En).
    pose proof (H3 kt0 kn0 kr0) as Q.
    rewrite declared_group_snoc in *. unfold declares in *. simpl in *.
    destruct (pykey_eq_dec kt kt0) as [<-|N];
      [|rewrite (keqb_neq kt kt0) in * by assumption; exact Q].
    destruct (pykey_eq_dec kn kn0) as [<-|N'];
      [|rewrite (keqb_neq kn kn0), Bool.andb_false_r in * by assumption; exact Q].
    rewrite !keqb_refl in *. simpl in *.
    rewrite filter_app, map_app. simpl.
    destruct (pykey_eq_dec kr kr0) as [<-|N''].
    + rewrite keqb_refl. simpl.
      unfold kget3 in Q. rewrite Et, En in Q. rewrite Q, app_assoc.
      set (g := (declared_group ds kt kn kr ++ _)%list).
      assert (G : match nonempty g with Some l => l | None => [] end = g)
        by (destruct g; reflexivity).
      rewrite G. destruct g; reflexivity.
    + rewrite (keqb_neq kr kr0) by assumption. simpl.
      now rewrite app_nil_r.
Qed.

Lemma key_of_hash (v : value) (k : pykey) : key_of v = Some k -> hash_key v = Ok k.
Proof. unfold key_of. destruct (hash_key v); congruence. Qed.

Lemma optional_key_get (name : string) (d : list (pykey * value)) (k : pykey) :
  optional_key name d = Some k ->
  exists v, py_get (VDict d) (VStr name) VNone = Ok v /\ hash_key v = Ok k.
Proof.
  unfold optional_key. simpl.
  destruct (kget (KStr name) d) as [v|]; intros H.
  - exists v. split; auto. now apply key_of_hash.
  - exists VNone. split; auto. simpl. congruence.
Qed.

Lemma t_add_endpoint_v2_ok (kt kn kr : pykey) (e : value) (i : types_t)
      (names : names_t) (regions : regions_t) :
  endpoint_region e = Some kr ->
  kget kt i = Some names -> kget kn names = Some regions ->
  t_add_endpoint_v2 kt kn i e = Ok (added kt kn kr e names regions i).
Proof.
  intros Hr Et En. destruct e; try discriminate. simpl in Hr.
  apply optional_key_get in Hr. destruct Hr as (rv & G & H).
  unfold t_add_endpoint_v2, lookup_or_KeyError. rewrite G. simpl.
  rewrite Et. simpl. rewrite En. simpl. rewrite H. reflexivity.
Qed.

Lemma add_endpoints_represents (eps : list value) :
  forall (reps pre : list (pykey * value)) (ds : list descriptor)
         (kt kn : pykey) (i : types_t),
    with_regions eps = Some reps ->
    represents (ds ++ [mkDescriptor kt kn pre]) i ->
    exists i', for_each (t_add_endpoint_v2 kt kn) eps i = Ok i' /\
               represents (ds ++ [mkDescriptor kt kn (pre ++ reps)]) i'.
Proof.
  induction eps as [|e eps IH]; intros reps pre ds kt kn i Hw Hrep; simpl in *.
  - injection Hw as <-. rewrite app_nil_r. eauto.
  - destruct (endpoint_region e) as [kr|] eqn:Er; [|discriminate].
    destruct (with_regions eps) as [rest|] eqn:Ew; [|discriminate].
    injection Hw as <-.
    destruct (represents_add ds kt kn kr pre e i Hrep)
      as (names & regions & Et & En & Hrep').
    rewrite (t_add_endpoint_v2_ok kt kn kr e i names regions Er Et En). simpl.
    destruct (IH rest (pre ++ [(kr, e)])%list ds kt kn _ eq_refl Hrep')
      as (i' & Hi' & R).
    exists i'. split; auto. now rewrite <- app_assoc in R.
Qed.

Lemma parse_service_represents (s : value) (d : descriptor)
      (ds : list descriptor) (i : types_t) :
  read_descriptor s = Some d ->
  represents ds i ->
  exists i', t_parse_service_v2 i s = Ok i' /\ represents (ds ++ [d]) i'.
Proof.
  intros Hd Hrep. destruct s as [| | | | |sd]; try discriminate. simpl in Hd.
  destruct (kget (KStr "type") sd) as [tv|] eqn:Gt; [|discriminate].
  destruct (key_of tv) as [kt|] eqn:Kt; [|discriminate].
  destruct (optional_key "name" sd) as [kn|] eqn:Kn; [|discriminate].
  apply key_of_hash in Kt. apply optional_key_get in Kn.
  destruct Kn as (nv & Gn & Hn).
  unfold t_parse_service_v2.
  replace (py_getitem (VDict sd) (VStr "type")) with (Ok tv)
    by (simpl; now rewrite Gt).
  rewrite Gn. cbn [bind]. rewrite Kt. cbn [bind].
  pose proof (ensure_represents ds i kt kn Hrep) as Hens.
  assert (Hin : kmem kt (ensure_type kt i) = true).
  { unfold ensure_type. destruct (kmem kt i) eqn:E; auto.
    rewrite kmem_kset, keqb_refl. reflexivity. }
  unfold ensure in Hens. unfold lookup_or_KeyError. unfold kmem in Hin.
  destruct (kget kt (ensure_type kt i)) as [names|] eqn:Et;
    [|discriminate Hin].
  cbn [bind]. rewrite Hn. cbn [bind].
  assert (Heps : exists eps reps,
             (endpoints <- py_get (VDict sd) (VStr "endpoints") (VList []) ;;
              py_iter endpoints) = Ok eps /\
             with_regions eps = Some reps /\ d = mkDescriptor kt kn reps).
  { simpl. destruct (kget (KStr "endpoints") sd) as [ev|].
    - destruct ev; try discriminate.
      destruct (with_regions l) as [reps|] eqn:W; [|discriminate].
      injection Hd as <-. exists l, reps. auto.
    - injection Hd as <-. exists [], []. auto. }
  destruct Heps as (eps & reps & He & Hw & ->).
  destruct (py_get (VDict sd) (VStr "endpoints") (VList [])) as [ev|]; [|discriminate].
  cbn [bind] in *. rewrite He. cbn [bind].
  apply (add_endpoints_represents eps reps [] ds kt kn _ Hw Hens).
Qed.

Lemma parse_payload_represents (services : list value) :
  forall (ds' ds : list descriptor) (i : types_t),
    read_payload services = Some ds' ->
    represents ds i ->
    exists i', for_each t_parse_service_v2 services i = Ok i' /\
               represents (ds ++ ds') i'.
Proof.
  induction services as [|s services IH]; intros ds' ds i Hp Hrep; simpl in *.
  - injection Hp as <-. rewrite app_nil_r. eauto.
  - destruct (read_descriptor s) as [d|] eqn:Hd; [|discriminate].
    destruct (read_payload services) as [rest|] eqn:Hr; [|discriminate].
    injection Hp as <-.
    destruct (parse_service_represents s d ds i Hd Hrep) as (i1 & -> & Hrep1).
    simpl. destruct (IH rest (ds ++ [d])%list i1 eq_refl Hrep1) as (i' & Hi' & R).
    exists i'. split; auto. now rewrite <- app_assoc in R.
Qed.

Lemma new_catalog_v2_represents (services : list value) (ds : list descriptor)
      (ver : option string) :
  read_payload services = Some ds ->
  is_v2 (effective_version ver) = true ->
  exists i, new_catalog (VList services) ver
            = Ok (mkCatalog (effective_version ver) (embed3 i)) /\
            represents ds i.
Proof.
  intros Hp Hv.
  destruct (parse_payload_represents services ds [] [] Hp represents_nil)
    as (i & Hi & R).
  exists i. split; auto.
  unfold new_catalog. cbv zeta. rewrite Hv.
  change (VDict []) with (embed3 []). rewrite parse_auth_v2_sim.
  unfold t_parse_auth_v2. simpl. rewrite Hi. reflexivity.
Qed.

Lemma look3_represents (ds : list descriptor) (i : types_t) (kt kn kr : pykey) :
  represents ds i -> look3 i kt kn kr = declared_group ds kt kn kr.
Proof.
  intros (_ & _ & H3). specialize (H3 kt kn kr).
  unfold look3, look2, kget3 in *.
  destruct (kget kt i) as [names|].
  - destruct (kget kn names) as [regions|].
    + rewrite H3. destruct (declared_group ds kt kn kr); reflexivity.
    + destruct (declared_group ds kt kn kr); [reflexivity|discriminate].
  - destruct (declared_group ds kt kn kr); [reflexivity|discriminate].
Qed.

(** [get_endpoint] on the index of a well-shaped 2.0 payload. *)
Lemma get_endpoint_v2_payload (services : list value) (ds : list descriptor)
      (ver : option string) (t n r : value) (kt kn kr : pykey) :
  read_payload services = Some ds ->
  is_v2 (effective_version ver) = true ->
  hash_key t = Ok kt -> hash_key n = Ok kn -> hash_key r = Ok kr ->
  exists cat, new_catalog (VList services) ver = Ok cat /\
              get_endpoint cat t n r = Ok (the_one (declared_group ds kt kn kr)).
Proof.
  intros Hp Hv Ht Hn Hr.
  destruct (new_catalog_v2_represents services ds ver Hp Hv) as (i & Hc & R).
  eexists. split; [exact Hc|]. unfold get_endpoint.
  rewrite (resolve_v2 _ i t n r kt kn kr) by assumption.
  unfold bind at 1. rewrite pick_the_one.
  now rewrite (look3_represents ds i kt kn kr R).
Qed.

Lemma missing_at_embed1 (d : regions_t) (r : value) (kr : pykey) :
  hash_key r = Ok kr ->
  missing_at (embed1 d) [r]
  = Ok (match kget kr d with Some _ => false | None => true end).
Proof.
  intros Hr. simpl. rewrite Hr. simpl. rewrite kmem_kmap. unfold kmem.
  destruct (kget kr d) eqn:E; simpl; auto.
  rewrite ?Hr. simpl. now rewrite kget_kmap, E.
Qed.

Lemma missing_at_embed2 (i : names_t) (n r : value) (kn kr : pykey) :
  hash_key n = Ok kn -> hash_key r = Ok kr ->
  missing_at (embed2 i) [n; r]
  = Ok (match kget kn i with
        | Some regions => match kget kr regions with Some _ => false | None => true end
        | None => true
        end).
Proof.
  intros Hn Hr. cbn [missing_at]. unfold embed2 at 1. cbn [py_in].
  rewrite Hn. cbn [bind]. rewrite kmem_kmap. unfold kmem.
  destruct (kget kn i) as [regions|] eqn:E; auto.
  unfold embed2. cbn [py_getitem]. rewrite Hn. cbn [bind].
  rewrite kget_kmap, E. cbn [option_map bind].
  now apply missing_at_embed1.
Qed.

Lemma missing_at_embed3 (i : types_t) (t n r : value) (kt kn kr : pykey) :
  hash_key t = Ok kt -> hash_key n = Ok kn -> hash_key r = Ok kr ->
  missing_at (embed3 i) [t; n; r]
  = Ok (match kget3 i kt kn kr with Some _ => false | None => true end).
Proof.
  intros Ht Hn Hr. unfold kget3.
  change (missing_at (embed3 i) [t; n; r])
    with (present <- py_in t (embed3 i) ;;
          if present then child <- py_getitem (embed3 i) t ;; missing_at child [n; r]
          else Ok true).
  unfold embed3 at 1. cbn [py_in].
  rewrite Ht. cbn [bind]. rewrite kmem_kmap. unfold kmem.
  destruct (kget kt i) as [names|] eqn:E; auto.
  unfold embed3. cbn [py_getitem]. rewrite Ht. cbn [bind].
  rewrite kget_kmap, E. cbn [option_map bind].
  rewrite (missing_at_embed2 names n r kn kr) by assumption.
  destruct (kget kn names); reflexivity.
Qed.

(** ** Lookups on a built catalog *)

(** C1.  On every catalog the constructor builds, from any payload and
    any version string it accepts, [get_endpoint] returns a value for
    every triple of hashable arguments ([None] included); when a key of
    the triple is missing at its level of the index the value is the
    empty mapping. *)
Theorem get_endpoint_total (payload : value) (ver : option string)
        (cat : OpenStackServiceCatalog) (t n r : value) (kt kn kr : pykey) :
  new_catalog payload ver = Ok cat ->
  hash_key t = Ok kt -> hash_key n = Ok kn -> hash_key r = Ok kr ->
  (exists v, get_endpoint cat t n r = Ok v) /\
  (missing_at (_service_catalog cat) (lookup_path cat t n r) = Ok true ->
   get_endpoint cat t n r = Ok (VDict [])).
Proof.
  intros H Ht Hn Hr. split.
  - destruct (get_endpoint_built payload ver cat t n r kt kn kr H Ht Hn Hr)
      as (l & _ & G).
    eauto.
  - apply new_catalog_typed in H. destruct cat as [v sc].
    unfold lookup_path. simpl in *.
    destruct H as [_ [(Hv & i & _ & ->) | (Hv2 & Hv1 & i & _ & ->)]].
    + rewrite Hv, (missing_at_embed3 i t n r kt kn kr) by assumption.
      intros M. injection M as M. unfold get_endpoint.
      rewrite (resolve_v2 v i t n r kt kn kr) by assumption.
      unfold bind at 1. rewrite pick_the_one. unfold look3, look2.
      unfold kget3 in M.
      destruct (kget kt i) as [names|]; [|reflexivity].
      destruct (kget kn names) as [regions|]; [|reflexivity].
      destruct (kget kr regions); [discriminate|reflexivity].
    + rewrite Hv2, (missing_at_embed2 i n r kn kr) by assumption.
      intros M. injection M as M. unfold get_endpoint.
      rewrite (resolve_v1 v i t n r kn kr) by assumption.
      unfold bind at 1. rewrite pick_the_one. unfold look2.
      destruct (kget kn i) as [regions|]; [|reflexivity].
      destruct (kget kr regions); [discriminate|reflexivity].
Qed.


(** C6.  For a payload in the 2.0 shape the constructor builds the
    three-level dictionary whose first-level keys are the declared
    types, whose second-level keys under a type are the names declared
    with it, and whose list under a type, name and region holds the
    endpoints declared for them with that region: all of them, in
    declaration order, repeated ones included. *)
Theorem parse_auth_v2_index (services : list value) (ds : list descriptor)
        (ver : option string) :
  read_payload services = Some ds ->
  is_v2 (effective_version ver) = true ->
  exists i : types_t,
    new_catalog (VList services) ver
    = Ok (mkCatalog (effective_version ver) (embed3 i)) /\
    (forall kt, kmem kt i = existsb (fun d => keqb (d_type d) kt) ds) /\
    (forall kt kn,
        match kget kt i with Some names => kmem kn names | None => false end
        = existsb (fun d => keqb (d_type d) kt && keqb (d_name d) kn) ds) /\
    (forall kt kn kr,
        kget3 i kt kn kr
        = nonempty
            (map snd
               (filter (fun p => keqb (fst p) kr)
                  (flat_map
                     (fun d => if keqb (d_type d) kt && keqb (d_name d) kn
                               then d_endpoints d else [])
                     ds)))).
Proof.
  intros Hp Hv.
  destruct (new_catalog_v2_represents services ds ver Hp Hv)
    as (i & Hc & H1 & H2 & H3).
  exists i. repeat split; auto.
Qed.

Lemma get_endpoint_total_witness :
  (exists v, get_endpoint
               (mkCatalog "1.1"
                  (VDict [(KStr "cloudServers",
                           VDict [(KNone,
                                   VList [endpoint_record VNone "https://x/compute"])])]))
               VNone (VStr "cloudFiles") VNone = Ok v) /\
  get_endpoint
    (mkCatalog "1.1"
       (VDict [(KStr "cloudServers",
                VDict [(KNone,
                        VList [endpoint_record VNone "https://x/compute"])])]))
    VNone (VStr "cloudFiles") VNone = Ok (VDict []).
Proof.
  destruct (get_endpoint_total sample_v1_payload None
              (mkCatalog "1.1"
                 (VDict [(KStr "cloudServers",
                          VDict [(KNone,
                                  VList [endpoint_record VNone "https://x/compute"])])]))
              VNone (VStr "cloudFiles") VNone KNone (KStr "cloudFiles") KNone
              eq_refl eq_refl eq_refl eq_refl) as [H1 H2].
  split; [exact H1 | apply H2; reflexivity].
Defined.


Lemma parse_auth_v2_index_witness :
  exists i : types_t,
    new_catalog (VList sample_v2_services) (Some "2.0")
    = Ok (mkCatalog "2.0" (embed3 i)) /\
    kget3 i (KStr "object-store") KNone (KStr "DFW")
    = Some [endpoint_record (VStr "DFW") "https://dfw/a";
            endpoint_record (VStr "DFW") "https://dfw/b"] /\
    kget3 i (KStr "compute") (KStr "cloudServers") (KStr "LON") = None.
Proof.
  destruct (parse_auth_v2_index sample_v2_services sample_v2_descriptors
              (Some "2.0") eq_refl eq_refl) as (i & H & _ & _ & H3).
  exists i. split; [exact H|]. rewrite !H3. split; reflexivity.
Defined.

(** ** Only the library's own checks raise LibcloudError *)

Lemma plain_bind {A B : Type} (m : result A) (k : A -> result B) :
  plain m -> (forall a, plain (k a)) -> plain (bind m k).
Proof. destruct m as [a|e]; simpl; auto. Qed.

Lemma plain_for_each {S A : Type} (f : S -> A -> result S) (l : list A) :
  (forall s a, plain (f s a)) -> forall s, plain (for_each f l s).
Proof.
  intros H. induction l as [|a l IH]; intros s; simpl; auto.
  apply plain_bind; auto.
Qed.

Lemma plain_hash_key (v : value) : plain (hash_key v).
Proof. destruct v; simpl; auto. Qed.

Lemma plain_seq_index (i : value) (n : nat) : plain (seq_index i n).
Proof.
  unfold seq_index. destruct i; simpl; auto;
    match goal with |- context [if ?c then _ else _] => destruct c end; simpl; auto.
Qed.

Lemma plain_py_get (c k d : value) : plain (py_get c k d).
Proof.
  destruct c; simpl; auto. apply plain_bind; [apply plain_hash_key|].
  intros a. destruct (kget a d0); simpl; auto.
Qed.

Lemma plain_py_getitem (c k : value) : plain (py_getitem c k).
Proof.
  destruct c; simpl; auto.
  - apply plain_bind; [apply plain_seq_index|].
    intros a. destruct (nth_error (chars s) a); simpl; auto.
  - apply plain_bind; [apply plain_seq_index|].
    intros a. destruct (nth_error l a); simpl; auto.
  - apply plain_bind; [apply plain_hash_key|].
    intros a. destruct (kget a d); simpl; auto.
Qed.

Lemma plain_py_setitem (c k v : value) : plain (py_setitem c k v).
Proof.
  destruct c; simpl; auto.
  - apply plain_bind; [apply plain_seq_index|]. simpl; auto.
  - apply plain_bind; [apply plain_hash_key|]. simpl; auto.
Qed.

Lemma plain_py_in (x c : value) : plain (py_in x c).
Proof.
  destruct c; simpl; auto.
  - destruct x; simpl; auto.
  - apply plain_bind; [apply plain_hash_key|]. simpl; auto.
Qed.

Lemma plain_py_append (c x : value) : plain (py_append c x).
Proof. destruct c; simpl; auto. Qed.

Lemma plain_py_iter (c : value) : plain (py_iter c).
Proof. destruct c; simpl; auto. Qed.

Lemma plain_py_items (c : value) : plain (py_items c).
Proof. destruct c; simpl; auto. Qed.

Lemma plain_modify_at (path : list value) (f : value -> result value) :
  (forall v, plain (f v)) -> forall root, plain (modify_at root path f).
Proof.
  intros H. induction path as [|k path IH]; intros root; simpl; auto.
  apply plain_bind; [apply plain_py_getitem|]. intros child.
  apply plain_bind; [apply IH|]. intros. apply plain_py_setitem.
Qed.

Lemma plain_parse_auth_v1 (sc payload : value) : plain (_parse_auth_v1 sc payload).
Proof.
  unfold _parse_auth_v1. apply plain_bind; [apply plain_py_items|]. intros items.
  apply plain_for_each. intros s [service endpoints].
  apply plain_bind; [apply plain_py_setitem|]. intros sc1.
  apply plain_bind; [apply plain_py_iter|]. intros eps.
  apply plain_for_each. intros s' e. unfold add_endpoint_v1.
  apply plain_bind; [apply plain_py_get|]. intros region.
  apply plain_bind; [apply plain_py_getitem|]. intros regions.
  apply plain_bind; [apply plain_py_in|]. intros present.
  apply plain_bind.
  - destruct present; cbn [negb]; [exact I|].
    apply plain_modify_at. intros. apply plain_py_setitem.
  - intros. apply plain_modify_at. intros. apply plain_py_append.
Qed.

Lemma plain_parse_auth_v2 (sc payload : value) : plain (_parse_auth_v2 sc payload).
Proof.
  unfold _parse_auth_v2. apply plain_bind; [apply plain_py_iter|]. intros services.
  apply plain_for_each. intros s service. unfold parse_service_v2.
  apply plain_bind; [apply plain_py_getitem|]. intros service_type.
  apply plain_bind; [apply plain_py_get|]. intros service_name.
  apply plain_bind; [apply plain_py_in|]. intros has_type.
  apply plain_bind.
  { destruct has_type; cbn [negb]; [exact I|]. apply plain_py_setitem. }
  intros sc1.
  apply plain_bind; [apply plain_py_getitem|]. intros names.
  apply plain_bind; [apply plain_py_in|]. intros has_name'.
  apply plain_bind.
  { destruct has_name'; cbn [negb]; [exact I|].
    apply plain_modify_at. intros. apply plain_py_setitem. }
  intros sc2.
  apply plain_bind; [apply plain_py_get|]. intros endpoints.
  apply plain_bind; [apply plain_py_iter|]. intros eps.
  apply plain_for_each. intros s' e. unfold add_endpoint_v2.
  apply plain_bind; [apply plain_py_get|]. intros region.
  apply plain_bind; [apply plain_py_getitem|]. intros names'.
  apply plain_bind; [apply plain_py_getitem|]. intros regions.
  apply plain_bind; [apply plain_py_in|]. intros present.
  apply plain_bind.
  - destruct present; cbn [negb]; [exact I|].
    apply plain_modify_at. intros. apply plain_py_setitem.
  - intros. apply plain_modify_at. intros. apply plain_py_append.
Qed.

(** ** Version strings *)

(** C8 as stated fails for the catalog: a version outside the recognized
    set that contains one of the family markers is parsed as that
    family. *)
Lemma new_catalog_accepts_unrecognized_version :
  ~ In "2.0_token" recognized_versions /\
  new_catalog (VList []) (Some "2.0_token")
  = Ok (mkCatalog "2.0_token" (VDict [])).
Proof.
  split.
  - simpl. intros [H|[H|[H|[H|[H|[]]]]]]; discriminate.
  - reflexivity.
Qed.

(** C8, amended.  For a version string outside the recognized set the
    [authenticate] dispatch raises LibcloudError without sending a
    request or touching the connection; the catalog constructor raises
    LibcloudError exactly when the string (or the default, for an empty
    one) contains none of 2.0, 1.1 and 1.0. *)
Theorem unrecognized_version (version : string) :
  ~ In version recognized_versions ->
  (forall transport json_loads json_dumps
          (self : OpenStackAuthConnection.t) (log : list Request),
      OpenStackAuthConnection.auth_version self = version ->
      OpenStackAuthConnection.authenticate transport json_loads json_dumps (self, log)
      = (Raise (LibcloudError "Unsupported Auth Version requested"), (self, log))) /\
  (forall payload : value,
      (exists msg, new_catalog payload (Some version) = Raise (LibcloudError msg))
      <-> (is_v2 (effective_version (Some version)) = false /\
           is_v1 (effective_version (Some version)) = false)).
Proof.
  intros Hv. split.
  - intros transport json_loads json_dumps self log <-.
    assert (N : forall s, In s recognized_versions ->
                          String.eqb (OpenStackAuthConnection.auth_version self) s = false).
    { intros s Hs. apply String.eqb_neq. intros E. apply Hv. now rewrite E. }
    unfold OpenStackAuthConnection.authenticate, mbind, gets, raise. simpl.
    rewrite !N by (simpl; tauto). reflexivity.
  - intros payload. unfold new_catalog. cbv zeta.
    destruct (is_v2 (effective_version (Some version))) eqn:E2.
    + split; [|intros [? _]; discriminate].
      intros [msg H]. pose proof (plain_parse_auth_v2 (VDict []) payload) as P.
      destruct (_parse_auth_v2 (VDict []) payload) as [sc|e]; simpl in H;
        [discriminate|].
      injection H as ->. destruct P.
    + destruct (is_v1 (effective_version (Some version))) eqn:E1.
      * split; [|intros [_ ?]; discriminate].
        intros [msg H]. pose proof (plain_parse_auth_v1 (VDict []) payload) as P.
        destruct (_parse_auth_v1 (VDict []) payload) as [sc|e]; simpl in H;
          [discriminate|].
        injection H as ->. destruct P.
      * split; auto. intros _. eauto.
Qed.

Lemma unrecognized_version_witness :
  OpenStackAuthConnection.authenticate
    (fun _ _ => Raise (TransportError "unreachable")) Json.loads Json.dumps
    (OpenStackAuthConnection.new "https://auth.example" "3.0" "user" "secret", [])
  = (Raise (LibcloudError "Unsupported Auth Version requested"),
     (OpenStackAuthConnection.new "https://auth.example" "3.0" "user" "secret", []))
  /\ exists msg, new_catalog (VList []) (Some "3.0") = Raise (LibcloudError msg).
Proof.
  assert (Hv : ~ In "3.0" recognized_versions).
  { simpl. intros [H|[H|[H|[H|[H|[]]]]]]; discriminate. }
  destruct (unrecognized_version "3.0" Hv) as [H1 H2]. split.
  - apply H1. reflexivity.
  - apply (H2 (VList [])). split; reflexivity.
Defined.

(** ** Parsing the response body *)

(** C9 as stated fails twice: an empty body is answered by [None]
    before the headers are looked at, and the failure for a missing
    header is the plain LibcloudError. *)
Lemma parse_body_without_content_type :
  OpenStackAuthResponse.parse_body Json.loads (mkResponse 200 "" []) = Ok VNone /\
  OpenStackAuthResponse.parse_body Json.loads (mkResponse 200 "{}" [])
  = Raise (LibcloudError "Missing content-type header").
Proof. split; reflexivity. Qed.

(** C9, amended.  A response with a non-empty body and no content-type
    header under either spelling makes [parse_body] raise LibcloudError
    (missing content-type header), whatever the body and the JSON
    decoder; a response with an empty body is answered by [None]. *)
Theorem parse_body_missing_content_type
        (json_loads : string -> option value) (resp : Response) :
  hmem "content-type" (headers resp) = false ->
  hmem "Content-Type" (headers resp) = false ->
  OpenStackAuthResponse.parse_body json_loads resp
  = if String.eqb (body resp) ""
    then Ok VNone
    else Raise (LibcloudError "Missing content-type header").
Proof.
  intros H1 H2. unfold OpenStackAuthResponse.parse_body.
  destruct (String.eqb (body resp) ""); auto.
  rewrite H1, H2. reflexivity.
Qed.

Lemma parse_body_missing_content_type_witness :
  OpenStackAuthResponse.parse_body Json.loads
    (mkResponse 200 "[1, 2" [("content-length", "5")])
  = Raise (LibcloudError "Missing content-type header").
Proof.
  apply (parse_body_missing_content_type Json.loads
           (mkResponse 200 "[1, 2" [("content-length", "5")]));
    reflexivity.
Defined.

(** ** The authentication exchanges *)

Section Exchanges.
Import OpenStackAuthConnection.
Variable transport : list Request -> Request -> result Response.
Variable json_loads : string -> option value.
Variable json_dumps : value -> string.

Ltac run_exchange :=
  unfold OpenStackAuthConnection.authenticate, authenticate_1_0,
    authenticate_1_1, authenticate_2_0_with_apikey,
    authenticate_2_0_with_password, authenticate_2_0_with_body,
    request, mbind, gets, raise, ret, lift, modify, set_urls, set_auth_token;
  cbn [fst snd auth_version auth_url user_id key urls auth_token
       String.eqb Ascii.eqb Bool.eqb orb].

(** A recognized version sends exactly one request. *)
Lemma authenticate_sends_one (self : t) (log : list Request) :
  In (auth_version self) recognized_versions ->
  exists rq,
    snd (snd (authenticate transport json_loads json_dumps (self, log)))
    = (log ++ [rq])%list.
Proof.
  intros Hv. destruct self as [ver url user k u tok]. simpl in Hv.
  destruct Hv as [<-|[<-|[<-|[<-|[<-|[]]]]]]; run_exchange;
    eexists;
    match goal with
    | |- context [transport ?l ?r] => destruct (transport l r) as [resp|e]
    end; try reflexivity;
    repeat match goal with
           | |- context [if ?c then _ else _] => destruct c; try reflexivity
           | |- context [json_loads ?b] => destruct (json_loads b); try reflexivity
           | |- context [except_KeyError ?r ?h] =>
               destruct (except_KeyError r h); try reflexivity
           end.
Qed.

(** An unrecognized version sends none. *)
Lemma authenticate_unrecognized (self : t) (log : list Request) :
  ~ In (auth_version self) recognized_versions ->
  authenticate transport json_loads json_dumps (self, log)
  = (Raise (LibcloudError "Unsupported Auth Version requested"), (self, log)).
Proof.
  intros Hv.
  assert (N : forall s, In s recognized_versions ->
                        String.eqb (auth_version self) s = false).
  { intros s Hs. apply String.eqb_neq. intros E. apply Hv. now rewrite E. }
  unfold authenticate, mbind, gets, raise. simpl.
  rewrite !N by (simpl; tauto). reflexivity.
Qed.

(** A response object with status 401 is read no further. *)
Lemma unauthorized_response
        (self : t) (log : list Request) (resp : Response) :
  In (auth_version self) recognized_versions ->
  (forall rq, transport log rq = Ok resp) ->
  status resp = UNAUTHORIZED ->
  fst (authenticate transport json_loads json_dumps (self, log))
  = Raise InvalidCredsError.
Proof.
  intros Hv Ht Hs. destruct self as [ver url user k u tok]. simpl in Hv.
  destruct Hv as [<-|[<-|[<-|[<-|[<-|[]]]]]]; run_exchange;
    rewrite Ht, Hs; reflexivity.
Qed.

(** C10.  A 1.0 authentication succeeds exactly when the answer has
    status 204 and a non-empty x-auth-token header, whatever the other
    headers.  It then leaves the three-service payload made of the
    management, CDN and storage headers ([None] for a missing one),
    each service with one record whose only key is publicURL; the
    index built from it files each record under region [None] and
    answers a lookup by service name and region [None] with that
    record. *)
Theorem authenticate_1_0_catalog
        (self : t) (log : list Request) (resp : Response) :
  auth_version self = "1.0" ->
  (forall rq, transport log rq = Ok resp) ->
  (fst (authenticate transport json_loads json_dumps (self, log)) = Ok tt
   <-> (status resp = NO_CONTENT /\
        exists token, hget "x-auth-token" (headers resp) = Some token /\
                      token <> "")) /\
  (fst (authenticate transport json_loads json_dumps (self, log)) = Ok tt ->
   let self' := fst (snd (authenticate transport json_loads json_dumps (self, log))) in
   urls self' = v1_0_urls (headers resp) /\
   exists cat,
     new_catalog (urls self') (Some "1.0") = Ok cat /\
     _service_catalog cat
     = VDict
         [(KStr "cloudServers",
           VDict [(KNone, VList [v1_0_record "x-server-management-url" (headers resp)])]);
          (KStr "cloudFilesCDN",
           VDict [(KNone, VList [v1_0_record "x-cdn-management-url" (headers resp)])]);
          (KStr "cloudFiles",
           VDict [(KNone, VList [v1_0_record "x-storage-url" (headers resp)])])] /\
     forall service_type,
       get_endpoint cat service_type (VStr "cloudServers") VNone
       = Ok (v1_0_record "x-server-management-url" (headers resp)) /\
       get_endpoint cat service_type (VStr "cloudFilesCDN") VNone
       = Ok (v1_0_record "x-cdn-management-url" (headers resp)) /\
       get_endpoint cat service_type (VStr "cloudFiles") VNone
       = Ok (v1_0_record "x-storage-url" (headers resp))).
Proof.
  intros Hv Ht. destruct self as [ver url user k u tok]. simpl in Hv. subst ver.
  run_exchange. rewrite Ht.
  destruct (status resp =? UNAUTHORIZED) eqn:E1.
  { simpl. split; [|intros H; discriminate H]. split; [intros H; discriminate H|].
    intros [Hs _]. rewrite Hs in E1. discriminate. }
  destruct (status resp =? NO_CONTENT) eqn:E2; simpl.
  2:{ split; [|intros H; discriminate H]. split; [intros H; discriminate H|].
      intros [Hs _]. rewrite Hs in E2. discriminate. }
  apply Z.eqb_eq in E2. unfold hget_value.
  destruct (hget "x-auth-token" (headers resp)) as [token|] eqn:Etok; simpl.
  2:{ split; [|intros H; discriminate H]. split; [intros H; discriminate H|].
      intros [_ (token & ? & _)]. discriminate. }
  destruct (String.eqb token "") eqn:E3; simpl.
  { apply String.eqb_eq in E3. split; [|intros H; discriminate H]. split; [intros H; discriminate H|].
    intros [_ (token' & H & N)]. congruence. }
  apply String.eqb_neq in E3. split.
  - split; auto. intros _. split; auto. exists token. auto.
  - intros _. split; [reflexivity|].
    eexists. split; [reflexivity|]. split; [reflexivity|].
    intros service_type. repeat split; reflexivity.
Qed.

(** A response object with status 200 and the scenario body. *)
Lemma scenario_response
        (self : t) (log : list Request) (resp : Response) :
  auth_version self = "1.1" ->
  (forall rq, transport log rq = Ok resp) ->
  status resp = OK ->
  body resp = scenario_body ->
  json_loads scenario_body = Some scenario_value ->
  exists self' log',
    authenticate transport json_loads json_dumps (self, log)
    = (Ok tt, (self', log')) /\
    auth_token self' = Some (VStr "tok123") /\
    exists cat,
      new_catalog (urls self') (Some "1.1") = Ok cat /\
      forall service_type,
        get_endpoint cat service_type (VStr "cloudServers") VNone
        = Ok scenario_record.
Proof.
  intros Hv Ht Hs Hb Hj. destruct self as [ver url user k u tok].
  simpl in Hv. subst ver.
  run_exchange. rewrite Ht, Hs, Hb, Hj. simpl.
  do 2 eexists. split; [reflexivity|]. split; [reflexivity|].
  eexists. split; [reflexivity|]. intros. reflexivity.
Qed.
End Exchanges.

Lemma authenticate_1_0_catalog_witness :
  exists cat,
    new_catalog (v1_0_urls [("x-auth-token", "T"); ("x-storage-url", "https://s")])
                (Some "1.0") = Ok cat /\
    get_endpoint cat VNone (VStr "cloudFiles") VNone
    = Ok (VDict [(KStr "publicURL", VStr "https://s")]) /\
    get_endpoint cat VNone (VStr "cloudServers") VNone
    = Ok (VDict [(KStr "publicURL", VNone)]).
Proof.
  destruct (authenticate_1_0_catalog
              (serving (mkResponse 204 ""
                            [("x-auth-token", "T"); ("x-storage-url", "https://s")]))
              Json.loads Json.dumps
              (OpenStackAuthConnection.new "https://auth.example" "1.0" "user" "secret")
              []
              (mkResponse 204 ""
                 [("x-auth-token", "T"); ("x-storage-url", "https://s")])
              eq_refl (fun _ => eq_refl)) as [_ H].
  destruct (H eq_refl) as (_ & cat & Hc & _ & G).
  exists cat. split; [exact Hc|].
  destruct (G VNone) as (G1 & _ & G3). split; [exact G3 | exact G1].
Defined.

(** C4 fails on the code: the 1.1 and 2.0 exchanges store whatever is
    under the token id, here the empty string, and return. *)
Lemma authenticate_1_1_stores_empty_token :
  OpenStackAuthConnection.authenticate
    (serving (json_answer 200 empty_token_body)) Json.loads Json.dumps
    (OpenStackAuthConnection.new "https://auth.example" "1.1" "user" "secret", [])
  = (Ok tt,
     (OpenStackAuthConnection.mk "1.1" "https://auth.example" "user" "secret"
        (VDict []) (Some (VStr "")),
      [mkRequest "https://auth.example" "/v1.1/auth"
         (Some (Json.dumps
                  (VDict [(KStr "credentials",
                           VDict [(KStr "username", VStr "user");
                                  (KStr "key", VStr "secret")])])))
         [] "POST"])).
Proof. reflexivity. Qed.

(** Only a missing key is turned into a malformed-response failure: a
    body whose auth member is null raises the TypeError of the
    subscript. *)
Lemma authenticate_1_1_null_auth :
  fst (OpenStackAuthConnection.authenticate
         (serving (json_answer 200 null_auth_body)) Json.loads Json.dumps
         (OpenStackAuthConnection.new "https://auth.example" "1.1" "user" "secret", []))
  = Raise TypeError.
Proof. reflexivity. Qed.

(** ** Ensuring the connection is authenticated *)

Section Authenticated.
Import OpenStackBaseConnection.
Variable transport : list Request -> Request -> result Response.
Variable json_loads : string -> option value.
Variable json_dumps : value -> string.
Variable base_init : string -> string -> string -> result unit.
Variable _tuple_from_url : value -> result (string * Z * bool * string).
Variable get_endpoint : t -> result value.

Lemma populate_noop (self : t) (log : list Request) :
  truthy (auth_token self) = true ->
  _populate_hosts_and_request_paths transport json_loads json_dumps
    base_init _tuple_from_url get_endpoint (self, log) = (Ok tt, (self, log)).
Proof.
  intros H. unfold _populate_hosts_and_request_paths,
    mbind, gets, ret.
  simpl. rewrite H. reflexivity.
Qed.
End Authenticated.

(** * Further properties *)

(** ** The response body *)

Lemma contains_char_cons (c a : ascii) (s : string) :
  contains (String c EmptyString) (String a s) = false ->
  Ascii.eqb a c = false /\ contains (String c EmptyString) s = false.
Proof.
  simpl. destruct (ascii_dec c a) as [<-|N].
  - destruct s; discriminate.
  - simpl. intros H. split; auto. apply Ascii.eqb_neq. congruence.
Qed.

Lemma before_without_separator (c : ascii) (s : string) :
  contains (String c EmptyString) s = false -> before c s = s.
Proof.
  induction s as [|a s IH]; intros H; auto.
  apply contains_char_cons in H. destruct H as [H1 H2].
  simpl. rewrite H1. now rewrite IH.
Qed.

Lemma parse_body_by_media_type (json_loads : string -> option value)
      (resp : Response) (ct : string) :
  body resp <> "" ->
  declared_content_type (headers resp) = Some ct ->
  OpenStackAuthResponse.parse_body json_loads resp
  = if String.eqb (before ";"%char ct) "application/json"
    then match json_loads (body resp) with
         | Some data => Ok data
         | None => Raise (MalformedResponseError "Failed to parse JSON")
         end
    else Ok (VStr (body resp)).
Proof.
  intros Hb Hc. unfold OpenStackAuthResponse.parse_body.
  apply String.eqb_neq in Hb. rewrite Hb.
  unfold declared_content_type in Hc. unfold hmem.
  assert (E : forall key, hget key (headers resp) = Some ct ->
              (content_type <- match hget key (headers resp) with
                               | Some v => Ok v
                               | None => Raise KeyError
                               end ;;
               let content_type :=
                 if contains ";" content_type then before ";"%char content_type
                 else content_type in
               if String.eqb content_type "application/json" then
                 match json_loads (body resp) with
                 | Some data => Ok data
                 | None => Raise (MalformedResponseError "Failed to parse JSON")
                 end
               else if String.eqb content_type "text/plain" then Ok (VStr (body resp))
               else Ok (VStr (body resp)))
              = if String.eqb (before ";"%char ct) "application/json"
                then match json_loads (body resp) with
                     | Some data => Ok data
                     | None => Raise (MalformedResponseError "Failed to parse JSON")
                     end
                else Ok (VStr (body resp))).
  { intros key Hk. rewrite Hk. cbn [bind].
    destruct (contains ";" ct) eqn:Hs.
    - destruct (String.eqb (before ";"%char ct) "application/json"); auto.
      destruct (String.eqb (before ";"%char ct) "text/plain"); auto.
    - rewrite (before_without_separator ";"%char ct Hs).
      destruct (String.eqb ct "application/json"); auto.
      destruct (String.eqb ct "text/plain"); auto. }
  destruct (hget "content-type" (headers resp)) as [v|] eqn:E1.
  - injection Hc as ->. cbn [bind]. now apply E.
  - rewrite Hc. cbn [bind]. now apply E.
Qed.

(** X1.  A non-empty body whose content type, cut at the first
    semicolon, is application/json is decoded; when the decoder fails
    the failure is MalformedResponseError.  The lower-case header is
    the one consulted when both spellings are there. *)
Theorem parse_body_json (json_loads : string -> option value)
        (resp : Response) (ct : string) :
  body resp <> "" ->
  declared_content_type (headers resp) = Some ct ->
  before ";"%char ct = "application/json" ->
  OpenStackAuthResponse.parse_body json_loads resp
  = match json_loads (body resp) with
    | Some data => Ok data
    | None => Raise (MalformedResponseError "Failed to parse JSON")
    end.
Proof.
  intros Hb Hc Hj. rewrite (parse_body_by_media_type json_loads resp ct Hb Hc).
  now rewrite Hj.
Qed.

Lemma parse_body_json_witness :
  OpenStackAuthResponse.parse_body Json.loads
    (mkResponse 200 "[1, 2]"
       [("Content-Type", "text/plain");
        ("content-type", "application/json; charset=UTF-8")])
  = Ok (VList [VInt 1; VInt 2])
  /\ OpenStackAuthResponse.parse_body Json.loads
       (mkResponse 200 "[1, 2" [("Content-Type", "application/json")])
     = Raise (MalformedResponseError "Failed to parse JSON").
Proof.
  split.
  - apply (parse_body_json Json.loads
             (mkResponse 200 "[1, 2]"
                [("Content-Type", "text/plain");
                 ("content-type", "application/json; charset=UTF-8")])
             "application/json; charset=UTF-8"); [discriminate | reflexivity ..].
  - apply (parse_body_json Json.loads
             (mkResponse 200 "[1, 2" [("Content-Type", "application/json")])
             "application/json"); [discriminate | reflexivity ..].
Defined.

(** X2.  Under any other content type the body is returned as the text
    it is, whatever the decoder would make of it. *)
Theorem parse_body_text (json_loads : string -> option value)
        (resp : Response) (ct : string) :
  body resp <> "" ->
  declared_content_type (headers resp) = Some ct ->
  before ";"%char ct <> "application/json" ->
  OpenStackAuthResponse.parse_body json_loads resp = Ok (VStr (body resp)).
Proof.
  intros Hb Hc Hj. rewrite (parse_body_by_media_type json_loads resp ct Hb Hc).
  apply String.eqb_neq in Hj. now rewrite Hj.
Qed.

Lemma parse_body_text_witness :
  OpenStackAuthResponse.parse_body Json.loads
    (mkResponse 200 "[1, 2]" [("Content-Type", "Application/JSON")])
  = Ok (VStr "[1, 2]").
Proof.
  apply (parse_body_text Json.loads
           (mkResponse 200 "[1, 2]" [("Content-Type", "Application/JSON")])
           "Application/JSON"); [discriminate | reflexivity | discriminate].
Defined.

(** ** The exchanges, case by case *)

Section ExchangeOutcomes.
Import OpenStackAuthConnection.
Variable transport : list Request -> Request -> result Response.
Variable json_loads : string -> option value.
Variable json_dumps : value -> string.

Ltac run_auth :=
  unfold OpenStackAuthConnection.authenticate, authenticate_1_0,
    authenticate_1_1, authenticate_2_0_with_apikey,
    authenticate_2_0_with_password, authenticate_2_0_with_body,
    request, mbind, gets, raise, ret, lift, modify, set_urls, set_auth_token,
    auth_request, with_token, with_urls, token_of, catalog_of, outer_key,
    success_statuses, missing_elements;
  cbn [fst snd auth_version auth_url user_id key urls auth_token
       String.eqb Ascii.eqb Bool.eqb orb].

Ltac by_version Hv :=
  simpl in Hv;
  repeat match type of Hv with
         | _ \/ _ => destruct Hv as [Hv|Hv]
         end;
  [subst .. | destruct Hv].

(** The request is fixed before the answer is known. *)
Lemma authenticate_log (self : t) (log : list Request) :
  In (auth_version self) recognized_versions ->
  snd (snd (authenticate transport json_loads json_dumps (self, log)))
  = (log ++ [auth_request json_dumps self])%list.
Proof.
  intros Hv. destruct self as [ver url user k u tok].
  cbn [auth_version] in Hv. by_version Hv; run_auth;
    match goal with
    | |- context [transport ?l ?r] => destruct (transport l r) as [resp|e]
    end; try reflexivity;
    repeat match goal with
           | |- context [if ?c then _ else _] => destruct c; try reflexivity
           | |- context [json_loads ?b] => destruct (json_loads b); try reflexivity
           | |- context [except_KeyError ?r ?h] =>
               destruct (except_KeyError r h); try reflexivity
           end.
Qed.

(** X3.  Under a recognized version [authenticate] sends exactly one
    request, to the auth URL, made of the version and the credentials
    alone: the 1.0 one carries them in two headers of a GET, the others
    in the JSON body of a POST.  It is sent and recorded whatever the
    endpoint answers, also when the exchange then fails. *)
Theorem authenticate_sends_request (self : t) (log : list Request) :
  In (auth_version self) recognized_versions ->
  snd (snd (authenticate transport json_loads json_dumps (self, log)))
  = (log ++ [auth_request json_dumps self])%list /\
  req_url (auth_request json_dumps self) = auth_url self /\
  (auth_version self = "1.0" ->
   req_data (auth_request json_dumps self) = None /\
   req_headers (auth_request json_dumps self)
   = [("X-Auth-User", user_id self); ("X-Auth-Key", key self)]) /\
  (auth_version self <> "1.0" ->
   req_method (auth_request json_dumps self) = "POST" /\
   hget "X-Auth-Key" (req_headers (auth_request json_dumps self)) = None).
Proof.
  intros Hv. split; [now apply authenticate_log|].
  destruct self as [ver url user k u tok].
  cbn [auth_version] in Hv. by_version Hv;
    (split; [reflexivity|]); (split; intros H; [|]);
    try discriminate H; try (exfalso; apply H; reflexivity);
    split; reflexivity.
Qed.

(** What [request] raises leaves the exchange as it is. *)
Lemma exchange_raises (self : t) (log : list Request) (e : exn) :
  In (auth_version self) recognized_versions ->
  transport log (auth_request json_dumps self) = Raise e ->
  authenticate transport json_loads json_dumps (self, log)
  = (Raise e, (self, (log ++ [auth_request json_dumps self])%list)).
Proof.
  intros Hv. destruct self as [ver url user k u tok].
  cbn [auth_version] in Hv. by_version Hv; run_auth; intros ->; reflexivity.
Qed.

(** X4.  A transport failure is raised as it is, with nothing stored. *)
Theorem authenticate_transport_failure (self : t) (log : list Request) (e : exn) :
  In (auth_version self) recognized_versions ->
  transport log (auth_request json_dumps self) = Raise e ->
  authenticate transport json_loads json_dumps (self, log)
  = (Raise e, (self, (log ++ [auth_request json_dumps self])%list)).
Proof.
  intros Hv. destruct self as [ver url user k u tok].
  cbn [auth_version] in Hv. by_version Hv; run_auth; intros ->; reflexivity.
Qed.

(** A response object whose status is neither 401 nor a success. *)
Lemma unexpected_status_outcome
        (self : t) (log : list Request) (resp : Response) :
  In (auth_version self) recognized_versions ->
  transport log (auth_request json_dumps self) = Ok resp ->
  status resp <> UNAUTHORIZED ->
  ~ In (status resp) (success_statuses (auth_version self)) ->
  authenticate transport json_loads json_dumps (self, log)
  = (Raise (MalformedResponseError "Malformed response"),
     (self, (log ++ [auth_request json_dumps self])%list)).
Proof.
  intros Hv. destruct self as [ver url user k u tok].
  cbn [auth_version] in Hv. by_version Hv; run_auth; intros -> H1 H2;
    apply Z.eqb_neq in H1; rewrite H1;
    cbn [In] in H2;
    repeat match goal with
           | |- context [status resp =? ?c] =>
               let E := fresh in
               destruct (status resp =? c) eqn:E;
               [apply Z.eqb_eq in E; exfalso; apply H2; rewrite E; auto|]
           end; reflexivity.
Qed.

(** What a JSON exchange comes to once the answer has a success
    status. *)
Lemma json_exchange_outcome (self : t) (log : list Request) (resp : Response) :
  In (auth_version self) json_versions ->
  transport log (auth_request json_dumps self) = Ok resp ->
  In (status resp) (success_statuses (auth_version self)) ->
  authenticate transport json_loads json_dumps (self, log)
  = let log' := (log ++ [auth_request json_dumps self])%list in
    match json_loads (body resp) with
    | None => (Raise (MalformedResponseError "Failed to parse JSON"), (self, log'))
    | Some b =>
        match except_KeyError (token_of (auth_version self) b) missing_elements with
        | Raise e => (Raise e, (self, log'))
        | Ok tok =>
            match except_KeyError (catalog_of (auth_version self) b)
                    missing_elements with
            | Raise e => (Raise e, (with_token tok self, log'))
            | Ok cat => (Ok tt, (with_urls cat (with_token tok self), log'))
            end
        end
    end.
Proof.
  intros Hv. destruct self as [ver url user k u tok0].
  cbn [auth_version] in Hv. by_version Hv; run_auth; intros -> Hs;
    cbn [In] in Hs;
    (assert (E1 : (status resp =? UNAUTHORIZED) = false)
      by (apply Z.eqb_neq; intros E; rewrite E in Hs;
          repeat destruct Hs as [Hs|Hs]; try discriminate Hs; auto));
    rewrite E1;
    try (assert (E3 : (status resp =? OK) = true)
          by (destruct Hs as [Hs|[]]; now rewrite <- Hs);
         rewrite E3);
    try (assert (E4 : ((status resp =? OK)
                       || (status resp =? NON_AUTHORITATIVE_INFORMATION))%bool = true)
          by (destruct Hs as [Hs|[Hs|[]]]; rewrite <- Hs; reflexivity);
         rewrite E4);
    cbn [negb];
    destruct (json_loads (body resp)) as [b|]; try reflexivity;
    repeat (match goal with
            | |- context [py_getitem ?a ?key] =>
                destruct (py_getitem a key) as [?|[]]
            end; cbn [bind except_KeyError]; try reflexivity).
Qed.

(** X10.  A 1.0 answer with status 204 and no x-auth-token header, or
    an empty one, raises MalformedResponseError, not InvalidCredsError;
    by then the catalog payload made of the other headers has replaced
    the stored one. *)
Theorem authenticate_1_0_missing_token
        (self : t) (log : list Request) (resp : Response) :
  auth_version self = "1.0" ->
  transport log (auth_request json_dumps self) = Ok resp ->
  status resp = NO_CONTENT ->
  truthy (hget_value "x-auth-token" (headers resp)) = false ->
  authenticate transport json_loads json_dumps (self, log)
  = (Raise (MalformedResponseError "Missing X-Auth-Token in response headers"),
     (with_urls (v1_0_urls (headers resp))
        (with_token (hget_value "x-auth-token" (headers resp)) self),
      (log ++ [auth_request json_dumps self])%list)).
Proof.
  destruct self as [ver url user k u tok]. cbn [auth_version].
  intros -> Ht Hs Htok. revert Ht. run_auth. intros ->.
  rewrite Hs. cbn [Z.eqb Pos.eqb negb]. rewrite Htok. reflexivity.
Qed.

(** X11.  Whatever the version, the endpoint and the outcome,
    [authenticate] leaves version, auth URL and credentials of the
    connection as they were, keeps the requests recorded before, and
    records at most one more. *)
Theorem authenticate_frame (self : t) (log : list Request) :
  let out := authenticate transport json_loads json_dumps (self, log) in
  auth_version (fst (snd out)) = auth_version self /\
  auth_url (fst (snd out)) = auth_url self /\
  user_id (fst (snd out)) = user_id self /\
  key (fst (snd out)) = key self /\
  (snd (snd out) = log \/
   snd (snd out) = (log ++ [auth_request json_dumps self])%list).
Proof.
  destruct (in_dec string_dec (auth_version self) recognized_versions)
    as [Hv|Hv].
  - cbv zeta. split; [|split; [|split; [|split]]];
      [ | | | | right; now apply authenticate_log].
    all: destruct self as [ver url user k u tok];
      cbn [auth_version] in Hv; by_version Hv; run_auth;
      match goal with
      | |- context [transport ?l ?r] => destruct (transport l r) as [resp|e]
      end; try reflexivity;
      repeat match goal with
             | |- context [if ?c then _ else _] => destruct c; try reflexivity
             | |- context [json_loads ?b] => destruct (json_loads b); try reflexivity
             | |- context [except_KeyError ?r ?h] =>
                 destruct (except_KeyError r h); try reflexivity
             end.
  - cbv zeta.
    rewrite (authenticate_unrecognized transport json_loads json_dumps self log Hv).
    simpl. tauto.
Qed.
End ExchangeOutcomes.

Lemma authenticate_sends_request_witness :
  snd (snd (OpenStackAuthConnection.authenticate
              (serving (mkResponse 401 "" [])) Json.loads Json.dumps
              (sample_auth "1.0", [])))
  = [mkRequest "https://auth.example" "/v1.0" None
       [("X-Auth-User", "user"); ("X-Auth-Key", "secret")] "GET"].
Proof.
  destruct (authenticate_sends_request (serving (mkResponse 401 "" []))
              Json.loads Json.dumps (sample_auth "1.0") [])
    as [H _]; [simpl; tauto | exact H].
Defined.

Lemma authenticate_transport_failure_witness :
  OpenStackAuthConnection.authenticate refusing Json.loads Json.dumps
    (sample_auth "2.0", [])
  = (Raise (TransportError "connection refused"),
     (sample_auth "2.0", [auth_request Json.dumps (sample_auth "2.0")])).
Proof.
  apply (authenticate_transport_failure refusing Json.loads Json.dumps
           (sample_auth "2.0") [] (TransportError "connection refused"));
    [simpl; tauto | reflexivity].
Defined.

Lemma authenticate_1_0_missing_token_witness :
  fst (OpenStackAuthConnection.authenticate
         (serving (mkResponse 204 "" [("x-storage-url", "https://s")]))
         Json.loads Json.dumps (sample_auth "1.0", []))
  = Raise (MalformedResponseError "Missing X-Auth-Token in response headers").
Proof.
  rewrite (authenticate_1_0_missing_token
             (serving (mkResponse 204 "" [("x-storage-url", "https://s")]))
             Json.loads Json.dumps (sample_auth "1.0") []
             (mkResponse 204 "" [("x-storage-url", "https://s")]));
    reflexivity.
Defined.

(** ** The exchanges over HTTP

    [request] as the base class makes it: the HTTP answer goes through
    the response class before an exchange reads its status. *)

Lemma response_class_accepts (json_loads : string -> option value)
      (resp : Response) :
  OpenStackAuthResponse.new json_loads resp = Ok resp
  <-> (body resp = "" \/
       exists ct, declared_content_type (headers resp) = Some ct /\
                  (before ";"%char ct = "application/json" ->
                   json_loads (body resp) <> None)).
Proof.
  unfold OpenStackAuthResponse.new.
  destruct (string_dec (body resp) "") as [E|N].
  - unfold OpenStackAuthResponse.parse_body. rewrite E. simpl. tauto.
  - destruct (declared_content_type (headers resp)) as [ct|] eqn:Hc.
    + rewrite (parse_body_by_media_type json_loads resp ct N Hc).
      destruct (String.eqb (before ";"%char ct) "application/json") eqn:Hj.
      * apply String.eqb_eq in Hj.
        destruct (json_loads (body resp)) as [v|]; cbn [bind]; split.
        -- intros _. right. exists ct. split; [reflexivity|]. discriminate.
        -- reflexivity.
        -- discriminate.
        -- intros [E|(ct' & [= <-] & H)]; [contradiction|].
           exfalso. now apply H.
      * apply String.eqb_neq in Hj. cbn [bind]. split; [|reflexivity].
        intros _. right. exists ct. split; [reflexivity|]. intros E. contradiction.
    + unfold OpenStackAuthResponse.parse_body.
      apply String.eqb_neq in N. rewrite N.
      unfold declared_content_type in Hc. unfold hmem.
      destruct (hget "content-type" (headers resp)); [discriminate|].
      rewrite Hc. cbn [bind]. split; [discriminate|].
      intros [E|(ct & H & _)]; [|discriminate H].
      apply String.eqb_neq in N. contradiction.
Qed.

Section OverHTTP.
Import OpenStackAuthConnection.
Variable http : list Request -> Request -> result Response.
Variable json_loads : string -> option value.
Variable json_dumps : value -> string.

Lemma base_request_accepted (log : list Request) (rq : Request) (resp : Response) :
  http log rq = Ok resp ->
  OpenStackAuthResponse.new json_loads resp = Ok resp ->
  base_request json_loads http log rq = Ok resp.
Proof.
  intros H A. unfold base_request, responseCls. rewrite H. exact A.
Qed.

Lemma base_request_refused (log : list Request) (rq : Request)
      (resp : Response) (e : exn) :
  http log rq = Ok resp ->
  OpenStackAuthResponse.parse_body json_loads resp = Raise e ->
  base_request json_loads http log rq = Raise e.
Proof.
  intros H R. unfold base_request, responseCls, OpenStackAuthResponse.new.
  rewrite H. cbn [bind]. rewrite R. reflexivity.
Qed.

(** An answer the response class refuses never reaches the exchange. *)
Lemma refused_answer (self : t) (log : list Request) (resp : Response) (e : exn) :
  In (auth_version self) recognized_versions ->
  http log (auth_request json_dumps self) = Ok resp ->
  OpenStackAuthResponse.parse_body json_loads resp = Raise e ->
  authenticate (base_request json_loads http) json_loads json_dumps (self, log)
  = (Raise e, (self, (log ++ [auth_request json_dumps self])%list)).
Proof.
  intros Hv H R. apply exchange_raises; [exact Hv|].
  now apply (base_request_refused _ _ resp).
Qed.

(** C3, amended.  Under each of the five recognized version strings,
    when the auth endpoint answers with status 401 and the response
    class makes a response object of the answer, [authenticate] raises
    InvalidCredsError, whatever the credentials; when the response
    class refuses the answer, [authenticate] raises what [parse_body]
    raised. *)
Theorem unauthorized_raises_InvalidCredsError
        (self : t) (log : list Request) (resp : Response) :
  In (auth_version self) recognized_versions ->
  (forall rq, http log rq = Ok resp) ->
  status resp = UNAUTHORIZED ->
  (OpenStackAuthResponse.new json_loads resp = Ok resp ->
   fst (authenticate (base_request json_loads http) json_loads json_dumps
          (self, log))
   = Raise InvalidCredsError) /\
  (forall e,
      OpenStackAuthResponse.parse_body json_loads resp = Raise e ->
      fst (authenticate (base_request json_loads http) json_loads json_dumps
             (self, log))
      = Raise e).
Proof.
  intros Hv Ht Hs. split.
  - intros A.
    apply (unauthorized_response (base_request json_loads http) json_loads
             json_dumps self log resp Hv); [|exact Hs].
    intros rq. now apply base_request_accepted.
  - intros e R. now rewrite (refused_answer self log resp e Hv (Ht _) R).
Qed.

(** C7, amended.  The 1.1 scenario: a 200 answer with the scenario
    body and a content-type header gives the token tok123, and the
    index built from the stored catalog answers the lookup of
    cloudServers with region [None] with the record of the body. *)
Theorem authenticate_1_1_scenario
        (self : t) (log : list Request) (resp : Response) (ct : string) :
  auth_version self = "1.1" ->
  (forall rq, http log rq = Ok resp) ->
  status resp = OK ->
  body resp = scenario_body ->
  declared_content_type (headers resp) = Some ct ->
  json_loads scenario_body = Some scenario_value ->
  exists self' log',
    authenticate (base_request json_loads http) json_loads json_dumps (self, log)
    = (Ok tt, (self', log')) /\
    auth_token self' = Some (VStr "tok123") /\
    exists cat,
      new_catalog (urls self') (Some "1.1") = Ok cat /\
      forall service_type,
        get_endpoint cat service_type (VStr "cloudServers") VNone
        = Ok scenario_record.
Proof.
  intros Hv Ht Hs Hb Hc Hj.
  apply (scenario_response (base_request json_loads http) json_loads json_dumps
           self log resp Hv); auto.
  intros rq. apply base_request_accepted; [apply Ht|].
  apply response_class_accepts. right. exists ct. split; [exact Hc|].
  intros _. rewrite Hb, Hj. discriminate.
Qed.

(** X5.  An answer the response class accepts, with a status that is
    neither 401 nor a success status of the version (204 for 1.0, 200
    for 1.1, 200 and 203 for 2.0), raises MalformedResponseError and
    stores nothing. *)
Theorem authenticate_unexpected_status
        (self : t) (log : list Request) (resp : Response) :
  In (auth_version self) recognized_versions ->
  http log (auth_request json_dumps self) = Ok resp ->
  OpenStackAuthResponse.new json_loads resp = Ok resp ->
  status resp <> UNAUTHORIZED ->
  ~ In (status resp) (success_statuses (auth_version self)) ->
  authenticate (base_request json_loads http) json_loads json_dumps (self, log)
  = (Raise (MalformedResponseError "Malformed response"),
     (self, (log ++ [auth_request json_dumps self])%list)).
Proof.
  intros Hv Ht A H1 H2.
  apply (unexpected_status_outcome (base_request json_loads http) json_loads
           json_dumps self log resp Hv); auto.
  now apply base_request_accepted.
Qed.

(** X6.  A JSON exchange (1.1 and the 2.0 variants) succeeds when the
    response class accepts the answer, the answer has a success status,
    its body decodes, and the decoded body has the token id and the
    service catalog under auth (1.1) or access (2.0); it stores exactly
    these two and nothing else.  The api-key and the password variant
    read the answer alike. *)
Theorem authenticate_json_success
        (self : t) (log : list Request) (resp : Response) (b tok cat : value) :
  In (auth_version self) json_versions ->
  http log (auth_request json_dumps self) = Ok resp ->
  OpenStackAuthResponse.new json_loads resp = Ok resp ->
  In (status resp) (success_statuses (auth_version self)) ->
  json_loads (body resp) = Some b ->
  token_of (auth_version self) b = Ok tok ->
  catalog_of (auth_version self) b = Ok cat ->
  authenticate (base_request json_loads http) json_loads json_dumps (self, log)
  = (Ok tt, (with_urls cat (with_token tok self),
             (log ++ [auth_request json_dumps self])%list)).
Proof.
  intros Hv Ht A Hs Hb Htok Hcat.
  rewrite (json_exchange_outcome (base_request json_loads http) json_loads
             json_dumps self log resp Hv (base_request_accepted _ _ _ Ht A) Hs).
  cbv zeta. now rewrite Hb, Htok, Hcat.
Qed.

(** X7.  A success status with a body the decoder rejects, in an answer
    that has a content type or an empty body, raises
    MalformedResponseError and stores nothing: the response class
    raises it when the content type says JSON, the exchange
    otherwise. *)
Theorem authenticate_undecodable_body
        (self : t) (log : list Request) (resp : Response) :
  In (auth_version self) json_versions ->
  http log (auth_request json_dumps self) = Ok resp ->
  body resp = "" \/ declared_content_type (headers resp) <> None ->
  In (status resp) (success_statuses (auth_version self)) ->
  json_loads (body resp) = None ->
  authenticate (base_request json_loads http) json_loads json_dumps (self, log)
  = (Raise (MalformedResponseError "Failed to parse JSON"),
     (self, (log ++ [auth_request json_dumps self])%list)).
Proof.
  intros Hv Ht Hc Hs Hb.
  assert (Hr : In (auth_version self) recognized_versions)
    by (simpl in Hv |- *; tauto).
  assert (Accepted :
            OpenStackAuthResponse.new json_loads resp = Ok resp ->
            authenticate (base_request json_loads http) json_loads json_dumps
              (self, log)
            = (Raise (MalformedResponseError "Failed to parse JSON"),
               (self, (log ++ [auth_request json_dumps self])%list))).
  { intros A.
    rewrite (json_exchange_outcome (base_request json_loads http) json_loads
               json_dumps self log resp Hv (base_request_accepted _ _ _ Ht A) Hs).
    cbv zeta. now rewrite Hb. }
  destruct (string_dec (body resp) "") as [E|N].
  - apply Accepted, response_class_accepts. now left.
  - destruct Hc as [E|Hc]; [contradiction|].
    destruct (declared_content_type (headers resp)) as [ct|] eqn:Hct;
      [|contradiction].
    destruct (string_dec (before ";"%char ct) "application/json") as [J|J].
    + apply (refused_answer self log resp _ Hr Ht).
      rewrite (parse_body_by_media_type json_loads resp ct N Hct).
      apply String.eqb_eq in J. now rewrite J, Hb.
    + apply Accepted, response_class_accepts. right. exists ct.
      split; [exact Hct|]. intros J'. contradiction.
Qed.

(** X8.  In an answer the response class accepts, when a subscript on
    the way to the token id or to the service catalog finds no such
    key, the exchange raises MalformedResponseError (missing required
    elements); a catalog missing beside a token leaves the token
    stored. *)
Theorem authenticate_missing_elements
        (self : t) (log : list Request) (resp : Response) (b : value) :
  In (auth_version self) json_versions ->
  http log (auth_request json_dumps self) = Ok resp ->
  OpenStackAuthResponse.new json_loads resp = Ok resp ->
  In (status resp) (success_statuses (auth_version self)) ->
  json_loads (body resp) = Some b ->
  (token_of (auth_version self) b = Raise KeyError ->
   authenticate (base_request json_loads http) json_loads json_dumps (self, log)
   = (Raise missing_elements,
      (self, (log ++ [auth_request json_dumps self])%list))) /\
  (forall tok,
      token_of (auth_version self) b = Ok tok ->
      catalog_of (auth_version self) b = Raise KeyError ->
      authenticate (base_request json_loads http) json_loads json_dumps (self, log)
      = (Raise missing_elements,
         (with_token tok self, (log ++ [auth_request json_dumps self])%list))).
Proof.
  intros Hv Ht A Hs Hb.
  rewrite (json_exchange_outcome (base_request json_loads http) json_loads
             json_dumps self log resp Hv (base_request_accepted _ _ _ Ht A) Hs).
  cbv zeta. rewrite Hb. split.
  - now intros ->.
  - now intros tok -> ->.
Qed.

(** X9.  Any other exception of those subscripts (the TypeError of
    subscripting a list, a string, a number or null) is raised as it
    is: only a missing key is reported as a malformed response. *)
Theorem authenticate_subscript_error
        (self : t) (log : list Request) (resp : Response) (b : value) (e : exn) :
  In (auth_version self) json_versions ->
  http log (auth_request json_dumps self) = Ok resp ->
  OpenStackAuthResponse.new json_loads resp = Ok resp ->
  In (status resp) (success_statuses (auth_version self)) ->
  json_loads (body resp) = Some b ->
  token_of (auth_version self) b = Raise e ->
  e <> KeyError ->
  fst (authenticate (base_request json_loads http) json_loads json_dumps
         (self, log))
  = Raise e.
Proof.
  intros Hv Ht A Hs Hb He Hne.
  rewrite (json_exchange_outcome (base_request json_loads http) json_loads
             json_dumps self log resp Hv (base_request_accepted _ _ _ Ht A) Hs).
  cbv zeta. rewrite Hb, He. destruct e; try reflexivity. congruence.
Qed.
End OverHTTP.

Lemma unauthorized_raises_InvalidCredsError_witness :
  fst (OpenStackAuthConnection.authenticate
         (serving (mkResponse 401 "<html>no</html>" [("content-type", "text/html")]))
         Json.loads Json.dumps (sample_auth "2.0_password", []))
  = Raise InvalidCredsError.
Proof.
  destruct (unauthorized_raises_InvalidCredsError
              (answering (mkResponse 401 "<html>no</html>"
                            [("content-type", "text/html")]))
              Json.loads Json.dumps (sample_auth "2.0_password") []
              (mkResponse 401 "<html>no</html>" [("content-type", "text/html")]))
    as [H _].
  - simpl. tauto.
  - reflexivity.
  - reflexivity.
  - apply H. reflexivity.
Defined.

(** C3 as stated fails on the code: a 401 answer that says
    it is JSON and is not raises the malformed-response failure of the
    response class under every version, and one with a body and no
    content type raises LibcloudError. *)
Lemma unauthorized_undecodable_json :
  status (json_answer 401 "<html>no</html>") = UNAUTHORIZED /\
  (forall version,
      In version recognized_versions ->
      fst (OpenStackAuthConnection.authenticate
             (serving (json_answer 401 "<html>no</html>"))
             Json.loads Json.dumps (sample_auth version, []))
      = Raise (MalformedResponseError "Failed to parse JSON")) /\
  fst (OpenStackAuthConnection.authenticate
         (serving (mkResponse 401 "<html>no</html>" []))
         Json.loads Json.dumps (sample_auth "1.1", []))
  = Raise (LibcloudError "Missing content-type header").
Proof.
  split; [reflexivity|]. split; [|reflexivity].
  intros version Hv. simpl in Hv.
  repeat destruct Hv as [<-|Hv]; try reflexivity. destruct Hv.
Qed.

Lemma authenticate_1_1_scenario_witness :
  exists self' log',
    OpenStackAuthConnection.authenticate
      (serving (json_answer 200 scenario_body)) Json.loads Json.dumps
      (sample_auth "1.1", [])
    = (Ok tt, (self', log')) /\
    OpenStackAuthConnection.auth_token self' = Some (VStr "tok123").
Proof.
  destruct (authenticate_1_1_scenario
              (answering (json_answer 200 scenario_body)) Json.loads Json.dumps
              (sample_auth "1.1") [] (json_answer 200 scenario_body)
              "application/json"
              eq_refl (fun _ => eq_refl) eq_refl eq_refl eq_refl eq_refl)
    as (self' & log' & H & Htok & _).
  exists self', log'. split; assumption.
Defined.

(** C7 as stated fails on the code: the scenario body in a
    200 answer without a content type is refused by the response
    class. *)
Lemma scenario_without_content_type :
  status (mkResponse 200 scenario_body []) = OK /\
  body (mkResponse 200 scenario_body []) = scenario_body /\
  OpenStackAuthConnection.authenticate
    (serving (mkResponse 200 scenario_body [])) Json.loads Json.dumps
    (sample_auth "1.1", [])
  = (Raise (LibcloudError "Missing content-type header"),
     (sample_auth "1.1", [auth_request Json.dumps (sample_auth "1.1")])).
Proof. repeat split. Qed.

Lemma authenticate_unexpected_status_witness :
  fst (OpenStackAuthConnection.authenticate
         (serving (json_answer 203 scenario_body)) Json.loads Json.dumps
         (sample_auth "1.1", []))
  = Raise (MalformedResponseError "Malformed response").
Proof.
  unfold serving.
  rewrite (authenticate_unexpected_status
             (answering (json_answer 203 scenario_body)) Json.loads Json.dumps
             (sample_auth "1.1") [] (json_answer 203 scenario_body)).
  - reflexivity.
  - simpl; tauto.
  - reflexivity.
  - reflexivity.
  - discriminate.
  - simpl. intros [H|[]]. discriminate H.
Defined.

Lemma authenticate_json_success_witness :
  OpenStackAuthConnection.authenticate
    (serving (json_answer 203 v2_answer_body)) Json.loads Json.dumps
    (sample_auth "2.0_password", [])
  = (Ok tt,
     (OpenStackAuthConnection.mk "2.0_password" "https://auth.example"
        "user" "secret" (VList []) (Some (VStr "abc")),
      [auth_request Json.dumps (sample_auth "2.0_password")])).
Proof.
  apply (authenticate_json_success
           (answering (json_answer 203 v2_answer_body)) Json.loads Json.dumps
           (sample_auth "2.0_password") [] (json_answer 203 v2_answer_body)
           (VDict [(KStr "access",
                    VDict [(KStr "token", VDict [(KStr "id", VStr "abc")]);
                           (KStr "serviceCatalog", VList [])])])
           (VStr "abc") (VList []));
    try reflexivity; simpl; tauto.
Defined.

Lemma authenticate_undecodable_body_witness :
  fst (OpenStackAuthConnection.authenticate
         (serving (json_answer 200 "<html>")) Json.loads Json.dumps
         (sample_auth "2.0", []))
  = Raise (MalformedResponseError "Failed to parse JSON")
  /\ fst (OpenStackAuthConnection.authenticate
            (serving (mkResponse 200 "<html>" [("Content-Type", "text/html")]))
            Json.loads Json.dumps (sample_auth "1.1", []))
     = Raise (MalformedResponseError "Failed to parse JSON").
Proof.
  unfold serving.
  split.
  - rewrite (authenticate_undecodable_body
               (answering (json_answer 200 "<html>")) Json.loads Json.dumps
               (sample_auth "2.0") [] (json_answer 200 "<html>"));
      try reflexivity; [simpl; tauto | right; discriminate | simpl; tauto].
  - rewrite (authenticate_undecodable_body
               (answering (mkResponse 200 "<html>" [("Content-Type", "text/html")]))
               Json.loads Json.dumps (sample_auth "1.1") []
               (mkResponse 200 "<html>" [("Content-Type", "text/html")]));
      try reflexivity; [simpl; tauto | right; discriminate | simpl; tauto].
Defined.

Lemma authenticate_missing_elements_witness :
  fst (OpenStackAuthConnection.authenticate
         (serving (json_answer 200 "{}")) Json.loads Json.dumps
         (sample_auth "1.1", []))
  = Raise missing_elements.
Proof.
  destruct (authenticate_missing_elements
              (answering (json_answer 200 "{}")) Json.loads Json.dumps
              (sample_auth "1.1") [] (json_answer 200 "{}") (VDict [])
              (or_introl eq_refl) eq_refl eq_refl (or_introl eq_refl) eq_refl)
    as [H _].
  unfold serving. now rewrite H.
Defined.

Lemma authenticate_subscript_error_witness :
  fst (OpenStackAuthConnection.authenticate
         (serving (json_answer 200 "[]")) Json.loads Json.dumps
         (sample_auth "2.0_apikey", []))
  = Raise TypeError.
Proof.
  apply (authenticate_subscript_error
           (answering (json_answer 200 "[]")) Json.loads Json.dumps
           (sample_auth "2.0_apikey") [] (json_answer 200 "[]") (VList []));
    try reflexivity; try discriminate; simpl; tauto.
Defined.

(** ** The index of a 1.x payload *)

Lemma kget_append_region (kr kr' : pykey) (e : value) (d : regions_t) :
  kget kr' (append_region kr e d)
  = if keqb kr kr'
    then Some (match kget kr d with Some l => l | None => [] end ++ [e])%list
    else kget kr' d.
Proof.
  unfold append_region. destruct (pykey_eq_dec kr kr') as [<-|N].
  - rewrite keqb_refl. destruct (kget kr d); now rewrite kget_kset_same.
  - rewrite keqb_neq by assumption.
    destruct (kget kr d); now rewrite kget_kset_other.
Qed.

Lemma groups_of_append (pre : list (pykey * value)) (regions : regions_t)
      (kr : pykey) (e : value) :
  groups_of pre regions ->
  groups_of (pre ++ [(kr, e)]) (append_region kr e regions).
Proof.
  intros H kr'. rewrite kget_append_region. unfold region_group.
  rewrite filter_app, map_app. cbn [filter fst snd].
  destruct (pykey_eq_dec kr kr') as [<-|N].
  - rewrite keqb_refl. cbn [map snd]. rewrite (H kr). unfold region_group.
    set (g := map snd (filter (fun p => keqb (fst p) kr) pre)).
    destruct g; reflexivity.
  - rewrite keqb_neq by assumption. cbn [map]. rewrite app_nil_r. apply H.
Qed.

Lemma add_endpoints_v1_groups (ks : pykey) (eps : list value) :
  forall (reps pre : list (pykey * value)) (i : names_t) (regions : regions_t),
    with_regions eps = Some reps ->
    kget ks i = Some regions ->
    groups_of pre regions ->
    exists i' regions',
      for_each (t_add_endpoint_v1 ks) eps i = Ok i' /\
      kget ks i' = Some regions' /\
      groups_of (pre ++ reps) regions' /\
      (forall ks', ks' <> ks -> kget ks' i' = kget ks' i).
Proof.
  induction eps as [|e eps IH]; intros reps pre i regions Hw Hk Hg; simpl in *.
  - injection Hw as <-. rewrite app_nil_r. eauto 6.
  - destruct (endpoint_region e) as [kr|] eqn:Er; [|discriminate].
    destruct (with_regions eps) as [rest|] eqn:Ew; [|discriminate].
    injection Hw as <-.
    destruct e as [| | | | |ed]; try discriminate. simpl in Er.
    apply optional_key_get in Er. destruct Er as (rv & G & H).
    unfold t_add_endpoint_v1 at 1, lookup_or_KeyError. rewrite G. cbn [bind].
    rewrite Hk. cbn [bind]. rewrite H. cbn [bind].
    destruct (IH rest (pre ++ [(kr, VDict ed)])%list
                (kset ks (append_region kr (VDict ed) regions) i)
                (append_region kr (VDict ed) regions) eq_refl
                (kget_kset_same _ _ _) (groups_of_append _ _ _ _ Hg))
      as (i' & regions' & F & K & Gr & O).
    exists i', regions'. repeat split; auto.
    + now rewrite <- app_assoc in Gr.
    + intros ks' N. rewrite (O ks' N). apply kget_kset_other. congruence.
Qed.

Lemma kget_snoc {V : Type} (k k' : pykey) (v : V) (d : list (pykey * V)) :
  kget k' (d ++ [(k, v)])
  = match kget k' d with
    | Some x => Some x
    | None => if pykey_eq_dec k' k then Some v else None
    end.
Proof.
  induction d as [|[k0 v0] d IH]; simpl; auto.
  destruct (pykey_eq_dec k' k0); auto.
Qed.

Lemma kget_not_in {V : Type} (k : pykey) (d : list (pykey * V)) :
  ~ In k (map fst d) -> kget k d = None.
Proof.
  induction d as [|[k0 v0] d IH]; simpl; auto.
  intros H. destruct (pykey_eq_dec k k0); [exfalso; auto|]. apply IH. tauto.
Qed.

Lemma read_v1_payload_keys (d : list (pykey * value)) :
  forall svcs, read_v1_payload d = Some svcs -> map fst svcs = map fst d.
Proof.
  induction d as [|[k v] d IH]; intros svcs H; simpl in *.
  - now injection H as <-.
  - destruct v; try discriminate.
    destruct (with_regions l); [|discriminate].
    destruct (read_v1_payload d) as [rest|]; [|discriminate].
    injection H as <-. simpl. f_equal. now apply IH.
Qed.

Lemma parse_v1_represents (d : list (pykey * value)) :
  forall (svcs done : list (pykey * list (pykey * value))) (i : names_t),
    read_v1_payload d = Some svcs ->
    NoDup (map fst d) ->
    (forall k, In k (map fst d) -> kget k done = None) ->
    v1_represents done i ->
    exists i',
      for_each t_parse_service_v1
        (map (fun kv => (value_of_key (fst kv), snd kv)) d) i = Ok i' /\
      v1_represents (done ++ svcs) i'.
Proof.
  induction d as [|[k v] d IH]; intros svcs done i Hr Hnd Hfresh Hrep;
    simpl in *.
  - injection Hr as <-. rewrite app_nil_r. eauto.
  - destruct v as [| | | |eps|]; try discriminate.
    destruct (with_regions eps) as [reps|] eqn:Ew; [|discriminate].
    destruct (read_v1_payload d) as [rest|] eqn:Erest; [|discriminate].
    injection Hr as <-. rewrite hash_value_of_key. cbn [bind py_iter].
    assert (G0 : groups_of [] ([] : regions_t)) by (intros kr; reflexivity).
    destruct (add_endpoints_v1_groups k eps reps [] (kset k [] i) []
                Ew (kget_kset_same _ _ _) G0)
      as (i1 & regions1 & F & K & Gr & O).
    rewrite F. cbn [bind]. inversion Hnd as [|? ? Hnotin Hnd']; subst.
    assert (Hrep1 : v1_represents (done ++ [(k, reps)]) i1).
    { intros ks. rewrite kget_snoc. specialize (Hrep ks).
      destruct (pykey_eq_dec ks k) as [->|N].
      - rewrite (Hfresh k (or_introl eq_refl)). eauto.
      - rewrite (O ks N), kget_kset_other by congruence.
        destruct (kget ks done); auto. }
    destruct (IH rest (done ++ [(k, reps)])%list i1 eq_refl Hnd') as (i' & F' & R); auto.
    + intros k' Hin. rewrite kget_snoc, (Hfresh k' (or_intror Hin)).
      destruct (pykey_eq_dec k' k) as [->|]; [contradiction|reflexivity].
    + exists i'. split; auto. now rewrite <- app_assoc in R.
Qed.

Lemma new_catalog_v1_represents (d : list (pykey * value))
      (svcs : list (pykey * list (pykey * value))) (ver : option string) :
  read_v1_payload d = Some svcs ->
  NoDup (map fst d) ->
  is_v2 (effective_version ver) = false ->
  is_v1 (effective_version ver) = true ->
  exists i, new_catalog (VDict d) ver
            = Ok (mkCatalog (effective_version ver) (embed2 i)) /\
            v1_represents svcs i.
Proof.
  intros Hr Hnd H2 H1.
  destruct (parse_v1_represents d svcs [] [] Hr Hnd) as (i & F & R).
  - reflexivity.
  - intros ks. reflexivity.
  - exists i. split; auto. unfold new_catalog. cbv zeta. rewrite H2, H1.
    change (VDict []) with (embed2 []). rewrite parse_auth_v1_sim.
    unfold t_parse_auth_v1. cbn [py_items bind]. rewrite F. reflexivity.
Qed.

(** X12.  For a 1.x payload, a dictionary from service names to lists
    of endpoint records, the constructor builds the two-level
    dictionary whose keys are the service names and whose list under a
    name and a region holds the endpoints of that service with that
    region, in order, repeated ones included; a region no endpoint of
    the service has is not a key. *)
Theorem parse_auth_v1_index (d : list (pykey * value))
        (svcs : list (pykey * list (pykey * value))) (ver : option string) :
  read_v1_payload d = Some svcs ->
  NoDup (map fst d) ->
  is_v2 (effective_version ver) = false ->
  is_v1 (effective_version ver) = true ->
  exists i : names_t,
    new_catalog (VDict d) ver
    = Ok (mkCatalog (effective_version ver) (embed2 i)) /\
    (forall ks, kmem ks i = kmem ks d) /\
    (forall ks kr,
        kget2 i ks kr
        = match kget ks svcs with
          | Some reps => nonempty (region_group reps kr)
          | None => None
          end).
Proof.
  intros Hr Hnd H2 H1.
  destruct (new_catalog_v1_represents d svcs ver Hr Hnd H2 H1) as (i & Hc & R).
  exists i. split; auto. split.
  - intros ks. specialize (R ks). unfold kmem.
    assert (E : kget ks svcs = None <-> kget ks d = None).
    { pose proof (read_v1_payload_keys d svcs Hr) as Hk.
      split; intros H.
      - apply kget_not_in. rewrite <- Hk. intros Hin.
        clear - H Hin. induction svcs as [|[k0 v0] l IH]; simpl in *; auto.
        destruct (pykey_eq_dec ks k0); [discriminate|].
        destruct Hin; [congruence|auto].
      - apply kget_not_in. rewrite Hk. intros Hin.
        clear - H Hin. induction d as [|[k0 v0] l IH]; simpl in *; auto.
        destruct (pykey_eq_dec ks k0); [discriminate|].
        destruct Hin; [congruence|auto]. }
    destruct (kget ks svcs) as [reps|].
    + destruct R as (regions & -> & _).
      destruct (kget ks d); auto. destruct E as [_ E]. discriminate E; auto.
    + rewrite R. destruct E as [E _]. now rewrite E.
  - intros ks kr. specialize (R ks). unfold kget2.
    destruct (kget ks svcs) as [reps|].
    + destruct R as (regions & -> & G). apply G.
    + now rewrite R.
Qed.

Lemma parse_auth_v1_index_witness :
  exists i : names_t,
    new_catalog (VDict sample_v1_services) (Some "1.0")
    = Ok (mkCatalog "1.0" (embed2 i)) /\
    kget2 i (KStr "cloudServers") KNone
    = Some [endpoint_record VNone "https://x/compute"] /\
    kget2 i (KStr "cloudFiles") KNone = None.
Proof.
  assert (Hnd : NoDup (map fst sample_v1_services)).
  { repeat constructor; simpl; intuition discriminate. }
  destruct (parse_auth_v1_index sample_v1_services
              [(KStr "cloudServers",
                [(KStr "LON", endpoint_record (VStr "LON") "https://lon/compute");
                 (KNone, endpoint_record VNone "https://x/compute")]);
               (KStr "cloudFiles", [])]
              (Some "1.0") eq_refl Hnd eq_refl eq_refl) as (i & H & _ & G).
  exists i. split; [exact H|]. rewrite !G. split; reflexivity.
Defined.

(** X13.  On the index of a 1.x payload [get_endpoint] does not look at
    the service type: for a name and a region it returns the only
    endpoint of the service of that name with that region, and the
    empty mapping when the service has none or several, or there is no
    such service. *)
Theorem get_endpoint_v1_payload (d : list (pykey * value))
        (svcs : list (pykey * list (pykey * value))) (ver : option string)
        (n r : value) (kn kr : pykey) :
  read_v1_payload d = Some svcs ->
  NoDup (map fst d) ->
  is_v2 (effective_version ver) = false ->
  is_v1 (effective_version ver) = true ->
  hash_key n = Ok kn -> hash_key r = Ok kr ->
  exists cat,
    new_catalog (VDict d) ver = Ok cat /\
    forall service_type,
      get_endpoint cat service_type n r
      = Ok (the_one (match kget kn svcs with
                     | Some reps => region_group reps kr
                     | None => []
                     end)).
Proof.
  intros Hr Hnd H2 H1 Hn Hk.
  destruct (new_catalog_v1_represents d svcs ver Hr Hnd H2 H1) as (i & Hc & R).
  eexists. split; [exact Hc|]. intros t. unfold get_endpoint.
  rewrite (resolve_v1 _ i t n r kn kr) by assumption.
  unfold bind at 1. rewrite pick_the_one. f_equal. f_equal.
  specialize (R kn). unfold look2.
  destruct (kget kn svcs) as [reps|].
  - destruct R as (regions & -> & G). rewrite (G kr).
    destruct (region_group reps kr); reflexivity.
  - now rewrite R.
Qed.

Lemma get_endpoint_v1_payload_witness :
  exists cat,
    new_catalog (VDict sample_v1_services) None = Ok cat /\
    get_endpoint cat (VList []) (VStr "cloudServers") (VStr "LON")
    = Ok (endpoint_record (VStr "LON") "https://lon/compute") /\
    get_endpoint cat (VStr "compute") (VStr "cloudFiles") VNone = Ok (VDict []).
Proof.
  assert (Hnd : NoDup (map fst sample_v1_services)).
  { repeat constructor; simpl; intuition discriminate. }
  destruct (get_endpoint_v1_payload sample_v1_services
              [(KStr "cloudServers",
                [(KStr "LON", endpoint_record (VStr "LON") "https://lon/compute");
                 (KNone, endpoint_record VNone "https://x/compute")]);
               (KStr "cloudFiles", [])]
              None (VStr "cloudServers") (VStr "LON")
              (KStr "cloudServers") (KStr "LON")
              eq_refl Hnd eq_refl eq_refl eq_refl eq_refl) as (cat & Hc & G1).
  destruct (get_endpoint_v1_payload sample_v1_services
              [(KStr "cloudServers",
                [(KStr "LON", endpoint_record (VStr "LON") "https://lon/compute");
                 (KNone, endpoint_record VNone "https://x/compute")]);
               (KStr "cloudFiles", [])]
              None (VStr "cloudFiles") VNone (KStr "cloudFiles") KNone
              eq_refl Hnd eq_refl eq_refl eq_refl eq_refl) as (cat' & Hc' & G2).
  rewrite Hc in Hc'. injection Hc' as <-.
  exists cat. split; [exact Hc|]. split; [apply G1 | apply G2].
Defined.

(** ** Building and looking up a 2.0 index *)

(** X14.  On the index of a 2.0 payload [get_endpoint] returns, for a
    type, a name and a region, the only endpoint declared for them by
    the descriptors of that type and name taken together, and the empty
    mapping when there is none or more than one: endpoints of two
    descriptors with the same type and name count together. *)
Theorem get_endpoint_v2_declared (services : list value) (ds : list descriptor)
        (ver : option string) (t n r : value) (kt kn kr : pykey) :
  read_payload services = Some ds ->
  is_v2 (effective_version ver) = true ->
  hash_key t = Ok kt -> hash_key n = Ok kn -> hash_key r = Ok kr ->
  exists cat,
    new_catalog (VList services) ver = Ok cat /\
    get_endpoint cat t n r
    = Ok (the_one
            (map snd
               (filter (fun p => keqb (fst p) kr)
                  (flat_map
                     (fun d => if keqb (d_type d) kt && keqb (d_name d) kn
                               then d_endpoints d else [])
                     ds)))).
Proof.
  intros Hp Hv Ht Hn Hr.
  exact (get_endpoint_v2_payload services ds ver t n r kt kn kr Hp Hv Ht Hn Hr).
Qed.

Lemma get_endpoint_v2_declared_witness :
  exists cat,
    new_catalog (VList (sample_v2_services ++ sample_v2_services)) (Some "2.0")
    = Ok cat /\
    get_endpoint cat (VStr "compute") (VStr "cloudServers") (VStr "ORD")
    = Ok (VDict []).
Proof.
  apply (get_endpoint_v2_declared (sample_v2_services ++ sample_v2_services)
           (sample_v2_descriptors ++ sample_v2_descriptors) (Some "2.0")
           (VStr "compute") (VStr "cloudServers") (VStr "ORD")
           (KStr "compute") (KStr "cloudServers") (KStr "ORD"));
    reflexivity.
Defined.

Lemma for_each_app {S A : Type} (f : S -> A -> result S) (l1 l2 : list A) (s : S) :
  for_each f (l1 ++ l2) s = (s' <- for_each f l1 s ;; for_each f l2 s').
Proof.
  revert s. induction l1 as [|a l1 IH]; intros s; simpl; auto.
  destruct (f s a); simpl; auto.
Qed.

(** X15.  The type of a descriptor is required: a payload whose
    descriptors are in shape up to one that is a dictionary without a
    type makes the constructor raise KeyError, and up to one that is no
    dictionary at all, TypeError; no catalog is built. *)
Theorem new_catalog_v2_bad_descriptor (good rest : list value)
        (ds : list descriptor) (bad : value) (ver : option string) :
  read_payload good = Some ds ->
  is_v2 (effective_version ver) = true ->
  (forall d, bad = VDict d -> kget (KStr "type") d = None ->
             new_catalog (VList (good ++ bad :: rest)) ver = Raise KeyError) /\
  ((forall d, bad <> VDict d) ->
   new_catalog (VList (good ++ bad :: rest)) ver = Raise TypeError).
Proof.
  intros Hp Hv.
  destruct (parse_payload_represents good ds [] [] Hp represents_nil)
    as (i & Hi & _).
  assert (E : forall e, t_parse_service_v2 i bad = Raise e ->
                        new_catalog (VList (good ++ bad :: rest)) ver = Raise e).
  { intros e He. unfold new_catalog. cbv zeta. rewrite Hv.
    change (VDict []) with (embed3 []). rewrite parse_auth_v2_sim.
    unfold t_parse_auth_v2. cbn [py_iter bind].
    rewrite for_each_app, Hi. cbn [bind for_each]. rewrite He. reflexivity. }
  split.
  - intros d -> Hd. apply E. unfold t_parse_service_v2. simpl. now rewrite Hd.
  - intros Hnd. apply E. unfold t_parse_service_v2.
    destruct bad as [| | |s|l|d]; try reflexivity.
    exfalso. now apply (Hnd d).
Qed.

Lemma new_catalog_v2_bad_descriptor_witness :
  new_catalog
    (VList (sample_v2_services
            ++ [VDict [(KStr "name", VStr "cloudFiles")]])) (Some "2.0")
  = Raise KeyError
  /\ new_catalog (VList (sample_v2_services ++ [VStr "compute"])) (Some "2.0")
     = Raise TypeError.
Proof.
  destruct (new_catalog_v2_bad_descriptor sample_v2_services []
              sample_v2_descriptors (VDict [(KStr "name", VStr "cloudFiles")])
              (Some "2.0") eq_refl eq_refl) as [H1 _].
  destruct (new_catalog_v2_bad_descriptor sample_v2_services []
              sample_v2_descriptors (VStr "compute")
              (Some "2.0") eq_refl eq_refl) as [_ H2].
  split.
  - apply (H1 [(KStr "name", VStr "cloudFiles")]); reflexivity.
  - apply H2. discriminate.
Defined.

(** X16.  A catalog must be built under the family its payload has: a
    1.x payload (a dictionary that is not empty) given to a 2.0
    constructor raises TypeError, a 2.0 payload (a list) given to a 1.x
    constructor raises AttributeError. *)
Theorem new_catalog_wrong_family (ver : option string) :
  (is_v2 (effective_version ver) = true ->
   forall d, d <> [] -> new_catalog (VDict d) ver = Raise TypeError) /\
  (is_v2 (effective_version ver) = false ->
   is_v1 (effective_version ver) = true ->
   forall l, new_catalog (VList l) ver = Raise AttributeError).
Proof.
  split.
  - intros Hv d Hd. unfold new_catalog. cbv zeta. rewrite Hv.
    destruct d as [|[k v] d]; [congruence|].
    unfold _parse_auth_v2. cbn [py_iter bind map for_each fst].
    unfold parse_service_v2 at 1.
    destruct k as [|z|s]; reflexivity.
  - intros H2 H1 l. unfold new_catalog. cbv zeta. rewrite H2, H1. reflexivity.
Qed.

Lemma new_catalog_wrong_family_witness :
  new_catalog sample_v1_payload (Some "2.0") = Raise TypeError /\
  new_catalog (VList sample_v2_services) (Some "1.1") = Raise AttributeError.
Proof.
  destruct (new_catalog_wrong_family (Some "2.0")) as [H1 _].
  destruct (new_catalog_wrong_family (Some "1.1")) as [_ H2].
  split.
  - apply (H1 eq_refl). discriminate.
  - apply (H2 eq_refl eq_refl).
Defined.

Lemma py_get_VDict (d : list (pykey * value)) (x default : value) :
  py_get (VDict d) x default
  = (k <- hash_key x ;;
     Ok (match kget k d with Some v => v | None => default end)).
Proof.
  simpl. destruct (hash_key x) as [k|e]; simpl; auto.
  destruct (kget k d); reflexivity.
Qed.

Lemma hash_key_cases (x : value) :
  (exists k, hash_key x = Ok k) \/ hash_key x = Raise TypeError.
Proof. destruct x; simpl; eauto. Qed.

(** X17.  On a built catalog an argument that cannot be a dictionary
    key (a list or a dictionary) among those the lookup follows raises
    TypeError, also when the keys before it are not in the index. *)
Theorem get_endpoint_unhashable (payload : value) (ver : option string)
        (cat : OpenStackServiceCatalog) (t n r bad : value) :
  new_catalog payload ver = Ok cat ->
  In bad (lookup_path cat t n r) ->
  hash_key bad = Raise TypeError ->
  get_endpoint cat t n r = Raise TypeError.
Proof.
  intros H Hin Hbad. apply new_catalog_typed in H. destruct cat as [v sc].
  unfold lookup_path in Hin. simpl in *.
  assert (Last : forall y : names_t,
             (n = bad \/ r = bad) ->
             (regions <- py_get (VDict (kmap embed1 y)) n (VDict []) ;;
              py_get regions r (VList [])) = Raise TypeError).
  { intros y Hnr. rewrite py_get_VDict.
    destruct (hash_key_cases n) as [[kn Hn]|Hn]; rewrite Hn; [|reflexivity].
    cbn [bind]. rewrite kget_kmap.
    assert (Hr : hash_key r = Raise TypeError).
    { destruct Hnr as [E|E]; [|now rewrite E].
      rewrite E, Hbad in Hn. discriminate. }
    destruct (kget kn y) as [regions|]; cbn [option_map];
      [unfold embed1|]; rewrite py_get_VDict, Hr; reflexivity. }
  destruct H as [_ [(Hv & i & _ & ->) | (Hv2 & Hv1 & i & _ & ->)]];
    unfold get_endpoint, resolve_endpoints; cbn [_auth_version _service_catalog].
  - rewrite Hv in *. unfold embed3. rewrite py_get_VDict.
    destruct (hash_key_cases t) as [[kt Ht]|Ht]; rewrite Ht; [|reflexivity].
    cbn [bind]. rewrite kget_kmap.
    assert (Hnr : n = bad \/ r = bad).
    { destruct Hin as [E|[E|[E|[]]]]; auto.
      rewrite E, Hbad in Ht. discriminate. }
    destruct (kget kt i) as [names|]; cbn [option_map].
    + unfold embed2. rewrite (Last names); auto.
    + change (VDict []) with (VDict (kmap embed1 [])) at 1.
      rewrite (Last []); auto.
  - rewrite Hv2, Hv1 in *. unfold embed2.
    rewrite (Last i); [reflexivity|].
    destruct Hin as [E|[E|[]]]; auto.
Qed.

Lemma get_endpoint_unhashable_witness :
  get_endpoint
    (mkCatalog "1.1"
       (VDict [(KStr "cloudServers",
                VDict [(KNone,
                        VList [endpoint_record VNone "https://x/compute"])])]))
    VNone (VStr "cloudFiles") (VList [VStr "LON"])
  = Raise TypeError.
Proof.
  apply (get_endpoint_unhashable sample_v1_payload None _ _ _ _
           (VList [VStr "LON"]));
    [reflexivity | simpl; tauto | reflexivity].
Defined.

(** ** The first use of a connection *)

Section FirstUse.
Import OpenStackBaseConnection.
Variable transport : list Request -> Request -> result Response.
Variable json_loads : string -> option value.
Variable json_dumps : value -> string.
Variable base_init : string -> string -> string -> result unit.
Variable _tuple_from_url : value -> result (string * Z * bool * string).
Variable get_endpoint : t -> result value.

Ltac run_populate :=
  cbv [_populate_hosts_and_request_paths mbind gets ret raise lift modify fst snd].

(** What an unauthenticated call comes to, step by step. *)
Lemma populate_outcome (self : t) (log : list Request) (aurl : string) :
  truthy (auth_token self) = false ->
  resolved_auth_url self = Some aurl ->
  base_init (user_id self) (key self) aurl = Ok tt ->
  _populate_hosts_and_request_paths transport json_loads json_dumps
    base_init _tuple_from_url get_endpoint (self, log)
  = let '(r, (osa, log')) :=
      OpenStackAuthConnection.authenticate transport json_loads json_dumps
        (auth_connection_of self aurl, log) in
    match r with
    | Raise e => (Raise e, (self, log'))
    | Ok _ =>
        match OpenStackAuthConnection.auth_token osa with
        | None => (Raise AttributeError, (self, log'))
        | Some tok =>
            let self1 := set_auth_token tok self in
            match new_catalog (OpenStackAuthConnection.urls osa)
                    (Some (_auth_version self)) with
            | Raise e => (Raise e, (self1, log'))
            | Ok cat =>
                let self2 := set_service_catalog cat self1 in
                match target_url get_endpoint self2 with
                | Raise e => (Raise e, (self2, log'))
                | Ok url =>
                    match _tuple_from_url url with
                    | Raise e => (Raise e, (self2, log'))
                    | Ok tgt => (Ok tt, (set_target tgt self2, log'))
                    end
                end
            end
        end
    end.
Proof.
  intros H Hu Hi. run_populate. rewrite H. cbn [negb].
  unfold resolved_auth_url in Hu. rewrite Hu.
  unfold OpenStackAuthConnection.__init__. rewrite Hi. cbn [bind].
  unfold auth_connection_of, target_url.
  destruct (OpenStackAuthConnection.authenticate transport json_loads json_dumps
              (OpenStackAuthConnection.new aurl (_auth_version self)
                 (user_id self) (key self), log)) as [r [osa log']].
  destruct r as [[]|e]; cbn [bind]; [|reflexivity].
  destruct (OpenStackAuthConnection.auth_token osa) as [tok|]; [|reflexivity].
  destruct (new_catalog (OpenStackAuthConnection.urls osa)
              (Some (_auth_version self))) as [cat|e]; [|reflexivity].
  cbv zeta. reflexivity.
Qed.

Lemma populate_no_url (self : t) (log : list Request) :
  truthy (auth_token self) = false ->
  resolved_auth_url self = None ->
  _populate_hosts_and_request_paths transport json_loads json_dumps
    base_init _tuple_from_url get_endpoint (self, log)
  = (Raise (LibcloudError "OpenStack instance must have auth_url set"),
     (self, log)).
Proof.
  intros H Hu. run_populate. rewrite H. cbn [negb].
  unfold resolved_auth_url in Hu. now rewrite Hu.
Qed.

(** When the auth connection cannot be made nothing else happens. *)
Lemma populate_init_failure (self : t) (log : list Request) (aurl : string)
      (e : exn) :
  truthy (auth_token self) = false ->
  resolved_auth_url self = Some aurl ->
  base_init (user_id self) (key self) aurl = Raise e ->
  _populate_hosts_and_request_paths transport json_loads json_dumps
    base_init _tuple_from_url get_endpoint (self, log)
  = (Raise e, (self, log)).
Proof.
  intros H Hu Hi. run_populate. rewrite H. cbn [negb].
  unfold resolved_auth_url in Hu. rewrite Hu.
  unfold OpenStackAuthConnection.__init__. now rewrite Hi.
Qed.

(** X18.  An unauthenticated connection with neither an auth URL of its
    own nor a forced one raises LibcloudError on use; nothing is sent
    and the connection stays as it is. *)
Theorem populate_without_auth_url (self : t) (log : list Request) :
  truthy (auth_token self) = false ->
  resolved_auth_url self = None ->
  _populate_hosts_and_request_paths transport json_loads json_dumps
    base_init _tuple_from_url get_endpoint (self, log)
  = (Raise (LibcloudError "OpenStack instance must have auth_url set"),
     (self, log)).
Proof. exact (populate_no_url self log). Qed.

Lemma populate_log (self : t) (log : list Request) (aurl : string) :
  truthy (auth_token self) = false ->
  resolved_auth_url self = Some aurl ->
  base_init (user_id self) (key self) aurl = Ok tt ->
  In (_auth_version self) recognized_versions ->
  snd (snd (_populate_hosts_and_request_paths transport json_loads json_dumps
              base_init _tuple_from_url get_endpoint (self, log)))
  = (log ++ [auth_request json_dumps (auth_connection_of self aurl)])%list.
Proof.
  intros H Hu Hi Hv. rewrite (populate_outcome self log aurl H Hu Hi).
  pose proof (authenticate_log transport json_loads json_dumps
                (auth_connection_of self aurl) log Hv) as L.
  destruct (OpenStackAuthConnection.authenticate transport json_loads json_dumps
              (auth_connection_of self aurl, log)) as [r [osa log']].
  cbn [snd] in L. subst log'.
  destruct r as [[]|e]; [|reflexivity].
  destruct (OpenStackAuthConnection.auth_token osa); [|reflexivity]. cbv zeta.
  destruct (new_catalog _ _); [|reflexivity].
  destruct (target_url _ _); [|reflexivity].
  destruct (_tuple_from_url _); reflexivity.
Qed.

(** X19.  On an unauthenticated connection with a recognized version,
    when the auth connection can be made for the auth URL (the forced
    one when there is one, the connection's own otherwise) the call
    sends exactly one request, the one of that version with the
    credentials of the connection, whatever the answer and whatever
    fails afterwards; when the constructor of the auth connection
    raises, the call raises the same, sends nothing and leaves the
    connection as it is. *)
Theorem populate_sends_request (self : t) (log : list Request) (aurl : string) :
  truthy (auth_token self) = false ->
  resolved_auth_url self = Some aurl ->
  In (_auth_version self) recognized_versions ->
  (base_init (user_id self) (key self) aurl = Ok tt ->
   snd (snd (_populate_hosts_and_request_paths transport json_loads json_dumps
               base_init _tuple_from_url get_endpoint (self, log)))
   = (log ++ [auth_request json_dumps (auth_connection_of self aurl)])%list) /\
  (forall e,
      base_init (user_id self) (key self) aurl = Raise e ->
      _populate_hosts_and_request_paths transport json_loads json_dumps
        base_init _tuple_from_url get_endpoint (self, log)
      = (Raise e, (self, log))).
Proof.
  intros H Hu Hv. split.
  - intros Hi. now apply populate_log.
  - intros e Hi. now apply (populate_init_failure self log aurl).
Qed.

(** X20.  When the auth connection is made and the authentication
    raises, the call raises the same and the connection is left as it
    was, still unauthenticated. *)
Theorem populate_authentication_failure
        (self : t) (log : list Request) (aurl : string) (e : exn) :
  truthy (auth_token self) = false ->
  resolved_auth_url self = Some aurl ->
  base_init (user_id self) (key self) aurl = Ok tt ->
  fst (OpenStackAuthConnection.authenticate transport json_loads json_dumps
         (auth_connection_of self aurl, log)) = Raise e ->
  _populate_hosts_and_request_paths transport json_loads json_dumps
    base_init _tuple_from_url get_endpoint (self, log)
  = (Raise e,
     (self,
      snd (snd (OpenStackAuthConnection.authenticate transport json_loads
                  json_dumps (auth_connection_of self aurl, log))))).
Proof.
  intros H Hu Hi. rewrite (populate_outcome self log aurl H Hu Hi).
  destruct (OpenStackAuthConnection.authenticate transport json_loads json_dumps
              (auth_connection_of self aurl, log)) as [r [osa log']].
  cbn [fst snd]. now intros ->.
Qed.

(** X21.  When the auth connection is made and the authentication
    returns, the call stores its token,
    builds the catalog of its payload under the connection's version,
    asks the driver for the endpoint on the connection that already
    holds token and catalog (unless a base URL is forced), and sets
    host, port, security and path from the URL. *)
Theorem populate_success
        (self : t) (log log' : list Request) (aurl : string)
        (osa : OpenStackAuthConnection.t) (tok url : value)
        (cat : OpenStackServiceCatalog) (tgt : string * Z * bool * string) :
  truthy (auth_token self) = false ->
  resolved_auth_url self = Some aurl ->
  base_init (user_id self) (key self) aurl = Ok tt ->
  OpenStackAuthConnection.authenticate transport json_loads json_dumps
    (auth_connection_of self aurl, log) = (Ok tt, (osa, log')) ->
  OpenStackAuthConnection.auth_token osa = Some tok ->
  new_catalog (OpenStackAuthConnection.urls osa) (Some (_auth_version self))
  = Ok cat ->
  target_url get_endpoint (set_service_catalog cat (set_auth_token tok self))
  = Ok url ->
  _tuple_from_url url = Ok tgt ->
  _populate_hosts_and_request_paths transport json_loads json_dumps
    base_init _tuple_from_url get_endpoint (self, log)
  = (Ok tt,
     (set_target tgt (set_service_catalog cat (set_auth_token tok self)), log')).
Proof.
  intros H Hu Hi Ha Ht Hc Hurl Htgt.
  rewrite (populate_outcome self log aurl H Hu Hi).
  rewrite Ha, Ht. cbv zeta. rewrite Hc, Hurl, Htgt. reflexivity.
Qed.

(** X22.  When the auth connection is made, the authentication returns
    and a later step raises (the
    catalog cannot be built, the driver has no endpoint, the URL cannot
    be split), the call raises with the token already stored and the
    target not set. *)
Theorem populate_late_failure
        (self : t) (log log' : list Request) (aurl : string)
        (osa : OpenStackAuthConnection.t) (tok : value) (e : exn) :
  truthy (auth_token self) = false ->
  resolved_auth_url self = Some aurl ->
  base_init (user_id self) (key self) aurl = Ok tt ->
  OpenStackAuthConnection.authenticate transport json_loads json_dumps
    (auth_connection_of self aurl, log) = (Ok tt, (osa, log')) ->
  OpenStackAuthConnection.auth_token osa = Some tok ->
  (new_catalog (OpenStackAuthConnection.urls osa) (Some (_auth_version self))
   = Raise e ->
   _populate_hosts_and_request_paths transport json_loads json_dumps
     base_init _tuple_from_url get_endpoint (self, log)
   = (Raise e, (set_auth_token tok self, log'))) /\
  (forall cat,
      new_catalog (OpenStackAuthConnection.urls osa) (Some (_auth_version self))
      = Ok cat ->
      (target_url get_endpoint (set_service_catalog cat (set_auth_token tok self))
       = Raise e \/
       exists url,
         target_url get_endpoint
           (set_service_catalog cat (set_auth_token tok self)) = Ok url /\
         _tuple_from_url url = Raise e) ->
      _populate_hosts_and_request_paths transport json_loads json_dumps
        base_init _tuple_from_url get_endpoint (self, log)
      = (Raise e, (set_service_catalog cat (set_auth_token tok self), log'))).
Proof.
  intros H Hu Hi Ha Ht. rewrite (populate_outcome self log aurl H Hu Hi).
  rewrite Ha, Ht. cbv zeta. split.
  - now intros ->.
  - intros cat -> [->|(url & -> & ->)]; reflexivity.
Qed.

Lemma populate_raise_keeps_target (self self' : t) (log log' : list Request)
      (e : exn) :
  truthy (auth_token self) = false ->
  _populate_hosts_and_request_paths transport json_loads json_dumps
    base_init
    _tuple_from_url get_endpoint (self, log) = (Raise e, (self', log')) ->
  target self' = target self.
Proof.
  intros H. destruct (resolved_auth_url self) as [aurl|] eqn:Hu.
  - destruct (base_init (user_id self) (key self) aurl) as [[]|e0] eqn:Hi.
    + rewrite (populate_outcome self log aurl H Hu Hi).
      destruct (OpenStackAuthConnection.authenticate transport json_loads
                  json_dumps (auth_connection_of self aurl, log))
        as [r [osa log1]].
      destruct r as [[]|e1]; [|now intros [= _ <- _]].
      destruct (OpenStackAuthConnection.auth_token osa); [|now intros [= _ <- _]].
      cbv zeta. destruct (new_catalog _ _); [|now intros [= _ <- _]].
      destruct (target_url _ _); [|now intros [= _ <- _]].
      destruct (_tuple_from_url _); [discriminate|now intros [= _ <- _]].
    + rewrite (populate_init_failure self log aurl e0 H Hu Hi).
      now intros [= _ <- _].
  - rewrite (populate_no_url self log H Hu). now intros [= _ <- _].
Qed.

(** X23.  A call that raised after storing a token is not made up for
    by the next one: the next call returns at once, so host, port,
    security and path stay what they were before the first call. *)
Theorem populate_failure_sticks (self self' : t) (log log' : list Request)
        (e : exn) :
  truthy (auth_token self) = false ->
  _populate_hosts_and_request_paths transport json_loads json_dumps
    base_init
    _tuple_from_url get_endpoint (self, log) = (Raise e, (self', log')) ->
  truthy (auth_token self') = true ->
  _populate_hosts_and_request_paths transport json_loads json_dumps
    base_init
    _tuple_from_url get_endpoint (self', log') = (Ok tt, (self', log')) /\
  target self' = target self.
Proof.
  intros H Hr Ht. split.
  - now apply populate_noop.
  - now apply (populate_raise_keeps_target self self' log log' e).
Qed.

Lemma populate_configuration (self : t) (log : list Request) :
  configuration
    (fst (snd (_populate_hosts_and_request_paths transport json_loads
                 json_dumps base_init
                 _tuple_from_url get_endpoint (self, log))))
  = configuration self.
Proof.
  destruct (truthy (auth_token self)) eqn:H.
  - now rewrite populate_noop.
  - destruct (resolved_auth_url self) as [aurl|] eqn:Hu.
    + destruct (base_init (user_id self) (key self) aurl) as [[]|e0] eqn:Hi.
      * rewrite (populate_outcome self log aurl H Hu Hi).
        destruct (OpenStackAuthConnection.authenticate transport json_loads
                    json_dumps (auth_connection_of self aurl, log))
          as [r [osa log1]].
        destruct r as [[]|e1]; [|reflexivity].
        destruct (OpenStackAuthConnection.auth_token osa); [|reflexivity].
        cbv zeta. destruct (new_catalog _ _); [|reflexivity].
        destruct (target_url _ _); [|reflexivity].
        destruct (_tuple_from_url _) as [[[[h p] s] r]|]; reflexivity.
      * now rewrite (populate_init_failure self log aurl e0 H Hu Hi).
    + now rewrite (populate_no_url self log H Hu).
Qed.

(** X24.  No call, whatever its outcome, changes what the connection is
    configured with: its auth URL, the forced URLs, the version, the
    credentials and the accept format. *)
Theorem populate_keeps_configuration (self : t) (log : list Request) :
  configuration
    (fst (snd (_populate_hosts_and_request_paths transport json_loads
                 json_dumps base_init
                 _tuple_from_url get_endpoint (self, log))))
  = configuration self.
Proof. exact (populate_configuration self log). Qed.
End FirstUse.

(** X25.  With a forced base URL that is not empty the driver's
    [get_endpoint] is never consulted: the call comes to the same with
    any two drivers. *)
Theorem populate_forced_base_url
        (transport : list Request -> Request -> result Response)
        (json_loads : string -> option value) (json_dumps : value -> string)
        (base_init : string -> string -> string -> result unit)
        (_tuple_from_url : value -> result (string * Z * bool * string))
        (driver1 driver2 : OpenStackBaseConnection.t -> result value)
        (self : OpenStackBaseConnection.t) (log : list Request) (forced : string) :
  OpenStackBaseConnection._ex_force_base_url self = Some forced ->
  forced <> "" ->
  OpenStackBaseConnection._populate_hosts_and_request_paths
    transport json_loads json_dumps base_init
    _tuple_from_url driver1 (self, log)
  = OpenStackBaseConnection._populate_hosts_and_request_paths
      transport json_loads json_dumps base_init
      _tuple_from_url driver2 (self, log).
Proof.
  intros Hf Hne.
  destruct (truthy (OpenStackBaseConnection.auth_token self)) eqn:H.
  - now rewrite !populate_noop.
  - destruct (resolved_auth_url self) as [aurl|] eqn:Hu.
    + destruct (base_init (OpenStackBaseConnection.user_id self)
                  (OpenStackBaseConnection.key self) aurl) as [[]|e0] eqn:Hi.
      * rewrite !(populate_outcome _ _ _ _ _ _ self log aurl H Hu Hi).
        destruct (OpenStackAuthConnection.authenticate transport json_loads
                    json_dumps (auth_connection_of self aurl, log))
          as [r [osa log1]].
        destruct r as [[]|e1]; [|reflexivity].
        destruct (OpenStackAuthConnection.auth_token osa); [|reflexivity].
        cbv zeta. destruct (new_catalog _ _); [|reflexivity].
        unfold target_url. cbn [OpenStackBaseConnection.set_service_catalog
          OpenStackBaseConnection.set_auth_token
          OpenStackBaseConnection._ex_force_base_url].
        rewrite Hf. apply String.eqb_neq in Hne. rewrite Hne. reflexivity.
      * now rewrite !(populate_init_failure _ _ _ _ _ _ self log aurl e0 H Hu Hi).
    + now rewrite !populate_no_url.
Qed.

Lemma populate_without_auth_url_witness :
  OpenStackBaseConnection._populate_hosts_and_request_paths
    refusing Json.loads Json.dumps sample_base_init sample_tuple_from_url
    OpenStackBaseConnection.abstract_get_endpoint (no_url_connection, [])
  = (Raise (LibcloudError "OpenStack instance must have auth_url set"),
     (no_url_connection, [])).
Proof.
  apply (populate_without_auth_url refusing Json.loads Json.dumps
           sample_base_init sample_tuple_from_url
           OpenStackBaseConnection.abstract_get_endpoint
           no_url_connection []); reflexivity.
Defined.

Lemma populate_sends_request_witness :
  snd (snd (OpenStackBaseConnection._populate_hosts_and_request_paths
              refusing Json.loads Json.dumps sample_base_init
              sample_tuple_from_url
              OpenStackBaseConnection.abstract_get_endpoint
              (both_urls_connection, [])))
  = [auth_request Json.dumps
       (OpenStackAuthConnection.new "https://forced.example" "2.0"
          "user" "secret")]
  /\ OpenStackBaseConnection._populate_hosts_and_request_paths
       refusing Json.loads Json.dumps sample_base_init sample_tuple_from_url
       OpenStackBaseConnection.abstract_get_endpoint
       (schemeless_connection, [])
     = (Raise (LibcloudError "Invalid scheme"), (schemeless_connection, [])).
Proof.
  split.
  - destruct (populate_sends_request refusing Json.loads Json.dumps
                sample_base_init sample_tuple_from_url
                OpenStackBaseConnection.abstract_get_endpoint
                both_urls_connection [] "https://forced.example")
      as [H _]; [reflexivity | reflexivity | simpl; tauto |].
    apply H. reflexivity.
  - destruct (populate_sends_request refusing Json.loads Json.dumps
                sample_base_init sample_tuple_from_url
                OpenStackBaseConnection.abstract_get_endpoint
                schemeless_connection [] "auth.example")
      as [_ H]; [reflexivity | reflexivity | simpl; tauto |].
    apply H. reflexivity.
Defined.

Lemma populate_authentication_failure_witness :
  fst (OpenStackBaseConnection._populate_hosts_and_request_paths
         (serving (mkResponse 401 "" [])) Json.loads Json.dumps
         sample_base_init sample_tuple_from_url
         OpenStackBaseConnection.abstract_get_endpoint
         (plain_connection "1.1", []))
  = Raise InvalidCredsError
  /\ fst (snd (OpenStackBaseConnection._populate_hosts_and_request_paths
                 (serving (mkResponse 401 "" [])) Json.loads Json.dumps
                 sample_base_init sample_tuple_from_url
                 OpenStackBaseConnection.abstract_get_endpoint
                 (plain_connection "1.1", [])))
     = plain_connection "1.1".
Proof.
  rewrite (populate_authentication_failure
             (serving (mkResponse 401 "" [])) Json.loads Json.dumps
             sample_base_init sample_tuple_from_url
             OpenStackBaseConnection.abstract_get_endpoint
             (plain_connection "1.1") [] "https://auth.example"
             InvalidCredsError eq_refl eq_refl eq_refl eq_refl).
  split; reflexivity.
Defined.

Lemma populate_success_witness :
  fst (OpenStackBaseConnection._populate_hosts_and_request_paths
         (serving (json_answer 200 scenario_body)) Json.loads Json.dumps
         sample_base_init sample_tuple_from_url
         OpenStackBaseConnection.abstract_get_endpoint
         (sample_connection, []))
  = Ok tt.
Proof.
  rewrite (populate_success
             (serving (json_answer 200 scenario_body)) Json.loads Json.dumps
             sample_base_init sample_tuple_from_url
             OpenStackBaseConnection.abstract_get_endpoint
             sample_connection []
             [auth_request Json.dumps
                (auth_connection_of sample_connection "https://auth.example")]
             "https://auth.example"
             (OpenStackAuthConnection.mk "1.1" "https://auth.example" "user"
                "secret"
                (VDict [(KStr "cloudServers", VList [scenario_record])])
                (Some (VStr "tok123")))
             (VStr "tok123") (VStr "https://x/compute") scenario_catalog
             ("x", 443, true, "/compute")
             eq_refl eq_refl eq_refl eq_refl eq_refl eq_refl eq_refl eq_refl).
  reflexivity.
Defined.

Lemma populate_late_failure_witness :
  OpenStackBaseConnection._populate_hosts_and_request_paths
    (serving (json_answer 200 scenario_body)) Json.loads Json.dumps
    sample_base_init sample_tuple_from_url
    OpenStackBaseConnection.abstract_get_endpoint
    (plain_connection "1.1", [])
  = (Raise NotImplementedError,
     (OpenStackBaseConnection.set_service_catalog scenario_catalog
        (OpenStackBaseConnection.set_auth_token (VStr "tok123")
           (plain_connection "1.1")),
      [auth_request Json.dumps
         (auth_connection_of (plain_connection "1.1") "https://auth.example")])).
Proof.
  destruct (populate_late_failure
              (serving (json_answer 200 scenario_body)) Json.loads Json.dumps
              sample_base_init sample_tuple_from_url
              OpenStackBaseConnection.abstract_get_endpoint
              (plain_connection "1.1") []
              [auth_request Json.dumps
                 (auth_connection_of (plain_connection "1.1")
                    "https://auth.example")]
              "https://auth.example"
              (OpenStackAuthConnection.mk "1.1" "https://auth.example" "user"
                 "secret"
                 (VDict [(KStr "cloudServers", VList [scenario_record])])
                 (Some (VStr "tok123")))
              (VStr "tok123") NotImplementedError
              eq_refl eq_refl eq_refl eq_refl eq_refl) as [_ H].
  apply (H scenario_catalog eq_refl). left. reflexivity.
Defined.

Lemma populate_failure_sticks_witness :
  OpenStackBaseConnection.host
    (fst (snd (OpenStackBaseConnection._populate_hosts_and_request_paths
                 (serving (json_answer 200 scenario_body)) Json.loads
                 Json.dumps sample_base_init sample_tuple_from_url
                 OpenStackBaseConnection.abstract_get_endpoint
                 (OpenStackBaseConnection.set_service_catalog scenario_catalog
                    (OpenStackBaseConnection.set_auth_token (VStr "tok123")
                       (plain_connection "1.1")),
                  [auth_request Json.dumps
                     (auth_connection_of (plain_connection "1.1")
                        "https://auth.example")]))))
  = Some "127.0.0.1".
Proof.
  destruct (populate_failure_sticks
              (serving (json_answer 200 scenario_body)) Json.loads Json.dumps
              sample_base_init sample_tuple_from_url
              OpenStackBaseConnection.abstract_get_endpoint
              (plain_connection "1.1")
              (OpenStackBaseConnection.set_service_catalog scenario_catalog
                 (OpenStackBaseConnection.set_auth_token (VStr "tok123")
                    (plain_connection "1.1")))
              []
              [auth_request Json.dumps
                 (auth_connection_of (plain_connection "1.1")
                    "https://auth.example")]
              NotImplementedError eq_refl eq_refl eq_refl) as [H _].
  rewrite H. reflexivity.
Defined.

Lemma populate_forced_base_url_witness :
  OpenStackBaseConnection._populate_hosts_and_request_paths
    (serving (json_answer 200 scenario_body)) Json.loads Json.dumps
    sample_base_init sample_tuple_from_url
    OpenStackBaseConnection.abstract_get_endpoint
    (sample_connection, [])
  = OpenStackBaseConnection._populate_hosts_and_request_paths
      (serving (json_answer 200 scenario_body)) Json.loads Json.dumps
      sample_base_init sample_tuple_from_url
      (example_get_endpoint (VStr "compute") (VStr "cloudServers") (VStr "LON"))
      (sample_connection, []).
Proof.
  apply (populate_forced_base_url
           (serving (json_answer 200 scenario_body)) Json.loads Json.dumps
           sample_base_init sample_tuple_from_url
           OpenStackBaseConnection.abstract_get_endpoint
           (example_get_endpoint (VStr "compute") (VStr "cloudServers") (VStr "LON"))
           sample_connection [] "https://x/compute");
    [reflexivity | discriminate].
Defined.

(** ** Two calls in a row *)

Section Idempotence.
Import OpenStackBaseConnection.
Variable transport : list Request -> Request -> result Response.
Variable json_loads : string -> option value.
Variable json_dumps : value -> string.
Variable base_init : string -> string -> string -> result unit.
Variable _tuple_from_url : value -> result (string * Z * bool * string).
Variable get_endpoint : t -> result value.
Variable Kwargs : Type.
Variable super_request : Kwargs -> M St Response.
Variable super_morph_action_hook : string -> M St string.

End Idempotence.



(** The empty token of C4 has the same effect: the first call returns,
    the connection still counts as unauthenticated, and the second
    call authenticates again. *)
Lemma empty_token_authenticates_again :
  fst empty_token_run = Ok tt /\
  OpenStackBaseConnection.auth_token (fst (snd empty_token_run)) = VStr "" /\
  List.length (snd (snd empty_token_run)) = 1%nat /\
  List.length
    (snd (snd (OpenStackBaseConnection._populate_hosts_and_request_paths
                 (serving (json_answer 200 empty_token_body))
                 Json.loads Json.dumps sample_base_init sample_tuple_from_url
                 OpenStackBaseConnection.abstract_get_endpoint
                 (snd empty_token_run)))) = 2%nat.
Proof. repeat split; reflexivity. Qed.

(** ** From the headers of a 1.0 answer to the target *)

Section FirstUse10.
Variable transport : list Request -> Request -> result Response.
Variable json_loads : string -> option value.
Variable json_dumps : value -> string.
Variable base_init : string -> string -> string -> result unit.
Variable _tuple_from_url : value -> result (string * Z * bool * string).

Lemma authenticate_1_0_outcome (osa : OpenStackAuthConnection.t)
      (log : list Request) (resp : Response) :
  OpenStackAuthConnection.auth_version osa = "1.0" ->
  transport log (auth_request json_dumps osa) = Ok resp ->
  status resp = NO_CONTENT ->
  truthy (hget_value "x-auth-token" (headers resp)) = true ->
  OpenStackAuthConnection.authenticate transport json_loads json_dumps (osa, log)
  = (Ok tt,
     (with_urls (v1_0_urls (headers resp))
        (with_token (hget_value "x-auth-token" (headers resp)) osa),
      (log ++ [auth_request json_dumps osa])%list)).
Proof.
  destruct osa as [ver url user k u tok].
  cbn [OpenStackAuthConnection.auth_version].
  intros -> Ht Hs Htok. revert Ht.
  unfold OpenStackAuthConnection.authenticate,
    OpenStackAuthConnection.authenticate_1_0, OpenStackAuthConnection.request,
    mbind, gets, raise, ret, modify, OpenStackAuthConnection.set_urls,
    OpenStackAuthConnection.set_auth_token, auth_request, with_urls, with_token.
  cbn [fst snd OpenStackAuthConnection.auth_version
       OpenStackAuthConnection.auth_url OpenStackAuthConnection.user_id
       OpenStackAuthConnection.key OpenStackAuthConnection.urls
       OpenStackAuthConnection.auth_token String.eqb Ascii.eqb Bool.eqb].
  intros ->. rewrite Hs. cbn [Z.eqb Pos.eqb negb]. rewrite Htok. reflexivity.
Qed.

Lemma new_catalog_v1_0 (h : headers_t) :
  new_catalog (v1_0_urls h) (Some "1.0")
  = Ok (mkCatalog "1.0" (embed2 (v1_0_index h))).
Proof. reflexivity. Qed.

(** X26.  First use under version 1.0 with a driver written as the
    docstring example, for one of the three services and region [None]:
    once the auth connection is made, on a 204 answer with a token the
    connection stores the token and sets its target from the header of
    that service (from [None] when the header is missing). *)
Theorem first_use_1_0 (self : OpenStackBaseConnection.t) (log : list Request)
        (aurl service header : string) (resp : Response) (service_type : value)
        (tgt : string * Z * bool * string) :
  truthy (OpenStackBaseConnection.auth_token self) = false ->
  resolved_auth_url self = Some aurl ->
  base_init (OpenStackBaseConnection.user_id self)
    (OpenStackBaseConnection.key self) aurl = Ok tt ->
  OpenStackBaseConnection._auth_version self = "1.0" ->
  OpenStackBaseConnection._ex_force_base_url self = None ->
  transport log (auth_request json_dumps (auth_connection_of self aurl)) = Ok resp ->
  status resp = NO_CONTENT ->
  truthy (hget_value "x-auth-token" (headers resp)) = true ->
  In (service, header) v1_0_services ->
  _tuple_from_url (hget_value header (headers resp)) = Ok tgt ->
  OpenStackBaseConnection._populate_hosts_and_request_paths
    transport json_loads json_dumps base_init _tuple_from_url
    (example_get_endpoint service_type (VStr service) VNone) (self, log)
  = (Ok tt,
     (OpenStackBaseConnection.set_target tgt
        (OpenStackBaseConnection.set_service_catalog
           (mkCatalog "1.0" (embed2 (v1_0_index (headers resp))))
           (OpenStackBaseConnection.set_auth_token
              (hget_value "x-auth-token" (headers resp)) self)),
      (log ++ [auth_request json_dumps (auth_connection_of self aurl)])%list)).
Proof.
  intros H Hu Hi Hv Hf Ht Hs Htok Hin Htgt.
  rewrite (populate_outcome transport json_loads json_dumps base_init
             _tuple_from_url _ self log aurl H Hu Hi).
  rewrite (authenticate_1_0_outcome (auth_connection_of self aurl) log resp
             Hv Ht Hs Htok).
  cbn [with_urls with_token OpenStackAuthConnection.urls
       OpenStackAuthConnection.auth_token].
  cbv zeta. rewrite Hv, new_catalog_v1_0.
  assert (E : target_url (example_get_endpoint service_type (VStr service) VNone)
                (OpenStackBaseConnection.set_service_catalog
                   (mkCatalog "1.0" (embed2 (v1_0_index (headers resp))))
                   (OpenStackBaseConnection.set_auth_token
                      (hget_value "x-auth-token" (headers resp)) self))
              = Ok (hget_value header (headers resp))).
  { unfold target_url.
    cbn [OpenStackBaseConnection.set_service_catalog
         OpenStackBaseConnection.set_auth_token
         OpenStackBaseConnection._ex_force_base_url].
    rewrite Hf.
    destruct Hin as [E|[E|[E|[]]]]; injection E as <- <-; reflexivity. }
  rewrite E, Htgt. reflexivity.
Qed.

(** X27.  Under version 1.0 no endpoint has a region: once the auth
    connection is made and the answer is a 204 with a token, a driver
    written as the docstring example that asks for a region other than
    [None], or for a service that is not one of the three, finds the
    empty mapping and raises KeyError on its publicURL, after the token
    has been stored. *)
Theorem first_use_1_0_no_such_endpoint
        (self : OpenStackBaseConnection.t) (log : list Request)
        (aurl : string) (resp : Response) (service_type name region : value)
        (kn kr : pykey) :
  truthy (OpenStackBaseConnection.auth_token self) = false ->
  resolved_auth_url self = Some aurl ->
  base_init (OpenStackBaseConnection.user_id self)
    (OpenStackBaseConnection.key self) aurl = Ok tt ->
  OpenStackBaseConnection._auth_version self = "1.0" ->
  OpenStackBaseConnection._ex_force_base_url self = None ->
  transport log (auth_request json_dumps (auth_connection_of self aurl)) = Ok resp ->
  status resp = NO_CONTENT ->
  truthy (hget_value "x-auth-token" (headers resp)) = true ->
  hash_key name = Ok kn -> hash_key region = Ok kr ->
  kr <> KNone \/ kmem kn (v1_0_index (headers resp)) = false ->
  OpenStackBaseConnection._populate_hosts_and_request_paths
    transport json_loads json_dumps base_init _tuple_from_url
    (example_get_endpoint service_type name region) (self, log)
  = (Raise KeyError,
     (OpenStackBaseConnection.set_service_catalog
        (mkCatalog "1.0" (embed2 (v1_0_index (headers resp))))
        (OpenStackBaseConnection.set_auth_token
           (hget_value "x-auth-token" (headers resp)) self),
      (log ++ [auth_request json_dumps (auth_connection_of self aurl)])%list)).
Proof.
  intros H Hu Hi Hv Hf Ht Hs Htok Hn Hr Hno.
  rewrite (populate_outcome transport json_loads json_dumps base_init
             _tuple_from_url _ self log aurl H Hu Hi).
  rewrite (authenticate_1_0_outcome (auth_connection_of self aurl) log resp
             Hv Ht Hs Htok).
  cbn [with_urls with_token OpenStackAuthConnection.urls
       OpenStackAuthConnection.auth_token].
  cbv zeta. rewrite Hv, new_catalog_v1_0.
  assert (E : target_url (example_get_endpoint service_type name region)
                (OpenStackBaseConnection.set_service_catalog
                   (mkCatalog "1.0" (embed2 (v1_0_index (headers resp))))
                   (OpenStackBaseConnection.set_auth_token
                      (hget_value "x-auth-token" (headers resp)) self))
              = Raise KeyError).
  { unfold target_url.
    cbn [OpenStackBaseConnection.set_service_catalog
         OpenStackBaseConnection.set_auth_token
         OpenStackBaseConnection._ex_force_base_url].
    rewrite Hf. unfold example_get_endpoint.
    cbn [OpenStackBaseConnection.service_catalog
         OpenStackBaseConnection.set_service_catalog]. unfold get_endpoint.
    rewrite (resolve_v1 "1.0" (v1_0_index (headers resp)) service_type
               name region kn kr eq_refl eq_refl Hn Hr).
    unfold bind at 2. rewrite pick_the_one.
    assert (L : look2 (v1_0_index (headers resp)) kn kr = []).
    { unfold look2. destruct Hno as [N|M].
      - destruct (kget kn (v1_0_index (headers resp))) as [regions|] eqn:K; auto.
        unfold v1_0_index in K. cbn [kget] in K.
        repeat match type of K with
               | (if ?c then _ else _) = _ => destruct c
               end;
          try discriminate; injection K as <-; cbn [kget];
          destruct (pykey_eq_dec kr KNone); congruence.
      - unfold kmem in M.
        destruct (kget kn (v1_0_index (headers resp))); [discriminate|auto]. }
    rewrite L. reflexivity. }
  rewrite E. reflexivity.
Qed.
End FirstUse10.

Lemma first_use_1_0_witness :
  OpenStackBaseConnection.host
    (fst (snd (OpenStackBaseConnection._populate_hosts_and_request_paths
                 (serving sample_1_0_answer) Json.loads Json.dumps
                 sample_base_init sample_tuple_from_url
                 (example_get_endpoint VNone (VStr "cloudServers") VNone)
                 (plain_connection "1.0", []))))
  = Some "x".
Proof.
  rewrite (first_use_1_0 (serving sample_1_0_answer) Json.loads Json.dumps
             sample_base_init sample_tuple_from_url (plain_connection "1.0") []
             "https://auth.example" "cloudServers" "x-server-management-url"
             sample_1_0_answer VNone ("x", 443, true, "/compute")
             eq_refl eq_refl eq_refl eq_refl eq_refl eq_refl eq_refl eq_refl
             (or_introl eq_refl) eq_refl).
  reflexivity.
Defined.

Lemma first_use_1_0_no_such_endpoint_witness :
  fst (OpenStackBaseConnection._populate_hosts_and_request_paths
         (serving sample_1_0_answer) Json.loads Json.dumps
         sample_base_init sample_tuple_from_url
         (example_get_endpoint VNone (VStr "cloudServers") (VStr "LON"))
         (plain_connection "1.0", []))
  = Raise KeyError.
Proof.
  assert (N : KStr "LON" <> KNone) by discriminate.
  rewrite (first_use_1_0_no_such_endpoint
             (serving sample_1_0_answer) Json.loads Json.dumps
             sample_base_init sample_tuple_from_url (plain_connection "1.0") []
             "https://auth.example" sample_1_0_answer
             VNone (VStr "cloudServers") (VStr "LON")
             (KStr "cloudServers") (KStr "LON")
             eq_refl eq_refl eq_refl eq_refl eq_refl eq_refl eq_refl eq_refl
             eq_refl eq_refl (or_introl N)).
  reflexivity.
Defined.

(** ** Default headers and the default version *)

Lemma kset_present {V : Type} (k : pykey) (v : V) (d : list (pykey * V)) :
  kget k d = Some v -> kset k v d = d.
Proof.
  induction d as [|[k0 v0] d IH]; simpl; [discriminate|].
  destruct (pykey_eq_dec k k0) as [->|N].
  - now intros [= ->].
  - intros H. now rewrite IH.
Qed.

(** X28.  The default headers of a base connection carry its token and
    its accept format, in place of whatever the caller gave under these
    two names; every other header is kept, and adding the defaults
    twice is adding them once. *)
Theorem add_default_headers_sets
        (self : OpenStackBaseConnection.t) (hdrs : list (pykey * value)) :
  kget (KStr "X-Auth-Token") (OpenStackBaseConnection.add_default_headers self hdrs)
  = Some (OpenStackBaseConnection.auth_token self) /\
  kget (KStr "Accept") (OpenStackBaseConnection.add_default_headers self hdrs)
  = Some (OpenStackBaseConnection.accept_format self) /\
  (forall k, k <> KStr "X-Auth-Token" -> k <> KStr "Accept" ->
             kget k (OpenStackBaseConnection.add_default_headers self hdrs)
             = kget k hdrs) /\
  OpenStackBaseConnection.add_default_headers self
    (OpenStackBaseConnection.add_default_headers self hdrs)
  = OpenStackBaseConnection.add_default_headers self hdrs.
Proof.
  unfold OpenStackBaseConnection.add_default_headers.
  assert (T : kget (KStr "X-Auth-Token")
                (kset (KStr "Accept") (OpenStackBaseConnection.accept_format self)
                   (kset (KStr "X-Auth-Token")
                      (OpenStackBaseConnection.auth_token self) hdrs))
              = Some (OpenStackBaseConnection.auth_token self)).
  { rewrite kget_kset_other by discriminate. apply kget_kset_same. }
  split; [exact T|]. split; [apply kget_kset_same|]. split.
  - intros k N1 N2. rewrite !kget_kset_other by congruence. reflexivity.
  - rewrite (kset_present (KStr "X-Auth-Token") _ _ T).
    apply kset_present, kget_kset_same.
Qed.

Lemma hget_hset_same (name v : string) (h : headers_t) :
  hget name (hset name v h) = Some v.
Proof.
  induction h as [|[n v'] h IH]; simpl.
  - now rewrite String.eqb_refl.
  - destruct (String.eqb name n) eqn:E; simpl; now rewrite E.
Qed.

Lemma hget_hset_other (name name' v : string) (h : headers_t) :
  name <> name' -> hget name' (hset name v h) = hget name' h.
Proof.
  intros N. induction h as [|[n v'] h IH]; simpl.
  - apply String.eqb_neq in N. rewrite String.eqb_sym in N. now rewrite N.
  - destruct (String.eqb name n) eqn:E; simpl.
    + apply String.eqb_eq in E. subst n.
      assert (E' : String.eqb name' name = false)
        by (apply String.eqb_neq; congruence).
      now rewrite E'.
    + destruct (String.eqb name' n); auto.
Qed.

Lemma hset_present (name v : string) (h : headers_t) :
  hget name h = Some v -> hset name v h = h.
Proof.
  induction h as [|[n v'] h IH]; simpl; [discriminate|].
  destruct (String.eqb name n) eqn:E.
  - now intros [= ->].
  - intros H. now rewrite IH.
Qed.

(** X29.  The default headers of an auth connection say that JSON is
    accepted and sent, in place of whatever the caller gave under
    Accept and Content-Type; every other header is kept, and adding the
    defaults twice is adding them once. *)
Theorem auth_add_default_headers_sets
        (self : OpenStackAuthConnection.t) (hdrs : headers_t) :
  hget "Accept" (OpenStackAuthConnection.add_default_headers self hdrs)
  = Some "application/json" /\
  hget "Content-Type" (OpenStackAuthConnection.add_default_headers self hdrs)
  = Some "application/json; charset=UTF-8" /\
  (forall name, name <> "Accept" -> name <> "Content-Type" ->
                hget name (OpenStackAuthConnection.add_default_headers self hdrs)
                = hget name hdrs) /\
  OpenStackAuthConnection.add_default_headers self
    (OpenStackAuthConnection.add_default_headers self hdrs)
  = OpenStackAuthConnection.add_default_headers self hdrs.
Proof.
  unfold OpenStackAuthConnection.add_default_headers.
  assert (A : hget "Accept"
                (hset "Content-Type" "application/json; charset=UTF-8"
                   (hset "Accept" "application/json" hdrs))
              = Some "application/json").
  { rewrite hget_hset_other by discriminate. apply hget_hset_same. }
  split; [exact A|]. split; [apply hget_hset_same|]. split.
  - intros name N1 N2. rewrite !hget_hset_other by congruence. reflexivity.
  - rewrite (hset_present "Accept" _ _ A).
    apply hset_present, hget_hset_same.
Qed.

(** X30.  A connection made without a version, or with an empty one,
    authenticates with the 1.1 exchange: once its auth connection is
    made, the request it sends is the 1.1 one. *)
Theorem default_version_is_1_1
        (transport : list Request -> Request -> result Response)
        (json_loads : string -> option value) (json_dumps : value -> string)
        (base_init : string -> string -> string -> result unit)
        (_tuple_from_url : value -> result (string * Z * bool * string))
        (driver : OpenStackBaseConnection.t -> result value)
        (base_defaults : bool -> option string * option Z * bool * option string)
        (auth_url : option string) (accept_format : value)
        (user_id key : string) (secure : bool) (host : option string)
        (port : option Z) (ex_force_base_url ex_force_auth_url version : option string)
        (aurl : string) (log : list Request) :
  version = None \/ version = Some "" ->
  resolved_auth_url
    (OpenStackBaseConnection.new base_defaults auth_url accept_format
    user_id key secure
       host port ex_force_base_url ex_force_auth_url version) = Some aurl ->
  base_init user_id key aurl = Ok tt ->
  snd (snd (OpenStackBaseConnection._populate_hosts_and_request_paths
              transport json_loads json_dumps base_init _tuple_from_url driver
              (OpenStackBaseConnection.new base_defaults auth_url accept_format
              user_id key
                 secure host port ex_force_base_url ex_force_auth_url version,
               log)))
  = (log ++
     [mkRequest aurl "/v1.1/auth"
        (Some (json_dumps
                 (VDict [(KStr "credentials",
                          VDict [(KStr "username", VStr user_id);
                                 (KStr "key", VStr key)])])))
        [] "POST"])%list.
Proof.
  intros Hv Hu Hi.
  rewrite (populate_log transport json_loads json_dumps
             base_init _tuple_from_url driver
             (OpenStackBaseConnection.new base_defaults auth_url accept_format
                user_id key secure host port ex_force_base_url
                ex_force_auth_url version)
             log aurl eq_refl Hu Hi).
  - destruct Hv as [->| ->]; reflexivity.
  - destruct Hv as [->| ->]; simpl; tauto.
Qed.

Lemma default_version_is_1_1_witness :
  snd (snd (OpenStackBaseConnection._populate_hosts_and_request_paths
              refusing Json.loads Json.dumps sample_base_init sample_tuple_from_url
              OpenStackBaseConnection.abstract_get_endpoint
              (OpenStackBaseConnection.new sample_defaults (Some "https://auth.example")
                 (VStr "application/json") "user" "secret" true None None
                 None None (Some ""), [])))
  = [auth_request Json.dumps (sample_auth "1.1")].
Proof.
  apply (default_version_is_1_1 refusing Json.loads Json.dumps
           sample_base_init sample_tuple_from_url
           OpenStackBaseConnection.abstract_get_endpoint sample_defaults
           (Some "https://auth.example") (VStr "application/json") "user"
           "secret" true None None None None (Some "")
           "https://auth.example" []);
    [right; reflexivity | reflexivity | reflexivity].
Defined.
